(** * Appointment timer: billing calculator and appointment store

    A shallow embedding of [main.py]: the two helper functions
    [calculate_duration_minutes] and [calculate_cost], the module-level
    store ([clients], [appointments], the two counters) with [load_data]
    and [save_data], and the methods of [AppointmentTimerApp] that read or
    change the store.

    Python values are modelled as follows.
    - [int] is [Z]; [//] is [Z.div] (both round towards minus infinity),
      guarded by the division-by-zero check Python makes.
    - [float] is IEEE binary64, taken from [SpecFloat] with precision 53
      and maximal exponent 1024; every operation rounds to nearest even,
      as the hardware operation Python uses.
    - [str] is [string]: the bytes of the text in UTF-8 (ASCII text is
      one byte for each character).
    - a [dict] is an association list in insertion order; the appointment
      records, which the program copies and updates in place, live in a
      heap of objects and are referred to by their location.
    - exceptions are the [Err] results of an error monad. *)

From Stdlib Require Import ZArith Lia String Ascii List Bool SpecFloat.
From Stdlib Require Import DecimalString DecimalZ DecimalPos QArith Qround.
From stdpp Require Import base list.
Import ListNotations.
Open Scope Z_scope.

(** ** Exceptions and the error monad *)

Inductive pyexc : Type :=
| ZeroDivisionError
| OverflowError
| ValueError
| TypeError
| KeyError
| AttributeError
| JSONDecodeError.

Inductive result (A : Type) : Type :=
| Ok (a : A)
| Err (e : pyexc).
Arguments Ok {A} a.
Arguments Err {A} e.

Definition bind {A B : Type} (r : result A) (k : A -> result B) : result B :=
  match r with
  | Ok a => k a
  | Err e => Err e
  end.

Notation "'let*' x := r 'in' k" := (bind r (fun x => k))
  (at level 10, x name, r at level 100, k at level 200).
Notation "'let*' ' p := r 'in' k" := (bind r (fun p => k))
  (at level 10, p pattern, r at level 100, k at level 200).

Definition is_ok {A : Type} (r : result A) : bool :=
  match r with Ok _ => true | Err _ => false end.

(** ** Binary64 floating point *)

Module Float64.

Definition prec : Z := 53.
Definition emax : Z := 1024.

Definition float : Type := spec_float.

Definition zero : float := S754_zero false.

Definition add : float -> float -> float := SFadd prec emax.
Definition mul : float -> float -> float := SFmul prec emax.
Definition div : float -> float -> float := SFdiv prec emax.

Definition is_zero (f : float) : bool :=
  match f with S754_zero _ => true | _ => false end.

Definition is_finite (f : float) : bool :=
  match f with S754_zero _ | S754_finite _ _ _ => true | _ => false end.

(** [f >= 0.0], which is true of both zeros and false of nan. *)
Definition nonneg (f : float) : bool :=
  match f with
  | S754_zero _ => true
  | S754_finite s _ _ | S754_infinity s => negb s
  | S754_nan => false
  end.

(** The integer as an unrounded significand with exponent 0: what the
    integer division below rounds from. *)
Definition exact (z : Z) : float :=
  match z with
  | Z0 => S754_zero false
  | Zpos p => S754_finite false p 0
  | Zneg p => S754_finite true p 0
  end.

(** [float(z)]: the integer rounded to binary64. *)
Definition of_Z (z : Z) : float := binary_normalize prec emax z 0 false.

(** [a / b] on two [int]s: the exact quotient rounded once;
    ZeroDivisionError for a zero divisor, OverflowError when the
    quotient is too large for a float. *)
Definition int_truediv (a b : Z) : result float :=
  if b =? 0 then Err ZeroDivisionError
  else
    match div (exact a) (exact b) with
    | S754_infinity _ => Err OverflowError
    | q => Ok q
    end.

(** [x / y] on two [float]s. *)
Definition truediv (x y : float) : result float :=
  if is_zero y then Err ZeroDivisionError else Ok (div x y).

(** [int(x)]: truncation towards zero. *)
Definition to_int (x : float) : result Z :=
  match x with
  | S754_zero _ => Ok 0
  | S754_finite s m e =>
      Ok (cond_Zopp s (if 0 <=? e then Z.pos m * 2 ^ e
                       else Z.pos m / 2 ^ (- e)))
  | S754_infinity _ => Err OverflowError
  | S754_nan => Err ValueError
  end.

End Float64.

Abbreviation float := Float64.float.

(** ** Times of day and calendar dates *)

(** [datetime.time], naive: the constructor keeps every field in range
    ([time_ok]). *)
Record time : Type := mk_time
  { hour : Z; minute : Z; second : Z; microsecond : Z }.

Definition time_ok (t : time) : Prop :=
  0 <= hour t < 24 /\ 0 <= minute t < 60 /\ 0 <= second t < 60 /\
  0 <= microsecond t < 1000000.

(** Comparison of two naive times: the tuples (hour, minute, second,
    microsecond) in lexicographic order. *)
Definition time_ltb (a b : time) : bool :=
  if hour a <? hour b then true
  else if hour b <? hour a then false
  else if minute a <? minute b then true
  else if minute b <? minute a then false
  else if second a <? second b then true
  else if second b <? second a then false
  else microsecond a <? microsecond b.

(** Microseconds since midnight. *)
Definition time_us (t : time) : Z :=
  ((hour t * 60 + minute t) * 60 + second t) * 1000000 + microsecond t.

(** A [datetime]: the proleptic ordinal of its day and its time of day. *)
Record datetime : Type := mk_datetime { dt_day : Z; dt_time : time }.

(** The ordinal of 9999-12-31, the last day a [datetime] can hold. *)
Definition max_ordinal : Z := 3652059.

Definition day_ok (d : Z) : Prop := 1 <= d <= max_ordinal.

(** [datetime.combine(d, t)]: the date part of [d] with the time [t]. *)
Definition combine (d : Z) (t : time) : datetime := mk_datetime d t.

(** [dt + timedelta(days=n)]: OverflowError outside the years 1..9999. *)
Definition add_days (dt : datetime) (n : Z) : result datetime :=
  let d := dt_day dt + n in
  if (1 <=? d) && (d <=? max_ordinal) then Ok (mk_datetime d (dt_time dt))
  else Err OverflowError.

(** [a - b] on two datetimes: a timedelta, held as its microseconds. *)
Definition datetime_sub (a b : datetime) : Z :=
  (dt_day a - dt_day b) * 86400000000 + (time_us (dt_time a) - time_us (dt_time b)).

(** [td.total_seconds()]: the microseconds divided by 10**6, as a float. *)
Definition total_seconds (td : Z) : result float :=
  Float64.int_truediv td 1000000.

(** ** Helper functions *)

(** [calculate_duration_minutes]; [today_s] and [today_e] are the two
    readings of [datetime.today()], of which [combine] keeps the day. *)
Definition calculate_duration_minutes
    (today_s today_e : Z) (start_time end_time : time) : result Z :=
  let start_dt := combine today_s start_time in
  let end_dt := combine today_e end_time in
  let* end_dt := (if time_ltb end_time start_time then add_days end_dt 1
                  else Ok end_dt) in
  let duration := datetime_sub end_dt start_dt in
  let* secs := total_seconds duration in
  let* mins := Float64.truediv secs (Float64.of_Z 60) in
  Float64.to_int mins.

(** [a // b] on two [int]s. *)
Definition floordiv (a b : Z) : result Z :=
  if b =? 0 then Err ZeroDivisionError else Ok (a / b).

(** The first line of [calculate_cost]: the minutes that are billed. *)
Definition rounded_minutes (duration_minutes time_increment_minutes : Z)
  : result Z :=
  let* q := floordiv (duration_minutes + time_increment_minutes - 1)
                     time_increment_minutes in
  Ok (q * time_increment_minutes).

(** [calculate_cost]. *)
Definition calculate_cost
    (duration_minutes : Z) (hourly_rate : float) (time_increment_minutes : Z)
  : result float :=
  let* rounded := rounded_minutes duration_minutes time_increment_minutes in
  let* hours := Float64.int_truediv rounded 60 in
  Ok (Float64.mul hourly_rate hours).


(** ** Python values and dictionaries *)

#[warnings="-register-all"]
Inductive pyval : Type :=
| VNone
| VBool (b : bool)
| VInt (z : Z)
| VFloat (f : float)
| VStr (s : string)
| VTime (t : time)
| VList (l : list pyval)
| VDict (d : list (string * pyval)).

Abbreviation pydict := (list (string * pyval)).

(** Truth value of an object. *)
Definition truthy (v : pyval) : bool :=
  match v with
  | VNone => false
  | VBool b => b
  | VInt z => negb (z =? 0)
  | VFloat f => negb (Float64.is_zero f)
  | VStr s => negb (String.eqb s "")
  | VTime _ => true
  | VList l => match l with [] => false | _ => true end
  | VDict d => match d with [] => false | _ => true end
  end.

Section Dict.

Context {V : Type}.

(** [d.get(k)]. *)
Fixpoint dict_get (d : list (string * V)) (k : string) : option V :=
  match d with
  | [] => None
  | (k', v) :: r => if String.eqb k' k then Some v else dict_get r k
  end.

(** [d[k] = v]: an existing key keeps its place, a new one goes last. *)
Fixpoint dict_set (d : list (string * V)) (k : string) (v : V)
  : list (string * V) :=
  match d with
  | [] => [(k, v)]
  | (k', v') :: r =>
      if String.eqb k' k then (k', v) :: r else (k', v') :: dict_set r k v
  end.

(** [d.update(other)]. *)
Definition dict_update (d other : list (string * V)) : list (string * V) :=
  fold_left (fun acc kv => dict_set acc (fst kv) (snd kv)) other d.

Definition keys (d : list (string * V)) : list string := map fst d.
Definition values (d : list (string * V)) : list V := map snd d.

(** [d[k]]. *)
Definition dict_item (d : list (string * V)) (k : string) : result V :=
  match dict_get d k with
  | Some v => Ok v
  | None => Err KeyError
  end.

End Dict.

(** [v[k]] for a string [k]: only a dict can be indexed by a string. *)
Definition subscript (v : pyval) (k : string) : result pyval :=
  match v with
  | VDict d => dict_item d k
  | _ => Err TypeError
  end.

(** [a + b] as the totals of the appointment list use it. *)
Definition as_number (v : pyval) : option (Z + float) :=
  match v with
  | VInt z => Some (inl z)
  | VBool b => Some (inl (if b then 1 else 0))
  | VFloat f => Some (inr f)
  | _ => None
  end.

(** [float(z)] in mixed arithmetic: OverflowError past the float range. *)
Definition float_of_int (z : Z) : result float :=
  match Float64.of_Z z with
  | S754_infinity _ => Err OverflowError
  | f => Ok f
  end.

Definition py_add (a b : pyval) : result pyval :=
  match as_number a, as_number b with
  | Some (inl x), Some (inl y) => Ok (VInt (x + y))
  | Some (inl x), Some (inr g) =>
      let* f := float_of_int x in Ok (VFloat (Float64.add f g))
  | Some (inr f), Some (inl y) =>
      let* g := float_of_int y in Ok (VFloat (Float64.add f g))
  | Some (inr f), Some (inr g) => Ok (VFloat (Float64.add f g))
  | _, _ => Err TypeError
  end.

(** ** Strings: integers, times and dates as text *)

(** [str(n)], the text of [f"{n}"] for an [int]. *)
Definition str_of_int (n : Z) : string := NilZero.string_of_int (Z.to_int n).

(** [s[1:]]. *)
Definition tail (s : string) : string :=
  match s with
  | EmptyString => EmptyString
  | String _ r => r
  end.

(** ASCII white space, as [str.strip] and [int] see it. *)
Definition is_space (c : ascii) : bool :=
  let n := nat_of_ascii c in
  ((9 <=? n)%nat && (n <=? 13)%nat) || ((28 <=? n)%nat && (n <=? 32)%nat).

Fixpoint lstrip (l : list ascii) : list ascii :=
  match l with
  | c :: r => if is_space c then lstrip r else l
  | [] => []
  end.

Definition strip_chars (l : list ascii) : list ascii :=
  rev (lstrip (rev (lstrip l))).

(** [s.strip()]. *)
Definition strip (s : string) : string :=
  string_of_list_ascii (strip_chars (list_ascii_of_string s)).

Definition digit_cons (c : ascii) : option (Decimal.uint -> Decimal.uint) :=
  match c with
  | "0"%char => Some Decimal.D0
  | "1"%char => Some Decimal.D1
  | "2"%char => Some Decimal.D2
  | "3"%char => Some Decimal.D3
  | "4"%char => Some Decimal.D4
  | "5"%char => Some Decimal.D5
  | "6"%char => Some Decimal.D6
  | "7"%char => Some Decimal.D7
  | "8"%char => Some Decimal.D8
  | "9"%char => Some Decimal.D9
  | _ => None
  end.

(** The digits of an integer literal for [int]: decimal digits, with
    single underscores allowed between two digits. *)
Fixpoint parse_uint (after_digit : bool) (l : list ascii)
  : option Decimal.uint :=
  match l with
  | [] => if after_digit then Some Decimal.Nil else None
  | c :: r =>
      if Ascii.eqb c "_" then
        if after_digit then parse_uint false r else None
      else
        match digit_cons c with
        | Some D => option_map D (parse_uint true r)
        | None => None
        end
  end.

(** [int(s)] for a string: optional white space around an optional sign
    and the digits; ValueError otherwise. *)
Definition py_int (s : string) : result Z :=
  let body := strip_chars (list_ascii_of_string s) in
  let signed :=
    match body with
    | "-"%char :: r => option_map Decimal.Neg (parse_uint false r)
    | "+"%char :: r => option_map Decimal.Pos (parse_uint false r)
    | _ => option_map Decimal.Pos (parse_uint false body)
    end in
  match signed with
  | Some d => Ok (Z.of_int d)
  | None => Err ValueError
  end.

Definition digit_val (c : ascii) : option Z :=
  let n := Z.of_nat (nat_of_ascii c) in
  if (48 <=? n) && (n <=? 57) then Some (n - 48) else None.

Definition digit_char (d : Z) : ascii := ascii_of_nat (48 + Z.to_nat d).

(** A number printed with two digits ([%H], [%M], [%S], [MM], [dd]). *)
Definition pad2 (n : Z) : string :=
  String (digit_char (n / 10)) (String (digit_char (n mod 10)) EmptyString).

(** A number printed with four digits ([yyyy]). *)
Definition pad4 (n : Z) : string :=
  String (digit_char (n / 1000))
    (String (digit_char (n / 100 mod 10)) (pad2 (n mod 100))).

(** The value of a run of decimal digits. *)
Fixpoint digits_val (acc : Z) (l : list ascii) : option Z :=
  match l with
  | [] => Some acc
  | c :: r =>
      match digit_val c with
      | Some d => digits_val (acc * 10 + d) r
      | None => None
      end
  end.

(** A field of [strptime]: between [lo] and [hi] digits. *)
Definition field (lo hi : nat) (l : list ascii) : option Z :=
  if (lo <=? length l)%nat && (length l <=? hi)%nat then digits_val 0 l
  else None.

(** The fields of a text between the separators [sep]. *)
Fixpoint split_on (sep : ascii) (l : list ascii) : list (list ascii) :=
  match l with
  | [] => [[]]
  | c :: r =>
      if Ascii.eqb c sep then [] :: split_on sep r
      else
        match split_on sep r with
        | f :: fs => (c :: f) :: fs
        | [] => [[c]]
        end
  end.

(** [t.strftime("%H:%M:%S")]. *)
Definition format_time (t : time) : string :=
  pad2 (hour t) ++ ":" ++ pad2 (minute t) ++ ":" ++ pad2 (second t).

(** [datetime.strptime(s, "%H:%M:%S").time()]: one or two digits for each
    field, hours to 23, minutes to 59; the pattern takes seconds to 61,
    of which the time constructor refuses 60 and 61. *)
Definition parse_time (s : string) : result time :=
  match split_on ":" (list_ascii_of_string s) with
  | [h; m; sec] =>
      match field 1 2 h, field 1 2 m, field 1 2 sec with
      | Some h, Some m, Some sec =>
          if (h <=? 23) && (m <=? 59) && (sec <=? 59)
          then Ok (mk_time h m sec 0)
          else Err ValueError
      | _, _, _ => Err ValueError
      end
  | _ => Err ValueError
  end.

(** [datetime.date]. *)
Record date : Type := mk_date { year : Z; month : Z; day : Z }.

Definition is_leap (y : Z) : bool :=
  (y mod 4 =? 0) && (negb (y mod 100 =? 0) || (y mod 400 =? 0)).

Definition days_in_month (y m : Z) : Z :=
  if m =? 2 then (if is_leap y then 29 else 28)
  else if (m =? 4) || (m =? 6) || (m =? 9) || (m =? 11) then 30
  else 31.

Definition date_okb (d : date) : bool :=
  (1 <=? year d) && (year d <=? 9999) &&
  (1 <=? month d) && (month d <=? 12) &&
  (1 <=? day d) && (day d <=? days_in_month (year d) (month d)).

(** Comparison of dates: (year, month, day) in lexicographic order. *)
Definition date_ltb (a b : date) : bool :=
  if year a <? year b then true
  else if year b <? year a then false
  else if month a <? month b then true
  else if month b <? month a then false
  else day a <? day b.

Definition date_leb (a b : date) : bool := negb (date_ltb b a).

(** [QDate.toString("yyyy-MM-dd")]. *)
Definition format_date (d : date) : string :=
  pad4 (year d) ++ "-" ++ pad2 (month d) ++ "-" ++ pad2 (day d).

(** The day field of [%d], which also takes a space and one digit. *)
Definition day_field (l : list ascii) : option Z :=
  match l with
  | " "%char :: r => field 1 1 r
  | _ => field 1 2 l
  end.

(** [datetime.strptime(s, "%Y-%m-%d").date()]. *)
Definition parse_date (s : string) : result date :=
  match split_on "-" (list_ascii_of_string s) with
  | [y; m; d] =>
      match field 4 4 y, field 1 2 m, day_field d with
      | Some y, Some m, Some d =>
          if date_okb (mk_date y m d) then Ok (mk_date y m d)
          else Err ValueError
      | _, _, _ => Err ValueError
      end
  | _ => Err ValueError
  end.

(** [datetime.strptime(v, fmt)] needs a string. *)
Definition strptime_time (v : pyval) : result time :=
  match v with
  | VStr s => parse_time s
  | _ => Err TypeError
  end.

Definition strptime_date (v : pyval) : result date :=
  match v with
  | VStr s => parse_date s
  | _ => Err TypeError
  end.

(** [v.strftime(fmt)]: only a time has the method here. *)
Definition strftime (v : pyval) : result string :=
  match v with
  | VTime t => Ok (format_time t)
  | _ => Err AttributeError
  end.


(** ** The world: module globals, objects, files and the window *)

(** A file is held as what [json.load] makes of its text: a document, or
    JSONDecodeError for text that is not JSON.  A document never contains
    a time, and [json.dump] refuses one (TypeError). *)
Inductive file : Type :=
| FileJson (doc : pyval)
| FileCorrupt.

Fixpoint serializable (v : pyval) : bool :=
  match v with
  | VTime _ => false
  | VList l => forallb serializable l
  | VDict d => forallb (fun kv => let '(_, x) := kv in serializable x) d
  | _ => true
  end.

Definition json_load (f : file) : result pyval :=
  match f with
  | FileJson doc => Ok doc
  | FileCorrupt => Err JSONDecodeError
  end.

(** A line of the client list: the name, and the phone and the email when
    they are shown. *)
Definition client_item : Type := string * option pyval * option pyval.

(** A line of the appointment list: the values its text is made of. *)
Record row : Type := mk_row
  { row_date : pyval;
    row_start : string;
    row_end : string;
    row_duration : pyval;
    row_cost : pyval }.

Inductive page : Type := ClientsPage | AppointmentsPage.

Record world : Type := mk_world
  { (* module globals *)
    clients : pydict;
    appointments : list (string * nat);
    client_counter : Z;
    appointment_counter : Z;
    (* the appointment records, by location *)
    heap : list pydict;
    (* appts/clients.json and appts/appointments.json *)
    clients_file : option file;
    appts_file : option file;
    (* attributes of the window *)
    current_client_id : option string;
    date_filter_active : bool;
    filter_from : option date;
    filter_to : option date;
    (* widgets *)
    client_list : list client_item;
    client_label : option pyval;
    appt_list : list row;
    total_appointments_label : pyval;
    total_duration_label : pyval;
    total_cost_label : pyval;
    current_page : page;
    warnings : list string }.

Definition set_clients (x : pydict) (w : world) : world :=
  mk_world x (appointments w) (client_counter w) (appointment_counter w)
    (heap w) (clients_file w) (appts_file w) (current_client_id w)
    (date_filter_active w) (filter_from w) (filter_to w) (client_list w)
    (client_label w) (appt_list w) (total_appointments_label w)
    (total_duration_label w) (total_cost_label w) (current_page w)
    (warnings w).

Definition set_appointments (x : list (string * nat)) (w : world) : world :=
  mk_world (clients w) x (client_counter w) (appointment_counter w)
    (heap w) (clients_file w) (appts_file w) (current_client_id w)
    (date_filter_active w) (filter_from w) (filter_to w) (client_list w)
    (client_label w) (appt_list w) (total_appointments_label w)
    (total_duration_label w) (total_cost_label w) (current_page w)
    (warnings w).

Definition set_client_counter (x : Z) (w : world) : world :=
  mk_world (clients w) (appointments w) x (appointment_counter w)
    (heap w) (clients_file w) (appts_file w) (current_client_id w)
    (date_filter_active w) (filter_from w) (filter_to w) (client_list w)
    (client_label w) (appt_list w) (total_appointments_label w)
    (total_duration_label w) (total_cost_label w) (current_page w)
    (warnings w).

Definition set_appointment_counter (x : Z) (w : world) : world :=
  mk_world (clients w) (appointments w) (client_counter w) x
    (heap w) (clients_file w) (appts_file w) (current_client_id w)
    (date_filter_active w) (filter_from w) (filter_to w) (client_list w)
    (client_label w) (appt_list w) (total_appointments_label w)
    (total_duration_label w) (total_cost_label w) (current_page w)
    (warnings w).

Definition set_heap (x : list pydict) (w : world) : world :=
  mk_world (clients w) (appointments w) (client_counter w)
    (appointment_counter w) x (clients_file w) (appts_file w)
    (current_client_id w) (date_filter_active w) (filter_from w)
    (filter_to w) (client_list w) (client_label w) (appt_list w)
    (total_appointments_label w) (total_duration_label w)
    (total_cost_label w) (current_page w) (warnings w).

Definition set_clients_file (x : option file) (w : world) : world :=
  mk_world (clients w) (appointments w) (client_counter w)
    (appointment_counter w) (heap w) x (appts_file w)
    (current_client_id w) (date_filter_active w) (filter_from w)
    (filter_to w) (client_list w) (client_label w) (appt_list w)
    (total_appointments_label w) (total_duration_label w)
    (total_cost_label w) (current_page w) (warnings w).

Definition set_appts_file (x : option file) (w : world) : world :=
  mk_world (clients w) (appointments w) (client_counter w)
    (appointment_counter w) (heap w) (clients_file w) x
    (current_client_id w) (date_filter_active w) (filter_from w)
    (filter_to w) (client_list w) (client_label w) (appt_list w)
    (total_appointments_label w) (total_duration_label w)
    (total_cost_label w) (current_page w) (warnings w).

Definition set_current_client_id (x : option string) (w : world) : world :=
  mk_world (clients w) (appointments w) (client_counter w)
    (appointment_counter w) (heap w) (clients_file w) (appts_file w)
    x (date_filter_active w) (filter_from w)
    (filter_to w) (client_list w) (client_label w) (appt_list w)
    (total_appointments_label w) (total_duration_label w)
    (total_cost_label w) (current_page w) (warnings w).

Definition set_filter (active : bool) (from to : option date) (w : world)
  : world :=
  mk_world (clients w) (appointments w) (client_counter w)
    (appointment_counter w) (heap w) (clients_file w) (appts_file w)
    (current_client_id w) active from to (client_list w) (client_label w)
    (appt_list w) (total_appointments_label w) (total_duration_label w)
    (total_cost_label w) (current_page w) (warnings w).

Definition set_client_list (x : list client_item) (w : world) : world :=
  mk_world (clients w) (appointments w) (client_counter w)
    (appointment_counter w) (heap w) (clients_file w) (appts_file w)
    (current_client_id w) (date_filter_active w) (filter_from w)
    (filter_to w) x (client_label w) (appt_list w)
    (total_appointments_label w) (total_duration_label w)
    (total_cost_label w) (current_page w) (warnings w).

Definition set_client_label (x : option pyval) (w : world) : world :=
  mk_world (clients w) (appointments w) (client_counter w)
    (appointment_counter w) (heap w) (clients_file w) (appts_file w)
    (current_client_id w) (date_filter_active w) (filter_from w)
    (filter_to w) (client_list w) x (appt_list w)
    (total_appointments_label w) (total_duration_label w)
    (total_cost_label w) (current_page w) (warnings w).

Definition set_appt_list (x : list row) (w : world) : world :=
  mk_world (clients w) (appointments w) (client_counter w)
    (appointment_counter w) (heap w) (clients_file w) (appts_file w)
    (current_client_id w) (date_filter_active w) (filter_from w)
    (filter_to w) (client_list w) (client_label w) x
    (total_appointments_label w) (total_duration_label w)
    (total_cost_label w) (current_page w) (warnings w).

Definition set_totals (count duration cost : pyval) (w : world) : world :=
  mk_world (clients w) (appointments w) (client_counter w)
    (appointment_counter w) (heap w) (clients_file w) (appts_file w)
    (current_client_id w) (date_filter_active w) (filter_from w)
    (filter_to w) (client_list w) (client_label w) (appt_list w)
    count duration cost (current_page w) (warnings w).

Definition set_current_page (x : page) (w : world) : world :=
  mk_world (clients w) (appointments w) (client_counter w)
    (appointment_counter w) (heap w) (clients_file w) (appts_file w)
    (current_client_id w) (date_filter_active w) (filter_from w)
    (filter_to w) (client_list w) (client_label w) (appt_list w)
    (total_appointments_label w) (total_duration_label w)
    (total_cost_label w) x (warnings w).

Definition add_warning (x : string) (w : world) : world :=
  mk_world (clients w) (appointments w) (client_counter w)
    (appointment_counter w) (heap w) (clients_file w) (appts_file w)
    (current_client_id w) (date_filter_active w) (filter_from w)
    (filter_to w) (client_list w) (client_label w) (appt_list w)
    (total_appointments_label w) (total_duration_label w)
    (total_cost_label w) (current_page w) (warnings w ++ [x]).

(** The object at a location. *)
Definition deref (w : world) (l : nat) : pydict := heap w !!! l.

(** A new object; its location is the next free one. *)
Definition alloc (d : pydict) (w : world) : nat * world :=
  (length (heap w), set_heap (heap w ++ [d]) w).

(** ** Procedures: a state monad in which a raised exception keeps the
    state reached so far *)

Definition M (A : Type) : Type := world -> result A * world.

Definition ret {A : Type} (a : A) : M A := fun w => (Ok a, w).

Definition raise {A : Type} (e : pyexc) : M A := fun w => (Err e, w).

Definition mbind {A B : Type} (c : M A) (k : A -> M B) : M B :=
  fun w =>
    match c w with
    | (Ok a, w') => k a w'
    | (Err e, w') => (Err e, w')
    end.

Notation "'do*' x := c 'in' k" := (mbind c (fun x => k))
  (at level 10, x name, c at level 100, k at level 200).
Notation "c ';;' k" := (mbind c (fun _ => k))
  (at level 100, right associativity).

(** A computation that only reads the state. *)
Definition lift {A : Type} (r : world -> result A) : M A :=
  fun w => (r w, w).

(** A state change that cannot fail. *)
Definition update (f : world -> world) : M unit := fun w => (Ok tt, f w).

(** [for x in l: body x]. *)
Fixpoint for_each {A : Type} (l : list A) (body : A -> M unit) : M unit :=
  match l with
  | [] => ret tt
  | x :: r => body x ;; for_each r body
  end.

Definition get {A : Type} (f : world -> A) : M A := fun w => (Ok (f w), w).

Definition attempt {A : Type} (r : result A) : M A := fun w => (r, w).

(** A loop that carries a local variable. *)
Fixpoint fold_each {A S : Type} (l : list A) (s : S) (body : A -> S -> M S)
  : M S :=
  match l with
  | [] => ret s
  | x :: r => do* s' := body x s in fold_each r s' body
  end.

Definition new_object (d : pydict) : M nat :=
  fun w => let '(l, w') := alloc d w in (Ok l, w').

(** [v.copy()]: a new object with the same items. *)
Definition copy_object (l : nat) : M nat := fun w => new_object (deref w l) w.

(** [v[k]] and [v[k] = x] on the object at [l]. *)
Definition get_item (l : nat) (k : string) : M pyval :=
  lift (fun w => dict_item (deref w l) k).

Definition set_item (l : nat) (k : string) (x : pyval) : M unit :=
  update (fun w => set_heap (<[l := dict_set (deref w l) k x]> (heap w)) w).

(** ** [load_data] *)

Fixpoint map_result {A B : Type} (f : A -> result B) (l : list A)
  : result (list B) :=
  match l with
  | [] => Ok []
  | x :: r => let* y := f x in let* ys := map_result f r in Ok (y :: ys)
  end.

(** [max(int(k[1:]) for k in ks) + 1]. *)
Definition next_counter (ks : list string) : result Z :=
  let* ns := map_result (fun k => py_int (tail k)) ks in
  match ns with
  | n :: r => Ok (fold_left Z.max r n + 1)
  | [] => Err ValueError
  end.

(** A byte that continues a character of a UTF-8 text. *)
Definition is_continuation (c : ascii) : bool :=
  let n := nat_of_ascii c in (128 <=? n)%nat && (n <=? 191)%nat.

(** [list(s)]: the characters of a text, each with the bytes that
    continue it. *)
Fixpoint chars_of (l : list ascii) : list (list ascii) :=
  match l with
  | [] => []
  | c :: r =>
      let gs := chars_of r in
      match r with
      | c' :: _ =>
          if is_continuation c' then
            match gs with
            | g :: gs' => (c :: g) :: gs'
            | [] => [[c]]
            end
          else [c] :: gs
      | [] => [[c]]
      end
  end.

(** What [dict.update] makes of one element of a sequence: the element
    as a sequence of two, its key and its value.  A list gives its two
    elements, a text its two characters, a dict its two keys; an element
    of another length is refused with ValueError, one that is no sequence
    with TypeError. *)
Definition update_pair (x : pyval) : result (pyval * pyval) :=
  match x with
  | VList [k; v] => Ok (k, v)
  | VList _ => Err ValueError
  | VStr s =>
      match chars_of (list_ascii_of_string s) with
      | [a; b] =>
          Ok (VStr (string_of_list_ascii a), VStr (string_of_list_ascii b))
      | _ => Err ValueError
      end
  | VDict [(a, _); (b, _)] => Ok (VStr a, VStr b)
  | VDict _ => Err ValueError
  | _ => Err TypeError
  end.

(** One element of a sequence given to [clients.update].  A key that is
    a list or a dict is refused with TypeError (it cannot be hashed).  A
    key that is a number, a truth value or None is kept by Python, which
    raises TypeError at that key when the counters are set; the dicts
    here have texts as keys, and the TypeError is raised at once: in both
    the window is not built. *)
Definition update_item (x : pyval) : M unit :=
  do* kv := attempt (update_pair x) in
  match fst kv with
  | VStr k => update (fun w => set_clients (dict_set (clients w) k (snd kv)) w)
  | _ => raise TypeError
  end.

(** The clients file: [clients.update(json.load(f))].  An object is
    merged; a list is taken as a sequence of pairs, and so is a text,
    whose characters are no pairs; any other document is refused with
    TypeError. *)
Definition load_clients : M unit :=
  do* file := get clients_file in
  match file with
  | None => ret tt
  | Some f =>
      do* doc := attempt (json_load f) in
      match doc with
      | VDict d => update (fun w => set_clients (dict_update (clients w) d) w)
      | VList l => for_each l update_item
      | VStr s => if String.eqb s "" then ret tt else raise ValueError
      | _ => raise TypeError
      end
  end.

(** One turn of the loop over [appts.items()]; the record is a new
    object, changed in place. *)
Definition load_appointment (kv : string * pyval) : M unit :=
  let '(k, v) := kv in
  match v with
  | VDict d =>
      do* l := new_object d in
      do* s := get_item l "start" in
      do* t := attempt (strptime_time s) in
      set_item l "start" (VTime t) ;;
      do* e := get_item l "end" in
      do* t' := attempt (strptime_time e) in
      set_item l "end" (VTime t') ;;
      update (fun w => set_appointments (dict_set (appointments w) k l) w)
  | _ => raise TypeError
  end.

Definition load_appointments_file : M unit :=
  do* file := get appts_file in
  match file with
  | None => ret tt
  | Some f =>
      do* doc := attempt (json_load f) in
      match doc with
      | VDict appts => for_each appts load_appointment
      | _ => raise AttributeError
      end
  end.

Definition update_counters : M unit :=
  do* cs := get clients in
  match cs with
  | [] => ret tt
  | _ =>
      do* n := attempt (next_counter (keys cs)) in
      update (set_client_counter n)
  end ;;
  do* aps := get appointments in
  match aps with
  | [] => ret tt
  | _ =>
      do* n := attempt (next_counter (keys aps)) in
      update (set_appointment_counter n)
  end.

Definition load_data : M unit :=
  load_clients ;; load_appointments_file ;; update_counters.

(** ** [save_data] *)

(** [with open(path, "w") as f: json.dump(v, f)]: the file is emptied
    before the dump, so a refused dump leaves text that is not JSON. *)
Definition write_json (set_file : option file -> world -> world) (v : pyval)
  : M unit :=
  if serializable v then update (set_file (Some (FileJson v)))
  else update (set_file (Some FileCorrupt)) ;; raise TypeError.

(** One turn of the loop over [appointments.items()]. *)
Definition save_appointment (kv : string * nat) (to_save : list (string * nat))
  : M (list (string * nat)) :=
  let '(k, v) := kv in
  do* appt_copy := copy_object v in
  do* s := get_item appt_copy "start" in
  do* s' := attempt (strftime s) in
  set_item appt_copy "start" (VStr s') ;;
  do* e := get_item appt_copy "end" in
  do* e' := attempt (strftime e) in
  set_item appt_copy "end" (VStr e') ;;
  ret (dict_set to_save k appt_copy).

(** The document of a dict of records. *)
Definition document (w : world) (d : list (string * nat)) : pyval :=
  VDict (map (fun kl => (fst kl, VDict (deref w (snd kl)))) d).

Definition save_data : M unit :=
  do* cs := get clients in
  write_json set_clients_file (VDict cs) ;;
  do* aps := get appointments in
  do* to_save := fold_each aps [] save_appointment in
  do* doc := get (fun w => document w to_save) in
  write_json set_appts_file doc.

(** ** The window *)

(** [t.strftime("%I:%M %p")]. *)
Definition format_time12 (t : time) : string :=
  pad2 (if hour t mod 12 =? 0 then 12 else hour t mod 12) ++ ":" ++
  pad2 (minute t) ++ " " ++ (if hour t <? 12 then "AM" else "PM").

Definition strftime12 (v : pyval) : result string :=
  match v with
  | VTime t => Ok (format_time12 t)
  | _ => Err AttributeError
  end.

(** Whether [f"{v:.2f}"] is accepted: an [int] is turned into a float
    first, which fails with OverflowError past the float range. *)
Definition format_fixed (v : pyval) : result unit :=
  match v with
  | VInt z => let* _ := float_of_int z in Ok tt
  | VBool _ | VFloat _ | VTime _ => Ok tt
  | VStr _ => Err ValueError
  | _ => Err TypeError
  end.

Definition is_str (v : pyval) (s : string) : bool :=
  match v with
  | VStr s' => String.eqb s' s
  | _ => false
  end.

(** The date filter of [load_appointments]: whether the record is
    skipped. *)
Definition filtered_out (w : world) (appt : pydict) : result bool :=
  if date_filter_active w then
    let* dv := dict_item appt "date" in
    let* appt_date := strptime_date dv in
    if match filter_from w with
       | Some from => date_ltb appt_date from
       | None => false
       end
    then Ok true
    else if match filter_to w with
            | Some to => date_ltb to appt_date
            | None => false
            end
         then Ok true
         else Ok false
  else Ok false.

Definition render_row (appt : pydict) : result row :=
  let* s := dict_item appt "start" in
  let* start := strftime12 s in
  let* e := dict_item appt "end" in
  let* end_ := strftime12 e in
  let* dur := dict_item appt "duration" in
  let* cost := dict_item appt "cost" in
  let* _ := format_fixed cost in
  let* d := dict_item appt "date" in
  Ok (mk_row d start end_ dur cost).

(** One turn of the loop of [load_appointments]; the local variables
    are the three totals. *)
Definition list_appointment (cid : string) (l : nat)
    (totals : Z * pyval * pyval) : M (Z * pyval * pyval) :=
  do* appt := get (fun w => deref w l) in
  do* c := attempt (dict_item appt "client_id") in
  if is_str c cid then
    do* skip := lift (fun w => filtered_out w appt) in
    if skip : bool then ret totals
    else
      do* r := attempt (render_row appt) in
      update (fun w => set_appt_list (appt_list w ++ [r]) w) ;;
      let '(total_count, total_duration, total_cost) := totals in
      do* total_duration := attempt (py_add total_duration (row_duration r)) in
      do* total_cost := attempt (py_add total_cost (row_cost r)) in
      ret (total_count + 1, total_duration, total_cost)
  else ret totals.

Definition selected (cur : option string) : option string :=
  match cur with
  | Some cid => if String.eqb cid "" then None else Some cid
  | None => None
  end.

Definition load_appointments : M unit :=
  update (set_appt_list []) ;;
  do* cur := get current_client_id in
  match selected cur with
  | None => update (set_totals (VInt 0) (VInt 0) (VFloat Float64.zero))
  | Some cid =>
      do* client := lift (fun w => dict_item (clients w) cid) in
      do* client_name := attempt (subscript client "name") in
      update (set_client_label (Some client_name)) ;;
      do* ls := get (fun w => values (appointments w)) in
      do* totals := fold_each ls (0, VInt 0, VFloat Float64.zero)
                              (list_appointment cid) in
      let '(total_count, total_duration, total_cost) := totals in
      update (set_totals (VInt total_count) total_duration total_cost)
  end.

(** One turn of the loop of [refresh_client_list].  A name that is a
    string gives a line.  A name that is None cannot take a phone or an
    email ([+=] raises TypeError) and alone adds no line: [addItem(None)]
    returns.  Any other name ends in TypeError, from [+=] or from the list
    widget; a name that is a list is first extended in place by the text
    of a phone or an email, a change of the client that is left out here
    (the text of a value that is not a string is not modelled). *)
Definition show_client (kv : string * pyval) : M unit :=
  let '(_, data) := kv in
  do* name := attempt (subscript data "name") in
  match data, name with
  | VDict d, VStr n =>
      let shown (k : string) := match dict_get d k with
                     | Some v => if truthy v then Some v else None
                     | None => None
                     end in
      update (fun w => set_client_list
                         (client_list w ++ [(n, shown "phone"%string, shown "email"%string)]) w)
  | VDict d, VNone =>
      let shown (k : string) := match dict_get d k with
                     | Some v => if truthy v then Some v else None
                     | None => None
                     end in
      match shown "phone"%string, shown "email"%string with
      | None, None => ret tt
      | _, _ => raise TypeError
      end
  | _, _ => raise TypeError
  end.

Definition refresh_client_list : M unit :=
  update (set_client_list []) ;;
  do* cs := get clients in
  for_each cs show_client.

(** [add_client]; the arguments are the texts of the three inputs. *)
Definition add_client (name phone email : string) : M unit :=
  let name := strip name in
  let phone := strip phone in
  let email := strip email in
  if String.eqb name "" then update (add_warning "Name is required")
  else
    do* n := get client_counter in
    let cid := ("c" ++ str_of_int n)%string in
    update (set_client_counter (n + 1)) ;;
    update (fun w => set_clients
      (dict_set (clients w) cid
         (VDict [("name", VStr name); ("phone", VStr phone);
                 ("email", VStr email)]%string)) w) ;;
    refresh_client_list ;;
    save_data.

(** The loop of [open_client_appointments]: the first client of that
    name. *)
Fixpoint find_client (cs : pydict) (name : string) : result (option string) :=
  match cs with
  | [] => Ok None
  | (cid, data) :: r =>
      let* n := subscript data "name" in
      if is_str n name then Ok (Some cid) else find_client r name
  end.

(** [open_client_appointments]; [name] is the text of the item up to its
    first bullet. *)
Definition open_client_appointments (name : string) : M unit :=
  do* found := lift (fun w => find_client (clients w) name) in
  match found with
  | Some cid => update (set_current_client_id (Some cid))
  | None => ret tt
  end ;;
  do* cur := get current_client_id in
  match selected cur with
  | Some _ => load_appointments ;; update (set_current_page AppointmentsPage)
  | None => ret tt
  end.

Definition go_back_to_clients : M unit :=
  refresh_client_list ;; update (set_current_page ClientsPage).

(** [apply_date_filter]; the arguments are the dates of the two filter
    inputs. *)
Definition apply_date_filter (from to : date) : M unit :=
  update (fun w => set_filter (date_filter_active w) (Some from) (Some to) w) ;;
  if date_ltb to from then
    update (add_warning "From date must be before or equal to To date")
  else
    update (fun w => set_filter true (filter_from w) (filter_to w) w) ;;
    load_appointments.

Definition clear_date_filter : M unit :=
  update (set_filter false None None) ;; load_appointments.

(** [add_appointment]; the arguments are the two clock readings and the
    values of the date, time, rate and increment inputs. *)
Definition add_appointment (today_s today_e : Z) (d : date)
    (start_time end_time : time) (rate : float) (increment : Z) : M unit :=
  do* cur := get current_client_id in
  match selected cur with
  | None => update (add_warning "No client selected")
  | Some cid =>
      let date_str := format_date d in
      do* duration := attempt (calculate_duration_minutes
                                 today_s today_e start_time end_time) in
      do* cost := attempt (calculate_cost duration rate increment) in
      do* n := get appointment_counter in
      let aid := ("a" ++ str_of_int n)%string in
      update (set_appointment_counter (n + 1)) ;;
      do* l := new_object
                 [("client_id", VStr cid); ("date", VStr date_str);
                  ("start", VTime start_time); ("end", VTime end_time);
                  ("duration", VInt duration); ("cost", VFloat cost)]%string in
      update (fun w => set_appointments (dict_set (appointments w) aid l) w) ;;
      load_appointments ;;
      save_data
  end.

(** The state of a new process that finds the two files [cf] and [af]. *)
Definition boot (cf af : option file) : world :=
  mk_world [] [] 1 1 [] cf af None false None None [] None []
    (VInt 0) (VInt 0) (VFloat Float64.zero) ClientsPage [].

(** [AppointmentTimerApp.__init__]. *)
Definition init : M unit :=
  load_data ;;
  update (set_current_client_id None) ;;
  update (set_filter false None None) ;;
  refresh_client_list.

(** What the user does after the window is shown. *)
Inductive action : Type :=
| AddClient (name phone email : string)
| OpenClient (name : string)
| GoBack
| ApplyFilter (from to : date)
| ClearFilter
| AddAppointment (today_s today_e : Z) (d : date) (start_time end_time : time)
                 (rate : float) (increment : Z).

Definition perform (a : action) : M unit :=
  match a with
  | AddClient name phone email => add_client name phone email
  | OpenClient name => open_client_appointments name
  | GoBack => go_back_to_clients
  | ApplyFilter from to => apply_date_filter from to
  | ClearFilter => clear_date_filter
  | AddAppointment ts te d s e rate inc => add_appointment ts te d s e rate inc
  end.

(** ** The formulas of the specification *)

(** "ceil(durationMinutes / incrementMinutes) * incrementMinutes": the
    ceiling of the rational quotient. *)
Definition billed_minutes_spec (duration increment : Z) : Z :=
  Qceiling (inject_Z duration / inject_Z increment) * increment.

(** "hourlyRate * billedMinutes / 60", on floats, the quotient first. *)
Definition cost_spec (hourly_rate : float) (billed : Z) : result float :=
  let* hours := Float64.int_truediv billed 60 in
  Ok (Float64.mul hourly_rate hours).

(** The elapsed time from [start] to [end], in microseconds, with [end]
    taken one day later when it is before [start]. *)
Definition elapsed_spec (start_time end_time : time) : Z :=
  if time_us end_time <? time_us start_time
  then time_us end_time + 86400000000 - time_us start_time
  else time_us end_time - time_us start_time.

(** "floor((end - start) in seconds / 60)". *)
Definition duration_spec (start_time end_time : time) : Z :=
  Qfloor (inject_Z (elapsed_spec start_time end_time) / 1000000 / 60).

(** ** Predicates, relations and sample states of the statements *)

(** Position of the exact value [A/B] relative to the significand,
    rounding bit and sticky bit of a shift record. *)
Definition inbetween (A B : Z) (mrs : shr_record) : Prop :=
  let rho := A - shr_m mrs * B in
  0 <= shr_m mrs /\ 0 <= rho < B /\
  (shr_r mrs = true <-> B <= 2 * rho) /\
  (shr_s mrs = true <-> rho <> 0 /\ 2 * rho <> B).

(** [stable R c]: whether [c] returns or raises, the state it leaves is
    related by [R] to the state it started in. *)
Definition stable {A : Type} (R : world -> world -> Prop) (c : M A) : Prop :=
  forall w, R w (snd (c w)).

(** Nothing but the files and new objects: the globals, the window and
    every object that existed are as before. *)
Definition kept (w w' : world) : Prop :=
  exists extra cf af,
    w' = set_clients_file cf (set_appts_file af (set_heap (heap w ++ extra) w)).

(** The value of [f] is as before. *)
Definition same_on {X : Type} (f : world -> X) (w w' : world) : Prop :=
  f w' = f w.

Definition digit_chars (u : Decimal.uint) : list ascii :=
  list_ascii_of_string (NilEmpty.string_of_uint u).

Definition plain (c : ascii) : Prop :=
  is_space c = false /\ c <> "-"%char /\ c <> "+"%char.

(** The two collections, the two counters and the selected client. *)
Definition core (w : world)
  : pydict * list (string * nat) * Z * Z * option string :=
  (clients w, appointments w, client_counter w, appointment_counter w,
   current_client_id w).

(** A file that holds a document holds a JSON value. *)
Definition file_ok (f : option file) : Prop :=
  match f with
  | Some (FileJson doc) => serializable doc = true
  | _ => True
  end.

(** The times of the form are times. *)
Definition action_ok (a : action) : Prop :=
  match a with
  | AddAppointment _ _ _ start_time end_time _ _ =>
      time_ok start_time /\ time_ok end_time
  | _ => True
  end.

(** The states the program can be in: the window was built, and every
    action since returned (PyQt ends the process on an exception that a
    slot lets through). *)
Inductive reachable : world -> Prop :=
| reach_init (cf af : option file) (w : world) :
    file_ok cf -> file_ok af ->
    init (boot cf af) = (Ok tt, w) -> reachable w
| reach_step (w : world) (a : action) (w' : world) :
    reachable w -> action_ok a -> perform a w = (Ok tt, w') -> reachable w'.

(** Every key [k] has [int(k[1:])] below [n]. *)
Definition below (ks : list string) (n : Z) : Prop :=
  forall k, In k ks -> exists m, py_int (tail k) = Ok m /\ m < n.

Definition ids_ok (w : world) : Prop :=
  NoDup (keys (clients w)) /\ NoDup (keys (appointments w)) /\
  below (keys (clients w)) (client_counter w) /\
  below (keys (appointments w)) (appointment_counter w).

Definition selection_ok (w : world) : Prop :=
  forall cid, current_client_id w = Some cid -> In cid (keys (clients w)).

(** [preserved P]: a state with [P] is left in a state with [P]. *)
Definition preserved (P : world -> Prop) (w w' : world) : Prop := P w -> P w'.

Definition keys_distinct (w : world) : Prop :=
  NoDup (keys (clients w)) /\ NoDup (keys (appointments w)).

(** What [update_counters] does to one counter: nothing for an empty
    collection, the result of [next_counter] otherwise. *)
Definition counter_updated (ks : list string) (old new : Z) : Prop :=
  (ks = [] /\ new = old) \/ (ks <> [] /\ next_counter ks = Ok new).

(** "max(existing numeric suffix) + 1 (or the initial default when the
    collection is empty)": [n] is 1 when there is no key; otherwise every
    key has a number after its first character, none of them above
    [n - 1], and [n - 1] is the number of one of the keys. *)
Definition max_suffix_plus_one (ks : list string) (n : Z) : Prop :=
  match ks with
  | [] => n = 1
  | _ :: _ =>
      (forall k, In k ks -> exists m, py_int (tail k) = Ok m /\ m <= n - 1) /\
      (exists k, In k ks /\ py_int (tail k) = Ok (n - 1))
  end.

Definition started : world := snd (init (boot None None)).

Definition one_client : world := snd (add_client " Ann " "555" "" started).

(** The records of the appointments, in the order of the dict. *)
Definition records (w : world) : list (string * pydict) :=
  map (fun kl => (fst kl, deref w (snd kl))) (appointments w).

(** A record as [add_appointment] makes it and [load_data] restores it:
    the six items, each of its type, and a date that can be read. *)
Definition appt_okb (appt : pydict) : bool :=
  match dict_get appt "client_id", dict_get appt "date",
        dict_get appt "start", dict_get appt "end",
        dict_get appt "duration", dict_get appt "cost" with
  | Some _, Some (VStr s), Some (VTime _), Some (VTime _),
    Some (VInt _), Some (VFloat _) => is_ok (parse_date s)
  | _, _, _, _, _, _ => false
  end.

Definition appt_ok (appt : pydict) : Prop := appt_okb appt = true.

(** "appointments of clientId whose date d satisfies from <= d <= to". *)
Definition in_range (cid : string) (from to : date) (appt : pydict) : bool :=
  match dict_get appt "client_id", dict_get appt "date" with
  | Some c, Some (VStr s) =>
      is_str c cid &&
      match parse_date s with
      | Ok d => date_leb from d && date_leb d to
      | Err _ => false
      end
  | _, _ => false
  end.

Definition duration_of (appt : pydict) : Z :=
  match dict_get appt "duration" with Some (VInt n) => n | _ => 0 end.

Definition cost_of (appt : pydict) : float :=
  match dict_get appt "cost" with Some (VFloat f) => f | _ => Float64.zero end.

(** The sums over a list of records: the durations, and the costs added
    one after the other to 0.0. *)
Definition sum_durations (l : list pydict) : Z :=
  fold_left (fun acc a => acc + duration_of a) l 0.

Definition sum_costs (l : list pydict) : float :=
  fold_left (fun acc a => Float64.add acc (cost_of a)) l Float64.zero.

Definition two_appointments : world :=
  snd (perform (AddAppointment 738000 738000 (mk_date 2024 3 9)
                  (mk_time 23 50 0 0) (mk_time 0 10 0 500000)
                  (Float64.of_Z 30) 6)
    (snd (perform (AddAppointment 738000 738000 (mk_date 2024 3 5)
                     (mk_time 9 0 0 0) (mk_time 9 47 0 0)
                     (Float64.of_Z 30) 6)
       (snd (perform (OpenClient "Ann") one_client))))).

Definition filtered : world :=
  snd (perform (ApplyFilter (mk_date 2024 3 1) (mk_date 2024 3 6))
               two_appointments).

(** The time with its microseconds dropped. *)
Definition truncate (t : time) : time :=
  mk_time (hour t) (minute t) (second t) 0.

Definition time_okb (t : time) : bool :=
  (0 <=? hour t) && (hour t <? 24) && (0 <=? minute t) && (minute t <? 60) &&
  (0 <=? second t) && (second t <? 60) &&
  (0 <=? microsecond t) && (microsecond t <? 1000000).

(** The copy of a record that [save_data] writes: the two times as
    text. *)
Definition saved_copy (d : pydict) : pydict :=
  match dict_get d "start", dict_get d "end" with
  | Some (VTime s), Some (VTime e) =>
      dict_set (dict_set d "start" (VStr (format_time s)))
               "end" (VStr (format_time e))
  | _, _ => d
  end.

(** The record with the microseconds of its two times dropped. *)
Definition whole_seconds (d : pydict) : pydict :=
  match dict_get d "start", dict_get d "end" with
  | Some (VTime s), Some (VTime e) =>
      dict_set (dict_set d "start" (VTime (truncate s)))
               "end" (VTime (truncate e))
  | _, _ => d
  end.

(** A record that can be saved: two times, and a copy that is JSON. *)
Definition record_okb (d : pydict) : bool :=
  match dict_get d "start", dict_get d "end" with
  | Some (VTime s), Some (VTime e) =>
      time_okb s && time_okb e && serializable (VDict (saved_copy d))
  | _, _ => false
  end.

Definition no_microseconds (d : pydict) : bool :=
  match dict_get d "start", dict_get d "end" with
  | Some (VTime s), Some (VTime e) =>
      (microsecond s =? 0) && (microsecond e =? 0)
  | _, _ => false
  end.

Fixpoint nodupb (l : list string) : bool :=
  match l with
  | [] => true
  | x :: r => negb (existsb (String.eqb x) r) && nodupb r
  end.

Definition parses (k : string) : bool := is_ok (py_int (tail k)).

(** A store that can be saved and loaded: the keys of each collection
    are distinct and carry a number, the clients are JSON and every
    appointment record can be saved. *)
Definition store_okb (w : world) : bool :=
  nodupb (keys (clients w)) && forallb parses (keys (clients w)) &&
  serializable (VDict (clients w)) &&
  nodupb (keys (appointments w)) && forallb parses (keys (appointments w)) &&
  forallb record_okb (map snd (records w)).

(** The items of the document of a dict of records. *)
Definition doc_items (w : world) (d : list (string * nat))
  : list (string * pyval) :=
  map (fun kl => (fst kl, VDict (deref w (snd kl)))) d.

(** The items of the appointments file that [save_data] writes. *)
Definition saved_items (w : world) : list (string * pyval) :=
  map (fun kd => (fst kd, VDict (saved_copy (snd kd)))) (records w).

Definition client_opened : world := snd (perform (OpenClient "Ann") one_client).

Definition one_appointment : world :=
  snd (perform (AddAppointment 738000 738000 (mk_date 2024 3 5)
                  (mk_time 9 0 0 0) (mk_time 9 47 0 0) (Float64.of_Z 30) 6)
               client_opened).

(** The records of the appointments can be saved. *)
Definition records_ok (w : world) : Prop :=
  Forall (fun l => record_okb (deref w l) = true) (values (appointments w)).

Definition memory_ok (w : world) : Prop :=
  serializable (VDict (clients w)) = true /\ records_ok w.

(** The collections are the same and the objects that existed are as
    before. *)
Definition grown (w w' : world) : Prop :=
  clients w' = clients w /\ appointments w' = appointments w /\
  exists extra, heap w' = heap w ++ extra.


(** The phone or the email of a client as its line shows it: only a
    value that counts as true. *)
Definition shown (d : pydict) (k : string) : option pyval :=
  match dict_get d k with
  | Some v => if truthy v then Some v else None
  | None => None
  end.

(** The lines that a client gives the client list, when
    [refresh_client_list] takes the client: one line for a dict whose
    name is a string, none for a dict whose name is None and that has no
    phone and no email to show. *)
Definition lines_of (data : pyval) : option (list client_item) :=
  match data with
  | VDict d =>
      match dict_get d "name" with
      | Some (VStr n) => Some [(n, shown d "phone", shown d "email")]
      | Some VNone =>
          match shown d "phone", shown d "email" with
          | None, None => Some []
          | _, _ => None
          end
      | _ => None
      end
  | _ => None
  end.

(** The client list holds the lines of the clients, in their order. *)
Definition list_shown (w : world) : Prop :=
  exists ls,
    map (fun kv => lines_of (snd kv)) (clients w) = map Some ls /\
    client_list w = concat ls.

(** The store and the two files. *)
Definition store (w : world)
  : pydict * list (string * nat) * list pydict * option file * option file :=
  (clients w, appointments w, heap w, clients_file w, appts_file w).

(** The heap has the objects it had, and perhaps new ones after them. *)
Definition heap_grown (w w' : world) : Prop :=
  exists extra, heap w' = heap w ++ extra.

(** The selected client is the one that the search by its name finds. *)
Definition selection_first (w : world) : Prop :=
  forall cid, current_client_id w = Some cid ->
    exists name, find_client (clients w) name = Ok (Some cid).

(** A new process that reads the two files has the clients and the
    appointment records of [w], the times to the second. *)
Definition restorable (w : world) : Prop :=
  exists w2,
    load_data (boot (clients_file w) (appts_file w)) = (Ok tt, w2) /\
    clients w2 = clients w /\
    records w2 = map (fun kd => (fst kd, whole_seconds (snd kd))) (records w).

(** The records can be saved and their times have no microseconds. *)
Definition records_whole (w : world) : Prop :=
  Forall (fun l => record_okb (deref w l) = true /\
                   no_microseconds (deref w l) = true)
         (values (appointments w)).

(** The bullet of a line of the client list and the separator made of
    it, as the bytes of their UTF-8 text: a match of the separator in a
    text begins and ends between two characters. *)
Definition bullet : list ascii := ["226"; "128"; "162"]%char.

Definition separator : list ascii := " "%char :: bullet ++ [" "%char].

(** [l] begins with [p]. *)
Fixpoint prefixb (p l : list ascii) : bool :=
  match p, l with
  | [], _ => true
  | a :: p', b :: l' => Ascii.eqb a b && prefixb p' l'
  | _ :: _, [] => false
  end.

(** [p in l] for a text [p] that is not empty. *)
Fixpoint occurs (p l : list ascii) : bool :=
  match l with
  | [] => false
  | _ :: r => prefixb p l || occurs p r
  end.

(** [text.split(sep)[0]] for a separator that is not empty: the text
    before the first [sep], all of it when there is none. *)
Fixpoint before (sep l : list ascii) : list ascii :=
  match l with
  | [] => []
  | c :: r => if prefixb sep l then [] else c :: before sep r
  end.

Definition first_field (text : string) : string :=
  string_of_list_ascii (before separator (list_ascii_of_string text)).

(** The text of a value in an f-string: a string is its own text;
    [other] is the text of the values that are not strings. *)
Definition format_value (other : pyval -> string) (v : pyval) : string :=
  match v with
  | VStr s => s
  | _ => other v
  end.

(** The text of a line of the client list, as [refresh_client_list]
    builds it. *)
Definition item_text (other : pyval -> string) (item : client_item)
  : string :=
  let '(name, phone, email) := item in
  let display := name in
  let display :=
    match phone with
    | Some v =>
        (display ++ string_of_list_ascii separator ++ format_value other v)
    | None => display
    end%string in
  match email with
  | Some v =>
      (display ++ string_of_list_ascii separator ++ format_value other v)
  | None => display
  end%string.

(** [open_client_appointments(item)] for a line of the client list. *)
Definition open_item (other : pyval -> string) (item : client_item) : M unit :=
  open_client_appointments (first_field (item_text other item)).

(** A record that the appointment list can show: the items of its line,
    the times, the duration and the cost each of its type.  The date can
    be any value. *)
Definition listable (appt : pydict) : bool :=
  match dict_get appt "client_id", dict_get appt "date",
        dict_get appt "start", dict_get appt "end",
        dict_get appt "duration", dict_get appt "cost" with
  | Some _, Some _, Some (VTime _), Some (VTime _),
    Some (VInt _), Some (VFloat _) => true
  | _, _, _, _, _, _ => false
  end.

(** The record is of the client [cid]. *)
Definition of_client (cid : string) (appt : pydict) : bool :=
  match dict_get appt "client_id" with
  | Some c => is_str c cid
  | None => false
  end.

(** An active date filter has its two dates. *)
Definition filter_ok (w : world) : Prop :=
  date_filter_active w = true ->
  exists from to, filter_from w = Some from /\ filter_to w = Some to.

(** Whether the date filter of [load_appointments] lets a record
    through: with the filter off every record; with the filter on, a
    record whose date is a text that reads as a date not before the From
    date and not after the To date, each when it is set. *)
Definition passes (w : world) (appt : pydict) : bool :=
  if date_filter_active w then
    match dict_get appt "date" with
    | Some (VStr s) =>
        match parse_date s with
        | Ok d =>
            match filter_from w with
            | Some from => date_leb from d
            | None => true
            end &&
            match filter_to w with
            | Some to => date_leb d to
            | None => true
            end
        | Err _ => false
        end
    | _ => false
    end
  else true.

(** The records that the appointment list shows for the client [cid]:
    those of the client that the date filter lets through, in the order
    of the dict. *)
Definition listed (w : world) (cid : string) : list pydict :=
  List.filter (fun a => of_client cid a && passes w a) (map snd (records w)).

(** The switch and the two dates of the date filter. *)
Definition filter_state (w : world) : bool * option date * option date :=
  (date_filter_active w, filter_from w, filter_to w).

(** Values added one after the other, as the totals of the appointment
    list are. *)
Fixpoint sum_values (acc : pyval) (l : list pyval) : result pyval :=
  match l with
  | [] => Ok acc
  | v :: r => let* acc' := py_add acc v in sum_values acc' r
  end.

(** The three totals are those of the lines of the appointment list. *)
Definition totals_match (w : world) : Prop :=
  total_appointments_label w = VInt (Z.of_nat (length (appt_list w))) /\
  sum_values (VInt 0) (map row_duration (appt_list w))
  = Ok (total_duration_label w) /\
  sum_values (VFloat Float64.zero) (map row_cost (appt_list w))
  = Ok (total_cost_label w).

(** The appointment list and the three totals. *)
Definition totals_state (w : world) : list row * pyval * pyval * pyval :=
  (appt_list w, total_appointments_label w, total_duration_label w,
   total_cost_label w).

(** The actions that only look: opening a client, going back, setting
    and clearing the date filter. *)
Definition browses (a : action) : bool :=
  match a with
  | OpenClient _ | GoBack | ApplyFilter _ _ | ClearFilter => true
  | AddClient _ _ _ | AddAppointment _ _ _ _ _ _ _ => false
  end.

(** A text of ASCII characters: the white space that [str.strip] takes
    off such a text is the ASCII one. *)
Definition ascii_text (s : string) : bool :=
  forallb (fun c => (nat_of_ascii c <? 128)%nat) (list_ascii_of_string s).

(** ** Rounding of a binary64 quotient *)

Lemma digits2_pos_bounds (p : positive) :
  2 ^ (Z.pos (digits2_pos p) - 1) <= Z.pos p < 2 ^ Z.pos (digits2_pos p).
Proof.
  induction p as [p IH | p IH |]; cbn [digits2_pos].
  - rewrite Pos2Z.inj_succ. replace (Z.succ (Z.pos (digits2_pos p)) - 1)
      with (Z.succ (Z.pos (digits2_pos p) - 1)) by lia.
    rewrite !Z.pow_succ_r by lia. lia.
  - rewrite Pos2Z.inj_succ. replace (Z.succ (Z.pos (digits2_pos p)) - 1)
      with (Z.succ (Z.pos (digits2_pos p) - 1)) by lia.
    rewrite !Z.pow_succ_r by lia. lia.
  - cbn. lia.
Qed.

Lemma Zdigits2_bounds (n : Z) :
  0 < n -> 2 ^ (Zdigits2 n - 1) <= n < 2 ^ Zdigits2 n.
Proof.
  destruct n as [| p | p]; try lia. intros _. apply digits2_pos_bounds.
Qed.

Lemma Zdigits2_pos (n : Z) : 0 < n -> 0 < Zdigits2 n.
Proof. destruct n; cbn; lia. Qed.

Lemma Zdigits2_unique (n d : Z) :
  2 ^ (d - 1) <= n < 2 ^ d -> 0 < n -> Zdigits2 n = d.
Proof.
  intros [Hlo Hhi] Hn.
  pose proof (Zdigits2_bounds n Hn) as [Hlo' Hhi'].
  pose proof (Zdigits2_pos n Hn) as Hd.
  assert (0 < d).
  { destruct (Z_lt_le_dec 0 d); auto.
    assert (2 ^ d <= 2 ^ 0) by (destruct d; cbn; try lia;
      rewrite Z.pow_neg_r by lia; lia). cbn in *. lia. }
  destruct (Z.lt_trichotomy (Zdigits2 n) d) as [Hlt | [Heq | Hgt]]; auto.
  - assert (2 ^ Zdigits2 n <= 2 ^ (d - 1)) by (apply Z.pow_le_mono_r; lia). lia.
  - assert (2 ^ d <= 2 ^ (Zdigits2 n - 1)) by (apply Z.pow_le_mono_r; lia). lia.
Qed.

Lemma shr_1_m (m : Z) (r s : bool) :
  0 <= m ->
  shr_1 {| shr_m := m; shr_r := r; shr_s := s |} =
  {| shr_m := m / 2; shr_r := Z.odd m; shr_s := r || s |}.
Proof.
  intros Hm. destruct m as [| [p | p |] | p]; try lia; cbn [shr_1 Z.odd].
  - reflexivity.
  - f_equal. rewrite Pos2Z.inj_xI. apply (Z.div_unique _ 2 _ 1); lia.
  - f_equal. rewrite Pos2Z.inj_xO. apply (Z.div_unique _ 2 _ 0); lia.
  - reflexivity.
Qed.

Lemma odd_true_mod (m : Z) : Z.odd m = true <-> m mod 2 = 1.
Proof. rewrite Zodd_mod. apply Z.eqb_eq. Qed.

Lemma inbetween_shr_1 (A B : Z) (mrs : shr_record) :
  0 < B -> inbetween A B mrs -> inbetween A (2 * B) (shr_1 mrs).
Proof.
  intros HB. destruct mrs as [m r s]. unfold inbetween. cbn [shr_m shr_r shr_s].
  intros (Hm & Hrho & Hr & Hs). rewrite shr_1_m by assumption.
  cbn [shr_m shr_r shr_s].
  pose proof (Z.div_mod m 2 ltac:(lia)) as Hdm.
  pose proof (Z.mod_pos_bound m 2 ltac:(lia)) as Hmb.
  pose proof (odd_true_mod m) as Hodd.
  assert (0 <= m / 2) as Hq by (apply Z.div_pos; lia).
  set (h := m / 2) in *. set (b := m mod 2) in *.
  assert (Hrho' : A - h * (2 * B) = (A - m * B) + b * B) by (rewrite Hdm; ring).
  rewrite Hrho'. set (rho := A - m * B) in *.
  assert (Hb : b = 0 \/ b = 1) by lia.
  clearbody h b rho. clear Hdm Hmb Hrho'.
  split; [assumption|]. split; [clear Hr Hs Hodd; destruct Hb as [-> | ->]; lia|].
  split.
  - rewrite Hodd. clear Hr Hs Hodd. destruct Hb as [-> | ->]; split; intros; lia.
  - rewrite orb_true_iff, Hr, Hs. clear Hr Hs Hodd. destruct Hb as [-> | ->]; lia.
Qed.

Lemma inbetween_iter (A : Z) (p : positive) :
  forall (B : Z) (mrs : shr_record),
    0 < B -> inbetween A B mrs ->
    inbetween A (B * 2 ^ Z.pos p) (SpecFloat.iter_pos shr_1 p mrs).
Proof.
  induction p as [p IH | p IH |]; intros B mrs HB Hin; cbn [SpecFloat.iter_pos].
  - assert (0 < 2 ^ Z.pos p) by (apply Z.pow_pos_nonneg; lia).
    replace (B * 2 ^ Z.pos p~1) with (2 * B * 2 ^ Z.pos p * 2 ^ Z.pos p).
    + apply IH; [nia|]. apply IH; [lia|]. now apply inbetween_shr_1.
    + replace (Z.pos p~1) with (Z.pos p + Z.pos p + 1) by lia.
      rewrite !Z.pow_add_r, Z.pow_1_r by lia. ring.
  - assert (0 < 2 ^ Z.pos p) by (apply Z.pow_pos_nonneg; lia).
    replace (B * 2 ^ Z.pos p~0) with (B * 2 ^ Z.pos p * 2 ^ Z.pos p).
    + apply IH; [nia|]. now apply IH.
    + replace (Z.pos p~0) with (Z.pos p + Z.pos p) by lia.
      rewrite Z.pow_add_r by lia. ring.
  - rewrite Z.pow_1_r, Z.mul_comm. now apply inbetween_shr_1.
Qed.

Lemma new_location_inbetween (A B : Z) :
  0 < B -> 0 <= A ->
  inbetween A B (shr_record_of_loc (A / B) (new_location B (A mod B))).
Proof.
  intros HB HA.
  pose proof (Z.div_mod A B ltac:(lia)) as Hdm.
  pose proof (Z.mod_pos_bound A B HB) as Hmb.
  assert (0 <= A / B) as Hq by (apply Z.div_pos; lia).
  assert (Hrho : A - A / B * B = A mod B) by lia.
  unfold inbetween, new_location, new_location_even, new_location_odd.
  set (q := A / B) in *. set (rho := A mod B) in *.
  destruct (Z.even B) eqn:Hev; destruct (Z.eqb_spec rho 0) as [H0 | H0].
  - cbn [shr_record_of_loc shr_m shr_r shr_s]. rewrite Hrho.
    repeat split; try lia; try discriminate.
  - destruct (Z.compare_spec (2 * rho) B);
      cbn [shr_record_of_loc shr_m shr_r shr_s]; rewrite Hrho;
      repeat split; try lia; try discriminate.
  - cbn [shr_record_of_loc shr_m shr_r shr_s]. rewrite Hrho.
    repeat split; try lia; try discriminate.
  - assert (B mod 2 = 1).
    { pose proof (Zeven_mod B) as E. rewrite Hev in E.
      pose proof (Z.mod_pos_bound B 2 ltac:(lia)).
      destruct (Z.eqb_spec (B mod 2) 0); try discriminate. lia. }
    pose proof (Z.div_mod B 2 ltac:(lia)).
    destruct (Z.compare_spec (2 * rho + 1) B);
      cbn [shr_record_of_loc shr_m shr_r shr_s]; rewrite Hrho;
      repeat split; try lia; try discriminate.
Qed.

Lemma shr_fexp_spec (A B q e : Z) (l : location) :
  0 < B -> inbetween A B (shr_record_of_loc q l) -> shr_m (shr_record_of_loc q l) = q ->
  2 ^ 52 <= q -> -1074 <= e ->
  exists mrs,
    shr_fexp 53 1024 q e l = (mrs, e + (Zdigits2 q - 53)) /\
    0 <= Zdigits2 q - 53 /\
    inbetween A (B * 2 ^ (Zdigits2 q - 53)) mrs /\
    2 ^ 52 <= shr_m mrs < 2 ^ 53.
Proof.
  intros HB Hin Hm Hq He.
  assert (0 < q) as Hq0 by (pose proof (Z.pow_pos_nonneg 2 52); lia).
  pose proof (Zdigits2_bounds q Hq0) as [Hdlo Hdhi].
  assert (53 <= Zdigits2 q) as Hd.
  { destruct (Z_lt_le_dec (Zdigits2 q) 53) as [Hlt|]; [|assumption].
    assert (2 ^ Zdigits2 q <= 2 ^ 52) by (apply Z.pow_le_mono_r; lia). lia. }
  set (n := Zdigits2 q - 53) in *.
  assert (Hshift : fexp 53 1024 (Zdigits2 q + e) - e = n)
    by (unfold fexp, emin; lia).
  assert (Hres : exists mrs, shr (shr_record_of_loc q l) e n = (mrs, e + n) /\
                   inbetween A (B * 2 ^ n) mrs).
  { unfold shr. destruct n as [| p | p] eqn:En; try lia.
    - exists (shr_record_of_loc q l). rewrite Z.add_0_r, Z.pow_0_r, Z.mul_1_r. auto.
    - eexists. split; [reflexivity|]. now apply inbetween_iter. }
  destruct Hres as (mrs & Hshr & Hin').
  exists mrs. unfold shr_fexp. rewrite Hshift. split; [assumption|].
  split; [lia|]. split; [assumption|].
  destruct Hin as (_ & Hrho & _). destruct Hin' as (Hm' & Hrho' & _).
  rewrite Hm in Hrho.
  assert (0 < 2 ^ n) as HP by (apply Z.pow_pos_nonneg; lia).
  assert (Hlo : 2 ^ 52 * 2 ^ n <= q).
  { rewrite <- Z.pow_add_r by lia. replace (52 + n) with (Zdigits2 q - 1) by lia.
    assumption. }
  assert (Hhi : q + 1 <= 2 ^ 53 * 2 ^ n).
  { rewrite <- Z.pow_add_r by lia. replace (53 + n) with (Zdigits2 q) by lia. lia. }
  set (P := 2 ^ n) in *. set (m := shr_m mrs) in *. clearbody P m.
  split.
  - destruct (Z_lt_le_dec m (2 ^ 52)) as [Hlt|]; [|assumption]. exfalso.
    assert ((m + 1) * (B * P) <= 2 ^ 52 * (B * P))
      by (apply Z.mul_le_mono_nonneg_r; nia).
    assert (2 ^ 52 * P * B <= q * B) by (apply Z.mul_le_mono_nonneg_r; lia).
    lia.
  - destruct (Z_lt_le_dec m (2 ^ 53)) as [|Hge]; [assumption|]. exfalso.
    assert (2 ^ 53 * (B * P) <= m * (B * P))
      by (apply Z.mul_le_mono_nonneg_r; nia).
    assert ((q + 1) * B <= 2 ^ 53 * P * B) by (apply Z.mul_le_mono_nonneg_r; lia).
    lia.
Qed.

Lemma round_nearest_even_bracket (A B : Z) (mrs : shr_record) :
  0 < B -> inbetween A B mrs ->
  let m := round_nearest_even (shr_m mrs) (loc_of_shr_record mrs) in
  shr_m mrs <= m <= shr_m mrs + 1 /\
  (2 * m - 1) * B <= 2 * A <= (2 * m + 1) * B.
Proof.
  intros HB (Hm & Hrho & Hr & Hs). destruct mrs as [m r s].
  cbn [shr_m shr_r shr_s] in *.
  destruct r, s; cbn [loc_of_shr_record round_nearest_even];
    try (destruct (Z.even m)); nia.
Qed.

Lemma binary_round_aux_bracket (sx : bool) (A B q e : Z) (l : location) :
  0 < B -> inbetween A B (shr_record_of_loc q l) ->
  shr_m (shr_record_of_loc q l) = q ->
  2 ^ 52 <= q -> -1074 <= e -> e + (Zdigits2 q - 53) + 1 <= 971 ->
  exists (m : positive) (k : Z),
    binary_round_aux 53 1024 sx q e l = S754_finite sx m (e + k) /\
    2 ^ 52 <= Z.pos m < 2 ^ 53 /\
    Zdigits2 q - 53 <= k <= Zdigits2 q - 52 /\
    (2 * Z.pos m - 1) * (B * 2 ^ k) <= 2 * A <= (2 * Z.pos m + 1) * (B * 2 ^ k).
Proof.
  intros HB Hin Hm Hq He Hmax.
  destruct (shr_fexp_spec A B q e l HB Hin Hm Hq He)
    as (mrs & Hshr & Hn & Hin' & Hrange).
  set (n := Zdigits2 q - 53) in *.
  assert (0 < 2 ^ n) as HP by (apply Z.pow_pos_nonneg; lia).
  assert (0 < B * 2 ^ n) as HB' by nia.
  pose proof (round_nearest_even_bracket A (B * 2 ^ n) mrs HB' Hin') as Hrnd.
  cbv zeta in Hrnd. destruct Hrnd as (Hmr & Hbr).
  unfold binary_round_aux. rewrite Hshr.
  set (mr := round_nearest_even (shr_m mrs) (loc_of_shr_record mrs)) in *.
  assert (0 < mr) as Hmr0 by (pose proof (Z.pow_pos_nonneg 2 52); lia).
  destruct (Z_lt_le_dec mr (2 ^ 53)) as [Hlt | Hge].
  - assert (Hdig : Zdigits2 mr = 53) by (apply Zdigits2_unique; lia).
    unfold shr_fexp. rewrite Hdig.
    replace (fexp 53 1024 (53 + (e + n)) - (e + n)) with 0
      by (unfold fexp, emin; lia).
    cbn [shr shr_record_of_loc shr_m].
    destruct mr as [| m | m] eqn:Emr; try lia.
    exists m, n. replace (e + n <=? 1024 - 53) with true
      by (symmetry; apply Z.leb_le; lia).
    repeat split; try lia.
  - assert (mr = 2 ^ 53) as Emr by lia.
    unfold shr_fexp. rewrite Emr.
    replace (Zdigits2 (2 ^ 53)) with 54 by reflexivity.
    replace (fexp 53 1024 (54 + (e + n)) - (e + n)) with 1
      by (unfold fexp, emin; lia).
    cbn [shr shr_record_of_loc SpecFloat.iter_pos].
    replace (shr_1 {| shr_m := 2 ^ 53; shr_r := false; shr_s := false |})
      with {| shr_m := 2 ^ 52; shr_r := false; shr_s := false |} by reflexivity.
    cbn [shr_m]. replace (2 ^ 52) with (Z.pos (2 ^ 52)) by reflexivity.
    cbv iota.
    exists (2 ^ 52)%positive, (n + 1).
    replace (e + n + 1 <=? 1024 - 53) with true
      by (symmetry; apply Z.leb_le; lia).
    replace (e + (n + 1)) with (e + n + 1) by lia.
    split; [reflexivity|]. split; [cbn; lia|]. split; [lia|].
    rewrite Z.pow_add_r, Z.pow_1_r by lia.
    rewrite Emr in Hbr. change (Z.pos (2 ^ 52)) with (2 ^ 52).
    set (BP := B * 2 ^ n) in *. replace (B * (2 ^ n * 2)) with (2 * BP) by (unfold BP; ring).
    clearbody BP. lia.
Qed.

Lemma Zdigits2_le (n t : Z) : 0 < n -> n < 2 ^ t -> Zdigits2 n <= t.
Proof.
  intros Hn Ht. pose proof (Zdigits2_bounds n Hn) as [Hlo _].
  destruct (Z_le_gt_dec (Zdigits2 n) t) as [|Hgt]; [assumption|]. exfalso.
  assert (2 ^ t <= 2 ^ (Zdigits2 n - 1)).
  { destruct (Z_lt_le_dec t 0).
    - rewrite (Z.pow_neg_r 2 t) by lia. apply Z.pow_nonneg. lia.
    - apply Z.pow_le_mono_r; lia. }
  lia.
Qed.

Lemma shiftl_case (m s : Z) :
  0 <= s ->
  match s with
  | 0 => m
  | Z.pos _ => IntDef.Z.shiftl m s
  | Z.neg _ => 0
  end = m * 2 ^ s.
Proof.
  intros Hs. destruct s as [| p | p]; try lia.
  change IntDef.Z.shiftl with Z.shiftl. apply Z.shiftl_mul_pow2. lia.
Qed.

Section Division.

Variables (sx sy : bool) (m1 m2 : positive) (e1 e2 : Z).

Let d1 := Zdigits2 (Z.pos m1).
Let d2 := Zdigits2 (Z.pos m2).
Let E := d1 + e1 - (d2 + e2) - 53.
Let e' := Z.min E (e1 - e2).
Let s := e1 - e2 - e'.
Let A := Z.pos m1 * 2 ^ s.
Let q := A / Z.pos m2.

Hypothesis E_normal : -1074 <= E.
Hypothesis e'_normal : -1074 <= e'.

Lemma div_core_eq :
  SFdiv_core_binary 53 1024 (Z.pos m1) e1 (Z.pos m2) e2 =
  (q, e', new_location (Z.pos m2) (A mod Z.pos m2)).
Proof.
  unfold SFdiv_core_binary.
  change (Zdigits2 (Z.pos m1)) with d1. change (Zdigits2 (Z.pos m2)) with d2.
  replace (fexp 53 1024 (d1 + e1 - (d2 + e2))) with E
    by (unfold fexp, emin; subst E; lia).
  change (IntDef.Z.min E (e1 - e2)) with e'.
  change (e1 - e2 - e') with s.
  assert (Hs : 0 <= s) by (subst s e'; lia).
  assert (HA : match s with
               | 0 => Z.pos m1
               | Z.pos _ => IntDef.Z.shiftl (Z.pos m1) s
               | Z.neg _ => 0
               end = A).
  { subst A. now apply shiftl_case. }
  rewrite HA. change IntDef.Z.div_eucl with Z.div_eucl.
  unfold q, Z.div, Z.modulo. destruct (Z.div_eucl A (Z.pos m2)). reflexivity.
Qed.

Lemma div_quotient_large : 2 ^ 52 <= q.
Proof.
  pose proof (Zdigits2_bounds (Z.pos m1) ltac:(lia)) as [H1lo H1hi].
  pose proof (Zdigits2_bounds (Z.pos m2) ltac:(lia)) as [H2lo H2hi].
  pose proof (Zdigits2_pos (Z.pos m1) ltac:(lia)).
  pose proof (Zdigits2_pos (Z.pos m2) ltac:(lia)).
  fold d1 in H1lo, H1hi, H. fold d2 in H2lo, H2hi, H0.
  assert (Hs : 0 <= s) by (subst s e'; lia).
  assert (Hsum : d2 + 52 <= d1 - 1 + s) by (subst s e' E; lia).
  assert (HA : 2 ^ (d2 + 52) <= A).
  { subst A. transitivity (2 ^ (d1 - 1) * 2 ^ s).
    - rewrite <- Z.pow_add_r by lia. apply Z.pow_le_mono_r; lia.
    - apply Z.mul_le_mono_nonneg_r; [apply Z.pow_nonneg|]; lia. }
  rewrite Z.pow_add_r in HA by lia.
  unfold q. apply Z.div_le_lower_bound; [lia|].
  assert (Z.pos m2 * 2 ^ 52 <= 2 ^ d2 * 2 ^ 52)
    by (apply Z.mul_le_mono_nonneg_r; lia).
  lia.
Qed.

Hypothesis no_overflow : e' + (Zdigits2 q - 53) + 1 <= 971.

Lemma div_bracket :
  exists (m : positive) (k : Z),
    SFdiv 53 1024 (S754_finite sx m1 e1) (S754_finite sy m2 e2) =
      S754_finite (xorb sx sy) m (e' + k) /\
    2 ^ 52 <= Z.pos m < 2 ^ 53 /\
    Zdigits2 q - 53 <= k <= Zdigits2 q - 52 /\
    (2 * Z.pos m - 1) * (Z.pos m2 * 2 ^ k) <= 2 * A
      <= (2 * Z.pos m + 1) * (Z.pos m2 * 2 ^ k).
Proof.
  cbn [SFdiv]. rewrite div_core_eq.
  assert (HA : 0 <= A) by (subst A; apply Z.mul_nonneg_nonneg;
                           [lia | apply Z.pow_nonneg; lia]).
  pose proof (new_location_inbetween A (Z.pos m2) ltac:(lia) HA) as Hin.
  fold q in Hin.
  apply (binary_round_aux_bracket (xorb sx sy) A (Z.pos m2) q e'); try lia.
  - assumption.
  - destruct (new_location (Z.pos m2) (A mod Z.pos m2)) as [|[]]; reflexivity.
  - apply div_quotient_large.
Qed.

End Division.

Lemma div_normal (sx sy : bool) (m1 m2 : positive) (e1 e2 : Z) :
  let E := Zdigits2 (Z.pos m1) + e1 - (Zdigits2 (Z.pos m2) + e2) - 53 in
  let s := 53 + Zdigits2 (Z.pos m2) - Zdigits2 (Z.pos m1) in
  0 <= s -> -1074 <= E <= 968 ->
  exists (m : positive) (k : Z),
    SFdiv 53 1024 (S754_finite sx m1 e1) (S754_finite sy m2 e2) =
      S754_finite (xorb sx sy) m (E + k) /\
    2 ^ 52 <= Z.pos m < 2 ^ 53 /\
    0 <= k <= 2 /\
    (2 * Z.pos m - 1) * (Z.pos m2 * 2 ^ k) <= 2 * (Z.pos m1 * 2 ^ s)
      <= (2 * Z.pos m + 1) * (Z.pos m2 * 2 ^ k).
Proof.
  intros E s Hs HE.
  pose proof (Zdigits2_bounds (Z.pos m1) ltac:(lia)) as [H1lo H1hi].
  pose proof (Zdigits2_bounds (Z.pos m2) ltac:(lia)) as [H2lo H2hi].
  pose proof (Zdigits2_pos (Z.pos m1) ltac:(lia)) as Hd1.
  pose proof (Zdigits2_pos (Z.pos m2) ltac:(lia)) as Hd2.
  assert (Hmin : Z.min E (e1 - e2) = E) by (subst E s; lia).
  assert (Hs' : e1 - e2 - E = s) by (subst E s; lia).
  set (q := Z.pos m1 * 2 ^ s / Z.pos m2).
  assert (Hq : 2 ^ 52 <= q).
  { pose proof (div_quotient_large m1 m2 e1 e2) as H. cbv zeta in H.
    fold E in H. rewrite Hmin, Hs' in H. exact H. }
  assert (Hqhi : q < 2 ^ 54).
  { unfold q. apply Z.div_lt_upper_bound; [lia|].
    assert (Z.pos m1 * 2 ^ s < 2 ^ Zdigits2 (Z.pos m1) * 2 ^ s)
      by (apply Z.mul_lt_mono_pos_r; [apply Z.pow_pos_nonneg|]; lia).
    rewrite <- Z.pow_add_r in H by lia.
    replace (Zdigits2 (Z.pos m1) + s) with (Zdigits2 (Z.pos m2) - 1 + 54) in H
      by (subst s; lia).
    rewrite Z.pow_add_r in H by lia.
    assert (2 ^ (Zdigits2 (Z.pos m2) - 1) * 2 ^ 54 <= Z.pos m2 * 2 ^ 54)
      by (apply Z.mul_le_mono_nonneg_r; lia).
    lia. }
  assert (Hdq : 53 <= Zdigits2 q <= 54).
  { split.
    - destruct (Z_lt_le_dec (Zdigits2 q) 53); [|assumption].
      pose proof (Zdigits2_bounds q ltac:(lia)) as [_ Hh].
      assert (2 ^ Zdigits2 q <= 2 ^ 52) by (apply Z.pow_le_mono_r; lia). lia.
    - apply Zdigits2_le; lia. }
  pose proof (div_bracket sx sy m1 m2 e1 e2) as H. cbv zeta in H.
  fold E in H. rewrite Hmin, Hs' in H. fold q in H.
  destruct H as (m & k & Heq & Hm & Hk & Hbr); try lia.
  exists m, k. repeat split; try assumption; lia.
Qed.

Lemma of_Z_60 : Float64.of_Z 60 = S754_finite false 8444249301319680 (-47).
Proof. reflexivity. Qed.

Lemma minutes_of_microseconds (N : Z) :
  0 <= N < 86400000000 ->
  (let* secs := total_seconds N in
   let* mins := Float64.truediv secs (Float64.of_Z 60) in
   Float64.to_int mins) = Ok (N / 60000000).
Proof.
  intros [HN0 HN]. destruct N as [| p | p]; try lia; [reflexivity|].
  set (N := Z.pos p) in *.
  set (d := Zdigits2 N).
  pose proof (Zdigits2_pos N ltac:(lia)) as Hd0. fold d in Hd0.
  assert (Hd : d <= 37) by (apply Zdigits2_le; lia).
  (* first division: the microseconds by 10**6 *)
  destruct (div_normal false false p 1000000 0 0) as (mx & k1 & Hx & Hmx & Hk1 & Hb1).
  { change (Zdigits2 (Z.pos 1000000)) with 20. fold N d. lia. }
  { change (Zdigits2 (Z.pos 1000000)) with 20. fold N d. lia. }
  change (Zdigits2 (Z.pos 1000000)) with 20 in Hx, Hb1. fold N d in Hx, Hb1.
  unfold total_seconds, Float64.int_truediv, Float64.div, Float64.prec, Float64.emax.
  change (1000000 =? 0) with false. cbv iota.
  change (Float64.exact 1000000) with (S754_finite false 1000000 0).
  change (Float64.exact N) with (S754_finite false p 0).
  rewrite Hx. cbn [xorb bind].
  (* second division: the seconds by 60.0 *)
  rewrite of_Z_60. unfold Float64.truediv. cbn [Float64.is_zero bind].
  assert (Hdx : Zdigits2 (Z.pos mx) = 53) by (apply Zdigits2_unique; lia).
  destruct (div_normal false false mx 8444249301319680 (d + 0 - (20 + 0) - 53 + k1) (-47))
    as (my & k2 & Hy & Hmy & Hk2 & Hb2).
  { rewrite Hdx. change (Zdigits2 (Z.pos 8444249301319680)) with 53. lia. }
  { rewrite Hdx. change (Zdigits2 (Z.pos 8444249301319680)) with 53. lia. }
  rewrite Hdx in Hy, Hb2.
  change (Zdigits2 (Z.pos 8444249301319680)) with 53 in Hy, Hb2.
  unfold Float64.div, Float64.prec, Float64.emax. rewrite Hy.
  cbn [xorb Float64.to_int cond_Zopp].
  set (ey := 53 + (d + 0 - (20 + 0) - 53 + k1) - (53 + -47) - 53 + k2).
  replace (0 <=? ey) with false by (symmetry; apply Z.leb_gt; subst ey; lia).
  f_equal.
  (* arithmetic *)
  set (P4 := 2 ^ (71 - d)).
  assert (HP4 : 2 ^ 34 <= P4) by (apply Z.pow_le_mono_r; lia).
  assert (Hs1 : 2 ^ (53 + 20 - d) = 4 * P4).
  { unfold P4. replace (53 + 20 - d) with (2 + (71 - d)) by lia.
    rewrite Z.pow_add_r by lia. reflexivity. }
  assert (Hey : 2 ^ (- ey) = P4 * 2 ^ (8 - k1 - k2)).
  { unfold P4. rewrite <- Z.pow_add_r by lia. f_equal. subst ey. lia. }
  rewrite Hey. rewrite Hs1 in Hb1.
  set (k := N / 60000000).
  pose proof (Z.div_mod N 60000000 ltac:(lia)) as Hdm.
  pose proof (Z.mod_pos_bound N 60000000 ltac:(lia)) as Hmb.
  fold k in Hdm.
  assert (Hk0 : 0 <= k) by (apply Z.div_pos; lia).
  assert (HNP : N * P4 = 60000000 * (k * P4) + N mod 60000000 * P4)
    by (rewrite Hdm at 1; ring).
  assert (Hrem : 0 <= N mod 60000000 * P4 <= 59999999 * P4) by nia.
  assert (HKP : 0 <= k * P4) by nia.
  set (KP := k * P4) in *. set (R := N mod 60000000 * P4) in *.
  replace (2 * (N * (4 * P4))) with (8 * (N * P4)) in Hb1 by ring.
  rewrite HNP in Hb1.
  assert (Hgoal : KP * 2 ^ (8 - k1 - k2) <= Z.pos my
                  < (KP + P4) * 2 ^ (8 - k1 - k2)).
  { clearbody KP R P4. clear Hx Hy Hey Hs1 HNP Hdm Hmb.
    set (X := Z.pos mx) in *. set (Y := Z.pos my) in *. clearbody X Y.
    assert (Hc : (k1 = 0 \/ k1 = 1 \/ k1 = 2) /\ (k2 = 0 \/ k2 = 1 \/ k2 = 2)) by lia.
    destruct Hc as [[-> | [-> | ->]] [-> | [-> | ->]]];
      cbn [Z.sub Z.opp Z.add Z.pow Z.pow_pos Pos.iter Z.mul Pos.mul Pos.add Z.pos_sub
           Pos.succ Pos.pred_double Z.double Z.succ_double Z.pred_double] in *; lia. }
  symmetry. apply (Z.div_unique _ _ _ (Z.pos my - KP * 2 ^ (8 - k1 - k2))).
  - left. assert (0 < 2 ^ (8 - k1 - k2)) by (apply Z.pow_pos_nonneg; lia). nia.
  - unfold KP. ring.
Qed.

(** ** The billing calculator *)

Lemma Qceiling_div (d i : Z) :
  0 < i -> Qceiling (inject_Z d / inject_Z i) = (d + i - 1) / i.
Proof.
  intros Hi. destruct i as [| p | p]; try lia.
  unfold Qceiling, Qfloor, Qdiv, Qmult, Qinv, Qopp, inject_Z. cbn [Qnum Qden].
  rewrite Z.mul_1_r, Pos.mul_1_l.
  pose proof (Z.div_mod (d + Z.pos p - 1) (Z.pos p) ltac:(lia)) as Hdm.
  pose proof (Z.mod_pos_bound (d + Z.pos p - 1) (Z.pos p) ltac:(lia)) as Hmb.
  set (q := (d + Z.pos p - 1) / Z.pos p) in *.
  assert (- d / Z.pos p = - q); [|lia].
  symmetry. apply (Z.div_unique _ _ _ (Z.pos p * q - d)); lia.
Qed.

Lemma Qfloor_div (d i : Z) : 0 < i -> Qfloor (inject_Z d / inject_Z i) = d / i.
Proof.
  intros Hi. destruct i as [| p | p]; try lia.
  unfold Qfloor, Qdiv, Qmult, Qinv, inject_Z. cbn [Qnum Qden].
  now rewrite Z.mul_1_r, Pos.mul_1_l.
Qed.

Lemma rounded_minutes_ceiling (d i : Z) :
  1 <= i -> rounded_minutes d i = Ok (billed_minutes_spec d i).
Proof.
  intros Hi. unfold rounded_minutes, floordiv, billed_minutes_spec.
  replace (i =? 0) with false by (symmetry; apply Z.eqb_neq; lia).
  cbn [bind]. now rewrite Qceiling_div by lia.
Qed.

Lemma billed_minutes_bounds (d i : Z) :
  1 <= i ->
  (i | billed_minutes_spec d i) /\
  d <= billed_minutes_spec d i < d + i.
Proof.
  intros Hi. unfold billed_minutes_spec. rewrite Qceiling_div by lia.
  pose proof (Z.div_mod (d + i - 1) i ltac:(lia)).
  pose proof (Z.mod_pos_bound (d + i - 1) i ltac:(lia)).
  split; [apply Z.divide_factor_r | nia].
Qed.

Lemma mul_zero_r (r : float) :
  Float64.is_finite r = true ->
  exists s, Float64.mul r (S754_zero false) = S754_zero s.
Proof. destruct r; try discriminate; intros _; eexists; reflexivity. Qed.

(** C1: for an increment of at least 1, [calculate_cost] is the rate
    times the sixtieth of the billed minutes, where the billed minutes are
    the ceiling of duration / increment times the increment: a multiple of
    the increment, the least one that is not below the duration; a
    duration of 0 bills 0 minutes and costs 0 at any finite rate that is
    not negative. *)
Theorem calculate_cost_ceiling (d : Z) (r : float) (i : Z) :
  0 <= d -> Float64.nonneg r = true -> Float64.is_finite r = true -> 1 <= i ->
  calculate_cost d r i = cost_spec r (billed_minutes_spec d i) /\
  (i | billed_minutes_spec d i) /\
  d <= billed_minutes_spec d i < d + i /\
  billed_minutes_spec 0 i = 0 /\
  exists s, calculate_cost 0 r i = Ok (S754_zero s).
Proof.
  intros _ _ Hfin Hi.
  pose proof (billed_minutes_bounds d i Hi) as [Hdiv Hb].
  assert (H0 : billed_minutes_spec 0 i = 0).
  { pose proof (billed_minutes_bounds 0 i Hi) as [[k Hk] Hb0].
    assert (k = 0 \/ k <= -1 \/ 1 <= k) as [-> | [Hk' | Hk']] by lia; nia. }
  repeat split; try assumption; try lia.
  - unfold calculate_cost. now rewrite rounded_minutes_ceiling.
  - unfold calculate_cost. rewrite rounded_minutes_ceiling, H0 by assumption.
    cbn [bind]. change (Float64.int_truediv 0 60) with (Ok (S754_zero false)).
    cbn [bind]. destruct (mul_zero_r r Hfin) as [s Hs]. exists s. now rewrite Hs.
Qed.

Lemma calculate_cost_ceiling_witness :
  calculate_cost 47 (Float64.of_Z 30) 6 = cost_spec (Float64.of_Z 30) 48 /\
  calculate_cost 47 (Float64.of_Z 30) 6 = Ok (Float64.of_Z 24).
Proof.
  destruct (calculate_cost_ceiling 47 (Float64.of_Z 30) 6) as (H & _);
    [lia | reflexivity | reflexivity | lia |].
  split; [exact H | reflexivity].
Defined.

Lemma int_truediv_60_finite (N : Z) :
  Z.abs N < 2 ^ 1024 ->
  exists h, Float64.int_truediv N 60 = Ok h /\ Float64.is_finite h = true.
Proof.
  intros HN. unfold Float64.int_truediv. change (60 =? 0) with false. cbv iota.
  change (Float64.exact 60) with (S754_finite false 60 0).
  assert (Hpos : forall (s : bool) (p : positive), Z.pos p < 2 ^ 1024 ->
            exists m e, Float64.div (S754_finite s p 0) (S754_finite false 60 0)
                        = S754_finite (xorb s false) m e).
  { intros s p Hp.
    pose proof (Zdigits2_pos (Z.pos p) ltac:(lia)) as Hd0.
    assert (Hd : Zdigits2 (Z.pos p) <= 1024) by (apply Zdigits2_le; lia).
    pose proof (Zdigits2_bounds (Z.pos p) ltac:(lia)) as [_ Hhi].
    pose proof (div_quotient_large p 60 0 0) as Hq.
    pose proof (div_bracket s false p 60 0 0) as Hdiv.
    cbv zeta in Hq, Hdiv. change (Zdigits2 (Z.pos 60)) with 6 in Hq, Hdiv.
    set (d := Zdigits2 (Z.pos p)) in *.
    set (e' := Z.min (d + 0 - (6 + 0) - 53) (0 - 0)) in *.
    set (q := Z.pos p * 2 ^ (0 - 0 - e') / 60) in *.
    assert (He' : -1074 <= e' <= 0) by (subst e'; lia).
    assert (HE : -1074 <= d + 0 - (6 + 0) - 53) by lia.
    assert (Hqd : Zdigits2 q <= d - e' - 5).
    { apply Zdigits2_le; [lia|].
      unfold q. apply Z.div_lt_upper_bound; [lia|].
      replace (0 - 0 - e') with (- e') by lia.
      assert (Z.pos p * 2 ^ (- e') < 2 ^ d * 2 ^ (- e'))
        by (apply Z.mul_lt_mono_pos_r; [apply Z.pow_pos_nonneg|]; lia).
      rewrite <- Z.pow_add_r in H by lia.
      replace (d + - e') with (5 + (d - e' - 5)) in H by lia.
      rewrite Z.pow_add_r in H by lia.
      assert (0 < 2 ^ (d - e' - 5)) by (apply Z.pow_pos_nonneg; lia).
      change (2 ^ 5) with 32 in H. lia. }
    destruct Hdiv as (m & k & Heq & _); [exact HE | lia | lia |].
    exists m, (e' + k). exact Heq. }
  destruct N as [| p | p].
  - eexists. split; reflexivity.
  - destruct (Hpos false p ltac:(lia)) as (m & e & Heq).
    change (Float64.exact (Z.pos p)) with (S754_finite false p 0). rewrite Heq.
    eexists. split; reflexivity.
  - destruct (Hpos true p ltac:(lia)) as (m & e & Heq).
    change (Float64.exact (Z.neg p)) with (S754_finite true p 0). rewrite Heq.
    eexists. split; reflexivity.
Qed.

Lemma rounded_minutes_bound (d i : Z) :
  i <> 0 -> exists b, rounded_minutes d i = Ok b /\ Z.abs b <= Z.abs d + 2 * Z.abs i.
Proof.
  intros Hi. unfold rounded_minutes, floordiv.
  replace (i =? 0) with false by (symmetry; apply Z.eqb_neq; lia).
  cbn [bind]. eexists. split; [reflexivity|].
  pose proof (Z.div_mod (d + i - 1) i Hi).
  assert (Hm : Z.abs ((d + i - 1) mod i) < Z.abs i).
  { destruct (Z_lt_le_dec 0 i).
    - pose proof (Z.mod_pos_bound (d + i - 1) i ltac:(lia)). lia.
    - pose proof (Z.mod_neg_bound (d + i - 1) i ltac:(lia)). lia. }
  replace ((d + i - 1) / i * i) with (d + i - 1 - (d + i - 1) mod i) by lia.
  lia.
Qed.

(** C6, as the code has it: [calculate_cost] raises ZeroDivisionError for
    an increment of 0 and nothing for any other increment, a negative one
    included, as long as the magnitudes stay within the float range. *)
Theorem calculate_cost_errors (d : Z) (r : float) (i : Z) :
  (i = 0 -> calculate_cost d r i = Err ZeroDivisionError) /\
  (i <> 0 -> Z.abs d + 2 * Z.abs i < 2 ^ 1024 ->
   is_ok (calculate_cost d r i) = true).
Proof.
  split.
  - intros ->. reflexivity.
  - intros Hi Hb. unfold calculate_cost.
    destruct (rounded_minutes_bound d i Hi) as (b & -> & Hbb). cbn [bind].
    destruct (int_truediv_60_finite b ltac:(lia)) as (h & -> & _). reflexivity.
Qed.

Lemma calculate_cost_errors_witness :
  calculate_cost 47 (Float64.of_Z 30) 0 = Err ZeroDivisionError /\
  is_ok (calculate_cost 47 (Float64.of_Z 30) 6) = true.
Proof.
  split.
  - apply (calculate_cost_errors 47 (Float64.of_Z 30) 0). reflexivity.
  - apply (calculate_cost_errors 47 (Float64.of_Z 30) 6); [lia|].
    change (Z.abs 47 + 2 * Z.abs 6) with 59.
    pose proof (Z.pow_le_mono_r 2 6 1024 ltac:(lia) ltac:(lia)).
    change (2 ^ 6) with 64 in H. lia.
Defined.

(** C6 as stated fails: an increment below 0 is not refused. *)
Lemma calculate_cost_negative_increment :
  -6 <= 0 /\ calculate_cost 10 (Float64.of_Z 30) (-6) = Ok (Float64.of_Z 3).
Proof. split; [lia | reflexivity]. Qed.

Lemma time_ltb_us (a b : time) :
  time_ok a -> time_ok b -> time_ltb a b = (time_us a <? time_us b).
Proof.
  intros (Ha1 & Ha2 & Ha3 & Ha4) (Hb1 & Hb2 & Hb3 & Hb4).
  unfold time_ltb, time_us.
  repeat match goal with
         | |- context [?x <? ?y] => destruct (Z.ltb_spec x y)
         end; try reflexivity; lia.
Qed.

Lemma time_us_range (t : time) : time_ok t -> 0 <= time_us t < 86400000000.
Proof. intros (H1 & H2 & H3 & H4). unfold time_us. lia. Qed.

Lemma elapsed_spec_range (s e : time) :
  time_ok s -> time_ok e -> 0 <= elapsed_spec s e < 86400000000.
Proof.
  intros Hs He. pose proof (time_us_range s Hs). pose proof (time_us_range e He).
  unfold elapsed_spec. destruct (Z.ltb_spec (time_us e) (time_us s)); lia.
Qed.

Lemma duration_spec_div (s e : time) :
  duration_spec s e = elapsed_spec s e / 60000000.
Proof.
  unfold duration_spec, Qfloor, Qdiv, Qmult, Qinv, inject_Z. cbn [Qnum Qden].
  f_equal. lia.
Qed.

Lemma calculate_duration_minutes_elapsed (today : Z) (s e : time) :
  time_ok s -> time_ok e -> 1 <= today < max_ordinal ->
  calculate_duration_minutes today today s e = Ok (elapsed_spec s e / 60000000).
Proof.
  intros Hs He Hday.
  pose proof (elapsed_spec_range s e Hs He) as Hr.
  rewrite <- (minutes_of_microseconds _ Hr).
  unfold calculate_duration_minutes, elapsed_spec in *.
  rewrite (time_ltb_us e s He Hs).
  destruct (Z.ltb_spec (time_us e) (time_us s)) as [Hlt | Hge].
  - unfold add_days, combine. cbn [dt_day dt_time].
    replace ((1 <=? today + 1) && (today + 1 <=? max_ordinal)) with true
      by (symmetry; apply andb_true_iff; split; apply Z.leb_le; lia).
    cbn [bind]. unfold datetime_sub. cbn [dt_day dt_time].
    replace ((today + 1 - today) * 86400000000 + (time_us e - time_us s))
      with (time_us e + 86400000000 - time_us s) by lia.
    reflexivity.
  - cbn [bind]. unfold datetime_sub, combine. cbn [dt_day dt_time].
    replace ((today - today) * 86400000000 + (time_us e - time_us s))
      with (time_us e - time_us s) by lia.
    reflexivity.
Qed.

(** With both clock readings on one day that is not the last day of
    the calendar, [calculate_duration_minutes] returns the floor of the
    elapsed seconds divided by 60, the end being taken one day later when
    it is before the start: the same-day difference when the end is not
    before the start, the span from the start to midnight plus the span
    from midnight to the end otherwise (in whole minutes when both times
    are on a whole minute), and 0 for equal times. *)
Theorem calculate_duration_minutes_spec (today : Z) (s e : time) :
  time_ok s -> time_ok e -> 1 <= today < max_ordinal ->
  calculate_duration_minutes today today s e = Ok (duration_spec s e) /\
  (time_ltb e s = false -> elapsed_spec s e = time_us e - time_us s) /\
  (time_ltb e s = true ->
   elapsed_spec s e = (86400000000 - time_us s) + (time_us e - 0) /\
   (second s = 0 -> microsecond s = 0 -> second e = 0 -> microsecond e = 0 ->
    duration_spec s e =
      (1440 - (hour s * 60 + minute s)) + (hour e * 60 + minute e))) /\
  calculate_duration_minutes today today s s = Ok 0.
Proof.
  intros Hs He Hday.
  pose proof (time_us_range s Hs) as Hrs. pose proof (time_us_range e He) as Hre.
  split; [|split; [|split]].
  - rewrite duration_spec_div. now apply calculate_duration_minutes_elapsed.
  - rewrite (time_ltb_us e s He Hs). intros Hlt. unfold elapsed_spec.
    now rewrite Hlt.
  - rewrite (time_ltb_us e s He Hs). intros Hlt.
    assert (Hel : elapsed_spec s e = 86400000000 - time_us s + (time_us e - 0))
      by (unfold elapsed_spec; rewrite Hlt; lia).
    split; [exact Hel|]. intros S0 U0 S1 U1.
    rewrite duration_spec_div, Hel. unfold time_us. rewrite S0, U0, S1, U1.
    symmetry. apply (Z.div_unique _ _ _ 0); lia.
  - rewrite (calculate_duration_minutes_elapsed today s s Hs Hs Hday).
    unfold elapsed_spec. rewrite Z.ltb_irrefl, Z.sub_diag. reflexivity.
Qed.

Lemma calculate_duration_minutes_spec_witness :
  calculate_duration_minutes 738000 738000 (mk_time 23 50 0 0) (mk_time 0 10 0 0)
  = Ok 20.
Proof.
  destruct (calculate_duration_minutes_spec 738000
              (mk_time 23 50 0 0) (mk_time 0 10 0 0)) as (H & _).
  - unfold time_ok; cbn; lia.
  - unfold time_ok; cbn; lia.
  - unfold max_ordinal; lia.
  - rewrite H. reflexivity.
Defined.

(** With both clock readings on one day that is not the last day of the
    calendar, [calculate_duration_minutes] raises nothing and returns a
    number of minutes from 0 to 1439. *)
Theorem calculate_duration_minutes_range (today : Z) (s e : time) :
  time_ok s -> time_ok e -> 1 <= today < max_ordinal ->
  exists d, calculate_duration_minutes today today s e = Ok d /\ 0 <= d <= 1439.
Proof.
  intros Hs He Hday. exists (elapsed_spec s e / 60000000).
  split; [now apply calculate_duration_minutes_elapsed|].
  pose proof (elapsed_spec_range s e Hs He) as [Hlo Hhi].
  split.
  - apply Z.div_pos; lia.
  - assert (elapsed_spec s e / 60000000 < 1440); [|lia].
    apply Z.div_lt_upper_bound; lia.
Qed.

Lemma calculate_duration_minutes_range_witness :
  exists d, calculate_duration_minutes 738000 738000
              (mk_time 0 0 0 1) (mk_time 0 0 0 0) = Ok d /\ 0 <= d <= 1439.
Proof.
  apply (calculate_duration_minutes_range 738000).
  - unfold time_ok; cbn; lia.
  - unfold time_ok; cbn; lia.
  - unfold max_ordinal; lia.
Defined.

(** C2: [calculate_duration_minutes] reads the clock once for the start
    and once more for the end ([datetime.today()] on lines 18 and 19 of
    main.py).  With the first reading on one day and the second on the
    next, equal times give 1440 minutes where the floor of the elapsed
    seconds over 60 is 0, and an end ten minutes after the start gives
    1450 where it is 10. *)
Theorem calculate_duration_minutes_clock_read_twice :
  calculate_duration_minutes 738000 738001 (mk_time 9 0 0 0) (mk_time 9 0 0 0)
  = Ok 1440 /\
  duration_spec (mk_time 9 0 0 0) (mk_time 9 0 0 0) = 0 /\
  calculate_duration_minutes 738000 738001 (mk_time 9 0 0 0) (mk_time 9 10 0 0)
  = Ok 1450 /\
  duration_spec (mk_time 9 0 0 0) (mk_time 9 10 0 0) = 10.
Proof. repeat split; vm_compute; reflexivity. Qed.

(** C9: with the clock read on one day for the start and on the next for
    the end, a start at 10:00 and an end at 09:00 give 2820 minutes, which
    is not below 24 hours; and on the last day of the calendar an end
    before the start raises OverflowError. *)
Theorem calculate_duration_minutes_beyond_a_day :
  calculate_duration_minutes 738000 738001
    (mk_time 10 0 0 0) (mk_time 9 0 0 0) = Ok 2820 /\
  calculate_duration_minutes max_ordinal max_ordinal
    (mk_time 23 50 0 0) (mk_time 0 10 0 0) = Err OverflowError.
Proof. split; vm_compute; reflexivity. Qed.

(** ** What a procedure leaves alone *)

#[local] Instance kept_preorder : PreOrder kept.
Proof.
  split.
  - intros w. exists [], (clients_file w), (appts_file w).
    destruct w; cbn. now rewrite app_nil_r.
  - intros w1 w2 w3 (x1 & c1 & a1 & ->) (x2 & c2 & a2 & ->).
    exists (x1 ++ x2), c2, a2. destruct w1; cbn. now rewrite app_assoc.
Qed.

#[local] Instance same_on_preorder {X : Type} (f : world -> X) :
  PreOrder (same_on f).
Proof.
  split.
  - intros w. reflexivity.
  - intros w1 w2 w3 H1 H2. unfold same_on in *. congruence.
Qed.

Section Stable.

Context (R : world -> world -> Prop) `{!PreOrder R}.

Lemma stable_ret {A : Type} (a : A) : stable R (ret a).
Proof. intros w. reflexivity. Qed.

Lemma stable_raise {A : Type} (e : pyexc) : stable R (@raise A e).
Proof. intros w. reflexivity. Qed.

Lemma stable_get {A : Type} (f : world -> A) : stable R (get f).
Proof. intros w. reflexivity. Qed.

Lemma stable_lift {A : Type} (f : world -> result A) : stable R (lift f).
Proof. intros w. reflexivity. Qed.

Lemma stable_attempt {A : Type} (r : result A) : stable R (attempt r).
Proof. intros w. reflexivity. Qed.

Lemma stable_update (f : world -> world) :
  (forall w, R w (f w)) -> stable R (update f).
Proof. intros H w. apply H. Qed.

Lemma stable_bind {A B : Type} (c : M A) (k : A -> M B) :
  stable R c -> (forall a, stable R (k a)) -> stable R (mbind c k).
Proof.
  intros Hc Hk w. unfold mbind. specialize (Hc w).
  destruct (c w) as [[a | e] w1]; cbn [snd] in *.
  - etransitivity; [exact Hc | apply Hk].
  - exact Hc.
Qed.

Lemma stable_for_each {A : Type} (l : list A) (body : A -> M unit) :
  (forall x, stable R (body x)) -> stable R (for_each l body).
Proof.
  intros Hb. induction l as [| x l IH]; cbn [for_each].
  - apply stable_ret.
  - apply stable_bind; auto.
Qed.

Lemma stable_fold_each {A S : Type} (l : list A) (body : A -> S -> M S) :
  (forall x s, stable R (body x s)) -> forall s, stable R (fold_each l s body).
Proof.
  intros Hb. induction l as [| x l IH]; intros s; cbn [fold_each].
  - apply stable_ret.
  - apply stable_bind; auto.
Qed.

End Stable.

Ltac stable_step :=
  lazymatch goal with
  | |- stable _ (mbind _ _) =>
      apply stable_bind; [typeclasses eauto | | intros ?]
  | |- stable _ (ret _) => apply stable_ret; typeclasses eauto
  | |- stable _ (raise _) => apply stable_raise; typeclasses eauto
  | |- stable _ (get _) => apply stable_get; typeclasses eauto
  | |- stable _ (lift _) => apply stable_lift; typeclasses eauto
  | |- stable _ (attempt _) => apply stable_attempt; typeclasses eauto
  | |- stable _ (update _) => apply stable_update; intros ?
  | |- stable _ (for_each _ _) =>
      apply stable_for_each; [typeclasses eauto | intros ?]
  | |- stable _ (fold_each _ _ _) =>
      apply stable_fold_each; [typeclasses eauto | intros ? ?]
  | |- stable _ (match ?x with _ => _ end) => destruct x
  end.

(** ** [save_data] works on copies *)

Lemma insert_fresh (h : list pydict) (d d' : pydict) :
  <[length h := d']> (h ++ [d]) = h ++ [d'].
Proof.
  rewrite insert_app_r_alt by lia. now rewrite Nat.sub_diag.
Qed.

Lemma deref_fresh (w : world) (h : list pydict) (d : pydict) :
  deref (set_heap (h ++ [d]) w) (length h) = d.
Proof.
  unfold deref. cbn [heap set_heap].
  rewrite lookup_total_app_r by lia. now rewrite Nat.sub_diag.
Qed.

Lemma save_appointment_heap (kv : string * nat) (ts : list (string * nat))
    (w : world) :
  exists d, snd (save_appointment kv ts w) = set_heap (heap w ++ [d]) w.
Proof.
  destruct kv as [k v].
  unfold save_appointment, mbind, copy_object, new_object, alloc, get_item,
    lift, attempt, set_item, update, ret.
  cbn [fst snd]. rewrite !deref_fresh.
  destruct (dict_item (deref w v) "start") as [s | e]; [|eexists; reflexivity].
  destruct (strftime s) as [s' | e]; [|eexists; reflexivity].
  cbn [heap set_heap]. rewrite insert_fresh.
  replace (set_heap _ (set_heap (heap w ++ [deref w v]) w))
    with (set_heap (heap w ++ [dict_set (deref w v) "start" (VStr s')]) w)
    by (destruct w; reflexivity).
  rewrite !deref_fresh.
  destruct (dict_item _ "end") as [x | e]; [|eexists; reflexivity].
  destruct (strftime x) as [x' | e]; [|eexists; reflexivity].
  cbn [heap set_heap]. rewrite insert_fresh.
  eexists. destruct w; reflexivity.
Qed.

Lemma save_appointment_kept (kv : string * nat) (ts : list (string * nat)) :
  stable kept (save_appointment kv ts).
Proof.
  intros w. destruct (save_appointment_heap kv ts w) as [d ->].
  exists [d], (clients_file w), (appts_file w). destruct w; reflexivity.
Qed.

Lemma write_json_kept_clients (v : pyval) :
  stable kept (write_json set_clients_file v).
Proof.
  unfold write_json. destruct (serializable v); repeat stable_step;
    match goal with |- kept ?w _ => destruct w end;
    eexists [], _, _; unfold set_clients_file, set_appts_file, set_heap;
    cbn; rewrite app_nil_r; reflexivity.
Qed.

Lemma write_json_kept_appts (v : pyval) :
  stable kept (write_json set_appts_file v).
Proof.
  unfold write_json. destruct (serializable v); repeat stable_step;
    match goal with |- kept ?w _ => destruct w end;
    eexists [], _, _; unfold set_clients_file, set_appts_file, set_heap;
    cbn; rewrite app_nil_r; reflexivity.
Qed.

Lemma save_data_kept : stable kept save_data.
Proof.
  unfold save_data. repeat stable_step;
    auto using write_json_kept_clients, write_json_kept_appts,
      save_appointment_kept.
Qed.

(** C10: [save_data] changes nothing in memory: whether it returns or
    raises, the two collections and the two counters are the ones it
    started with, and every object that existed, so every appointment
    record with its time objects, is as it was; the conversion to strings
    is done on objects that are new. *)
Theorem save_data_keeps_memory (w : world) :
  let w' := snd (save_data w) in
  clients w' = clients w /\
  appointments w' = appointments w /\
  client_counter w' = client_counter w /\
  appointment_counter w' = appointment_counter w /\
  (exists copies, heap w' = heap w ++ copies) /\
  (forall l : nat, (l < length (heap w))%nat -> deref w' l = deref w l).
Proof.
  destruct (save_data_kept w) as (extra & cf & af & ->). cbn zeta.
  destruct w; cbn. repeat split; try reflexivity.
  - now exists extra.
  - intros l Hl. unfold deref. cbn. now apply lookup_total_app_l.
Qed.

(** ** A file that cannot be parsed *)

(** C8 as stated fails: nothing catches the error of [json.load], so the
    window is not built. *)
Lemma init_corrupt_clients_file :
  fst (init (boot (Some FileCorrupt) None)) = Err JSONDecodeError.
Proof. reflexivity. Qed.

(** C8, as the code has it: [load_data] raises JSONDecodeError for a file
    that exists and cannot be parsed, and [__init__] fails with that
    error; when it is raised, the collection of the file is still empty
    and both counters are still 1, and the clients read before a bad
    appointments file stay loaded. *)
Theorem load_data_corrupt_file (af : option file) (d : pydict) :
  let w := boot (Some FileCorrupt) af in
  let w1 := boot (Some (FileJson (VDict d))) (Some FileCorrupt) in
  let w2 := boot None (Some FileCorrupt) in
  load_data w = (Err JSONDecodeError, w) /\
  init w = (Err JSONDecodeError, w) /\
  load_data w1 = (Err JSONDecodeError, set_clients (dict_update [] d) w1) /\
  init w1 = (Err JSONDecodeError, set_clients (dict_update [] d) w1) /\
  load_data w2 = (Err JSONDecodeError, w2) /\
  init w2 = (Err JSONDecodeError, w2).
Proof. cbv zeta. repeat split; reflexivity. Qed.

(** ** Adding an appointment without a client *)

(** C7 as stated fails: for an id that is selected but is no key of
    [clients], the record is inserted and the counter incremented before
    the list refresh raises KeyError. *)
Lemma add_appointment_unknown_client :
  let w := set_current_client_id (Some "c9"%string) (boot None None) in
  let r := add_appointment 738000 738000 (mk_date 2024 3 5)
             (mk_time 9 0 0 0) (mk_time 9 47 0 0) (Float64.of_Z 30) 6 w in
  dict_get (clients w) "c9" = None /\
  fst r = Err KeyError /\
  appointments (snd r) = [("a1"%string, 0%nat)] /\
  appointments w = [] /\
  appointment_counter (snd r) = 2 /\
  appointment_counter w = 1.
Proof. cbv zeta. repeat split; reflexivity. Qed.

Lemma add_appointment_no_client (ts te : Z) (d : date) (s e : time)
    (r : float) (i : Z) (w : world) :
  selected (current_client_id w) = None ->
  add_appointment ts te d s e r i w = (Ok tt, add_warning "No client selected" w).
Proof.
  intros H. unfold add_appointment, mbind, get. now rewrite H.
Qed.

(** ** Identifiers: [int] reads back what [str] prints *)

Lemma digit_chars_plain (u : Decimal.uint) : Forall plain (digit_chars u).
Proof.
  unfold digit_chars.
  induction u; cbn [NilEmpty.string_of_uint list_ascii_of_string];
    constructor; try assumption; repeat split; discriminate.
Qed.

Lemma parse_uint_digit_chars (u : Decimal.uint) :
  parse_uint true (digit_chars u) = Some u.
Proof.
  unfold digit_chars.
  induction u; cbn [NilEmpty.string_of_uint list_ascii_of_string parse_uint];
    try reflexivity;
    cbn [Ascii.eqb Bool.eqb digit_cons]; rewrite IHu; reflexivity.
Qed.

Lemma parse_uint_digit_chars_first (u : Decimal.uint) :
  u <> Decimal.Nil -> parse_uint false (digit_chars u) = Some u.
Proof.
  intros Hu. pose proof (parse_uint_digit_chars) as Hp. unfold digit_chars in *.
  destruct u; try congruence;
    cbn [NilEmpty.string_of_uint list_ascii_of_string parse_uint];
    cbn [Ascii.eqb Bool.eqb digit_cons]; rewrite Hp; reflexivity.
Qed.

Lemma strip_chars_plain (l : list ascii) :
  Forall (fun c => is_space c = false) l -> strip_chars l = l.
Proof.
  intros H. unfold strip_chars.
  assert (Hl : forall l, Forall (fun c => is_space c = false) l -> lstrip l = l).
  { intros l' H'. destruct H' as [| c l' Hc _]; [reflexivity|].
    cbn [lstrip]. now rewrite Hc. }
  rewrite (Hl l H), (Hl (rev l)) by (now apply Forall_rev).
  apply rev_involutive.
Qed.

Lemma plain_no_space (l : list ascii) :
  Forall plain l -> Forall (fun c => is_space c = false) l.
Proof.
  intros H. eapply Forall_impl; [exact H|]. now intros c [Hc _].
Qed.

Lemma py_int_digits (u : Decimal.uint) :
  u <> Decimal.Nil ->
  py_int (NilEmpty.string_of_uint u) = Ok (Z.of_uint u) /\
  py_int (String "-" (NilEmpty.string_of_uint u)) = Ok (- Z.of_uint u).
Proof.
  intros Hu. pose proof (digit_chars_plain u) as Hpl.
  pose proof (parse_uint_digit_chars_first u Hu) as Hp.
  unfold py_int. fold (digit_chars u). cbn [list_ascii_of_string].
  fold (digit_chars u). split.
  - rewrite strip_chars_plain by (now apply plain_no_space).
    destruct (digit_chars u) as [| c r] eqn:E.
    + rewrite Hp. reflexivity.
    + inversion Hpl as [| ? ? (_ & Hm & Hplus) _]; subst.
      replace (match c with
               | "-"%char => option_map Decimal.Neg (parse_uint false r)
               | "+"%char => option_map Decimal.Pos (parse_uint false r)
               | _ => option_map Decimal.Pos (parse_uint false (c :: r))
               end) with (option_map Decimal.Pos (parse_uint false (c :: r))).
      * rewrite Hp. reflexivity.
      * destruct c as [[] [] [] [] [] [] [] []]; try reflexivity; congruence.
  - rewrite strip_chars_plain.
    + rewrite Hp. reflexivity.
    + constructor; [reflexivity | now apply plain_no_space].
Qed.

Lemma string_of_uint_nonnil (u : Decimal.uint) :
  u <> Decimal.Nil -> NilZero.string_of_uint u = NilEmpty.string_of_uint u.
Proof. destruct u; intros H; [congruence | reflexivity..]. Qed.

Lemma py_int_str (n : Z) : py_int (str_of_int n) = Ok n.
Proof.
  unfold str_of_int.
  destruct n as [| p | p]; [reflexivity | |];
    cbn [Z.to_int NilZero.string_of_int];
    pose proof (Unsigned.to_uint_nonnil p) as Hnn;
    destruct (py_int_digits (Pos.to_uint p) Hnn) as [Hpos Hneg];
    assert (Hof : Z.of_uint (Pos.to_uint p) = Z.pos p)
      by (unfold Z.of_uint; now rewrite Unsigned.of_to);
    rewrite string_of_uint_nonnil by assumption.
  - now rewrite Hpos, Hof.
  - now rewrite Hneg, Hof.
Qed.

Lemma tail_prefixed (c : ascii) (s : string) : tail (String c s) = s.
Proof. reflexivity. Qed.

(** ** The globals through the life of the window *)

Lemma stable_weaken {A : Type} (R R' : world -> world -> Prop) (c : M A) :
  (forall w w', R w w' -> R' w w') -> stable R c -> stable R' c.
Proof. intros H Hc w. apply H, Hc. Qed.

Lemma kept_core (w w' : world) : kept w w' -> same_on core w w'.
Proof. intros (x & cf & af & ->). destruct w; reflexivity. Qed.

Lemma save_data_core : stable (same_on core) save_data.
Proof. exact (stable_weaken _ _ _ kept_core save_data_kept). Qed.

Lemma refresh_client_list_core : stable (same_on core) refresh_client_list.
Proof.
  unfold refresh_client_list, show_client.
  repeat stable_step; reflexivity.
Qed.

Lemma load_appointments_core : stable (same_on core) load_appointments.
Proof.
  unfold load_appointments, list_appointment.
  repeat stable_step; reflexivity.
Qed.

Lemma stable_snd {A : Type} (f : world -> pydict * list (string * nat) * Z * Z * option string)
    (c : M A) (w : world) :
  stable (same_on f) c -> f (snd (c w)) = f w.
Proof. intros H. apply H. Qed.

Section Dicts.

Context {V : Type}.
Implicit Types (d : list (string * V)) (k : string) (v : V).

Lemma dict_get_in d k v : dict_get d k = Some v -> In k (keys d).
Proof.
  induction d as [| [k' v'] d IH]; cbn; [discriminate|].
  destruct (String.eqb_spec k' k); auto.
Qed.

Lemma dict_get_notin d k : ~ In k (keys d) -> dict_get d k = None.
Proof.
  induction d as [| [k' v'] d IH]; cbn; [reflexivity|]. intros H.
  destruct (String.eqb_spec k' k); [tauto | apply IH; tauto].
Qed.

Lemma keys_dict_set_new d k v :
  ~ In k (keys d) -> keys (dict_set d k v) = keys d ++ [k].
Proof.
  induction d as [| [k' v'] d IH]; cbn; [reflexivity|]. intros H.
  destruct (String.eqb_spec k' k); [tauto|]. cbn. f_equal. apply IH. tauto.
Qed.

Lemma keys_dict_set_old d k v :
  In k (keys d) -> keys (dict_set d k v) = keys d.
Proof.
  induction d as [| [k' v'] d IH]; cbn; [tauto|]. intros H.
  destruct (String.eqb_spec k' k); [reflexivity|]. cbn. f_equal.
  apply IH. tauto.
Qed.

Lemma keys_dict_set d k v :
  keys (dict_set d k v) = keys d \/ 
  (~ In k (keys d) /\ keys (dict_set d k v) = keys d ++ [k]).
Proof.
  destruct (in_dec string_dec k (keys d)).
  - left. now apply keys_dict_set_old.
  - right. split; [assumption | now apply keys_dict_set_new].
Qed.

Lemma in_keys_dict_set d k v k' :
  In k' (keys (dict_set d k v)) <-> In k' (keys d) \/ k' = k.
Proof.
  destruct (in_dec string_dec k (keys d)) as [Hin | Hnin].
  - rewrite keys_dict_set_old by assumption. split; [tauto|].
    intros [H | ->]; assumption.
  - rewrite keys_dict_set_new, in_app_iff by assumption. cbn. intuition.
Qed.

Lemma NoDup_dict_set d k v : NoDup (keys d) -> NoDup (keys (dict_set d k v)).
Proof.
  intros H. destruct (keys_dict_set d k v) as [-> | [Hn ->]]; [assumption|].
  apply NoDup_app. split; [assumption|]. split.
  - intros x Hx Hk. apply list_elem_of_In in Hx.
    apply list_elem_of_In in Hk. destruct Hk as [-> | []]. tauto.
  - apply NoDup_singleton.
Qed.

Lemma NoDup_dict_update d other :
  NoDup (keys d) -> NoDup (keys (dict_update d other)).
Proof.
  unfold dict_update. revert d.
  induction other as [| [k v] o IH]; intros d H; cbn; [assumption|].
  apply IH. now apply NoDup_dict_set.
Qed.

End Dicts.

(** ** Running a procedure step by step *)

Lemma bind_get {A B : Type} (f : world -> A) (k : A -> M B) (w : world) :
  mbind (get f) k w = k (f w) w.
Proof. reflexivity. Qed.

Lemma bind_update {B : Type} (g : world -> world) (k : unit -> M B) (w : world) :
  mbind (update g) k w = k tt (g w).
Proof. reflexivity. Qed.

Lemma bind_attempt {A B : Type} (r : result A) (k : A -> M B) (w : world) :
  mbind (attempt r) k w =
  match r with Ok a => k a w | Err e => (Err e, w) end.
Proof. unfold mbind, attempt. now destruct r. Qed.

Lemma bind_lift {A B : Type} (f : world -> result A) (k : A -> M B) (w : world) :
  mbind (lift f) k w =
  match f w with Ok a => k a w | Err e => (Err e, w) end.
Proof. unfold mbind, lift. now destruct (f w). Qed.

Lemma bind_ok {A B : Type} (c : M A) (k : A -> M B) (w w' : world) (b : B) :
  mbind c k w = (Ok b, w') ->
  exists a w1, c w = (Ok a, w1) /\ k a w1 = (Ok b, w').
Proof.
  unfold mbind. destruct (c w) as [[a | e] w1]; [eauto | discriminate].
Qed.

Lemma snd_eq {A : Type} (c : M A) (w w' : world) (r : result A) :
  c w = (r, w') -> w' = snd (c w).
Proof. now intros ->. Qed.

(** ** What each action does to the globals *)

Lemma refresh_save_core :
  stable (same_on core) (refresh_client_list ;; save_data).
Proof.
  repeat stable_step; auto using refresh_client_list_core, save_data_core.
Qed.

Lemma list_save_core :
  stable (same_on core) (load_appointments ;; save_data).
Proof.
  repeat stable_step; auto using load_appointments_core, save_data_core.
Qed.

Lemma add_client_core (name phone email : string) (w : world) :
  let w' := snd (add_client name phone email w) in
  core w' = core w \/
  exists v,
    core w' = (dict_set (clients w) ("c" ++ str_of_int (client_counter w)) v,
               appointments w, client_counter w + 1, appointment_counter w,
               current_client_id w).
Proof.
  cbv zeta. unfold add_client. destruct (String.eqb (strip name) "").
  - left. reflexivity.
  - right. eexists. rewrite bind_get, !bind_update.
    rewrite (refresh_save_core _). reflexivity.
Qed.

Lemma add_appointment_core (ts te : Z) (d : date) (s e : time) (r : float)
    (i : Z) (w : world) :
  let w' := snd (add_appointment ts te d s e r i w) in
  core w' = core w \/
  exists l,
    core w' = (clients w,
               dict_set (appointments w)
                 ("a" ++ str_of_int (appointment_counter w)) l,
               client_counter w, appointment_counter w + 1,
               current_client_id w).
Proof.
  cbv zeta. unfold add_appointment. rewrite bind_get.
  destruct (selected (current_client_id w)) as [cid|]; [|left; reflexivity].
  rewrite bind_attempt.
  destruct (calculate_duration_minutes ts te s e) as [dur | x];
    [|left; reflexivity].
  rewrite bind_attempt.
  destruct (calculate_cost dur r i) as [cost | x]; [|left; reflexivity].
  right. eexists. rewrite bind_get, bind_update.
  unfold mbind at 1, new_object, alloc. rewrite bind_update.
  rewrite (list_save_core _). reflexivity.
Qed.

Lemma find_client_in (cs : pydict) (name cid : string) :
  find_client cs name = Ok (Some cid) -> In cid (keys cs).
Proof.
  induction cs as [| [k data] cs IH]; cbn; [discriminate|].
  destruct (subscript data "name") as [n | e]; cbn; [|discriminate].
  destruct (is_str n name).
  - intros [= ->]. now left.
  - intros H. right. now apply IH.
Qed.

Lemma open_client_core (name : string) (w : world) :
  let w' := snd (open_client_appointments name w) in
  core w' = core w \/
  exists cid, In cid (keys (clients w)) /\
    core w' = (clients w, appointments w, client_counter w,
               appointment_counter w, Some cid).
Proof.
  cbv zeta. unfold open_client_appointments.
  assert (Htail : stable (same_on core)
            (do* cur := get current_client_id in
             match selected cur with
             | Some _ => load_appointments ;; update (set_current_page AppointmentsPage)
             | None => ret tt
             end)).
  { repeat stable_step; auto using load_appointments_core; reflexivity. }
  rewrite bind_lift.
  destruct (find_client (clients w) name) as [[cid |] | e] eqn:E;
    cbv beta iota.
  - right. exists cid. split; [now apply find_client_in with name|].
    rewrite bind_update. rewrite (Htail _). reflexivity.
  - left. change (mbind (ret tt) ?k w) with (k tt w). cbv beta.
    rewrite (Htail _). reflexivity.
  - left. reflexivity.
Qed.

Lemma other_actions_core (a : action) :
  match a with
  | GoBack | ApplyFilter _ _ | ClearFilter => stable (same_on core) (perform a)
  | _ => True
  end.
Proof.
  destruct a; cbn [perform]; try exact I;
    unfold go_back_to_clients, apply_date_filter, clear_date_filter;
    repeat stable_step;
    auto using refresh_client_list_core, load_appointments_core; reflexivity.
Qed.

(** ** Identifiers stay distinct *)

#[local] Instance preserved_preorder (P : world -> Prop) : PreOrder (preserved P).
Proof. split; unfold preserved; [intros w | intros w1 w2 w3]; tauto. Qed.

Lemma stable_new_object (R : world -> world -> Prop) (d : pydict) :
  (forall w, R w (set_heap (heap w ++ [d]) w)) -> stable R (new_object d).
Proof. intros H w. apply H. Qed.

Ltac stable_steps :=
  repeat first [ stable_step | apply stable_new_object; intros ? ].

Lemma load_data_keys_distinct : stable (preserved keys_distinct) load_data.
Proof.
  unfold load_data, load_clients, update_item, load_appointments_file,
    load_appointment, update_counters, set_item, get_item.
  stable_steps; intros [H1 H2]; split;
    cbn [clients appointments set_clients set_appointments set_heap
         set_client_counter set_appointment_counter];
    auto using NoDup_dict_update, NoDup_dict_set.
Qed.

Lemma fold_left_max_ge (r : list Z) (n : Z) :
  n <= fold_left Z.max r n /\ forall m, In m r -> m <= fold_left Z.max r n.
Proof.
  revert n. induction r as [| x r IH]; intros n; cbn; [split; [lia | tauto]|].
  destruct (IH (Z.max n x)) as [H1 H2]. split; [lia|].
  intros m [<- | Hm]; [lia | auto].
Qed.

Lemma map_result_ok {A B : Type} (f : A -> result B) (l : list A) (ys : list B) :
  map_result f l = Ok ys ->
  forall x, In x l -> exists y, f x = Ok y /\ In y ys.
Proof.
  revert ys. induction l as [| a l IH]; intros ys; cbn; [tauto|].
  destruct (f a) as [y | e] eqn:E; cbn; [|discriminate].
  destruct (map_result f l) as [ys' | e]; cbn; [|discriminate].
  intros [= <-] x [<- | Hx].
  - exists y. split; [assumption | now left].
  - destruct (IH ys' eq_refl x Hx) as (y' & H1 & H2). exists y'.
    split; [assumption | now right].
Qed.

Lemma next_counter_below (ks : list string) (n : Z) :
  next_counter ks = Ok n -> below ks n.
Proof.
  unfold next_counter. destruct (map_result _ ks) as [ns | e] eqn:E; cbn;
    [|discriminate].
  destruct ns as [| n0 r]; [discriminate|]. intros [= <-] k Hk.
  destruct (map_result_ok _ _ _ E k Hk) as (m & Hm & Hin). exists m.
  split; [assumption|]. destruct (fold_left_max_ge r n0) as [H1 H2].
  destruct Hin as [<- | Hin]; [lia | specialize (H2 m Hin); lia].
Qed.

Lemma below_nil (n : Z) : below [] n.
Proof. intros k []. Qed.

Ltac simpl_world :=
  cbn [clients appointments client_counter appointment_counter heap
       current_client_id clients_file appts_file
       set_clients set_appointments set_client_counter
       set_appointment_counter set_heap set_current_client_id set_filter
       set_clients_file set_appts_file] in *.

Lemma update_counters_ok (w w' : world) :
  update_counters w = (Ok tt, w') ->
  clients w' = clients w /\ appointments w' = appointments w /\
  current_client_id w' = current_client_id w /\
  below (keys (clients w)) (client_counter w') /\
  below (keys (appointments w)) (appointment_counter w') /\
  counter_updated (keys (clients w)) (client_counter w) (client_counter w') /\
  counter_updated (keys (appointments w)) (appointment_counter w)
    (appointment_counter w').
Proof.
  unfold update_counters. rewrite bind_get. intros H.
  apply bind_ok in H. destruct H as ([] & w1 & H1 & H2).
  rewrite bind_get in H2.
  assert (Hc : clients w1 = clients w /\ appointments w1 = appointments w /\
               current_client_id w1 = current_client_id w /\
               appointment_counter w1 = appointment_counter w /\
               below (keys (clients w)) (client_counter w1) /\
               counter_updated (keys (clients w)) (client_counter w)
                 (client_counter w1)).
  { destruct (clients w) as [| c cs] eqn:Ec.
    - injection H1 as <-. repeat split; try assumption; try reflexivity.
      + apply below_nil.
      + left. split; reflexivity.
    - rewrite bind_attempt in H1.
      destruct (next_counter (keys (c :: cs))) as [n | e] eqn:En;
        [|discriminate].
      injection H1 as <-. simpl_world.
      repeat split; try assumption; try reflexivity.
      + now apply next_counter_below.
      + right. split; [discriminate | assumption]. }
  destruct Hc as (Hc1 & Hc2 & Hc3 & Hc4 & Hc5 & Hc6). rewrite Hc2 in H2.
  destruct (appointments w) as [| a aps] eqn:Ea.
  - injection H2 as <-. repeat split; try assumption.
    + apply below_nil.
    + left. split; [reflexivity | assumption].
  - rewrite bind_attempt in H2.
    destruct (next_counter (keys (a :: aps))) as [n | e] eqn:En;
      [|discriminate].
    injection H2 as <-. simpl_world.
    repeat split; try assumption.
    + now apply next_counter_below.
    + right. split; [discriminate | assumption].
Qed.

Lemma load_data_ids_ok (cf af : option file) (w : world) :
  load_data (boot cf af) = (Ok tt, w) -> ids_ok w /\ current_client_id w = None.
Proof.
  intros H.
  assert (Hd : keys_distinct w).
  { rewrite (snd_eq _ _ _ _ H). apply load_data_keys_distinct.
    split; constructor. }
  unfold load_data in H.
  apply bind_ok in H. destruct H as ([] & w1 & H1 & H).
  apply bind_ok in H. destruct H as ([] & w2 & H2 & H).
  assert (Hcur : current_client_id w2 = None).
  { rewrite (snd_eq _ _ _ _ H2).
    assert (S2 : stable (same_on current_client_id) load_appointments_file).
    { unfold load_appointments_file, load_appointment, set_item, get_item.
      stable_steps; reflexivity. }
    rewrite (S2 _). rewrite (snd_eq _ _ _ _ H1).
    assert (S1 : stable (same_on current_client_id) load_clients).
    { unfold load_clients, update_item. repeat stable_step; reflexivity. }
    rewrite (S1 _). reflexivity. }
  destruct (update_counters_ok _ _ H) as (E1 & E2 & E3 & B1 & B2 & _).
  destruct Hd as [D1 D2]. unfold ids_ok. rewrite E1, E2 in *.
  repeat split; try assumption. congruence.
Qed.

Lemma ids_ok_core (w w' : world) :
  core w' = core w -> ids_ok w -> ids_ok w'.
Proof. unfold core, ids_ok. intros [= -> -> -> -> _]. tauto. Qed.

Lemma selection_ok_core (w w' : world) :
  core w' = core w -> selection_ok w -> selection_ok w'.
Proof. unfold core, selection_ok. intros [= -> _ _ _ ->]. tauto. Qed.

Lemma below_fresh (ks : list string) (n : Z) (c : ascii) :
  below ks n -> ~ In (String c (str_of_int n)) ks.
Proof.
  intros Hb Hin. destruct (Hb _ Hin) as (m & Hm & Hlt).
  rewrite tail_prefixed, py_int_str in Hm. injection Hm as <-. lia.
Qed.

Lemma below_extend (ks : list string) (n : Z) (c : ascii) :
  below ks n -> below (ks ++ [String c (str_of_int n)]) (n + 1).
Proof.
  intros Hb k Hk. apply in_app_iff in Hk. destruct Hk as [Hk | [<- | []]].
  - destruct (Hb k Hk) as (m & Hm & Hlt). exists m. split; [assumption | lia].
  - exists n. rewrite tail_prefixed, py_int_str. split; [reflexivity | lia].
Qed.

Lemma ids_after_insert {V : Type} (d : list (string * V)) (n : Z) (c : ascii)
    (v : V) :
  NoDup (keys d) -> below (keys d) n ->
  NoDup (keys (dict_set d (String c (str_of_int n)) v)) /\
  below (keys (dict_set d (String c (str_of_int n)) v)) (n + 1) /\
  keys (dict_set d (String c (str_of_int n)) v)
    = keys d ++ [String c (str_of_int n)].
Proof.
  intros Hd Hb. pose proof (below_fresh _ _ c Hb) as Hf.
  split; [now apply NoDup_dict_set|].
  rewrite keys_dict_set_new by assumption.
  split; [now apply below_extend | reflexivity].
Qed.

Lemma perform_invariant (a : action) (w : world) :
  ids_ok w -> selection_ok w ->
  ids_ok (snd (perform a w)) /\ selection_ok (snd (perform a w)).
Proof.
  intros Hi Hs. pose proof Hi as (D1 & D2 & B1 & B2).
  destruct a as [name phone email | name | | from to | | ts te d s e r i];
    cbn [perform].
  - destruct (add_client_core name phone email w) as [H | [v H]].
    + split; [now apply (ids_ok_core w) | now apply (selection_ok_core w)].
    + injection H as H1 H2 H3 H4 H5.
      destruct (ids_after_insert (clients w) (client_counter w) "c" v D1 B1)
        as (N & B & K).
      split.
      * unfold ids_ok. rewrite H1, H2, H3, H4. auto.
      * intros cid Hc. rewrite H5 in Hc. rewrite H1.
        apply in_keys_dict_set. left. auto.
  - destruct (open_client_core name w) as [H | (cid & Hin & H)].
    + split; [now apply (ids_ok_core w) | now apply (selection_ok_core w)].
    + injection H as H1 H2 H3 H4 H5. split.
      * unfold ids_ok. rewrite H1, H2, H3, H4. auto.
      * intros c Hc. rewrite H5 in Hc. injection Hc as <-. now rewrite H1.
  - pose proof (other_actions_core GoBack w) as H.
    split; [now apply (ids_ok_core w) | now apply (selection_ok_core w)].
  - pose proof (other_actions_core (ApplyFilter from to) w) as H.
    split; [now apply (ids_ok_core w) | now apply (selection_ok_core w)].
  - pose proof (other_actions_core ClearFilter w) as H.
    split; [now apply (ids_ok_core w) | now apply (selection_ok_core w)].
  - destruct (add_appointment_core ts te d s e r i w) as [H | [l H]].
    + split; [now apply (ids_ok_core w) | now apply (selection_ok_core w)].
    + injection H as H1 H2 H3 H4 H5.
      destruct (ids_after_insert (appointments w) (appointment_counter w) "a"
                  l D2 B2) as (N & B & K).
      split.
      * unfold ids_ok. rewrite H1, H2, H3, H4. auto.
      * intros cid Hc. rewrite H5 in Hc. rewrite H1. auto.
Qed.

Lemma init_invariant (cf af : option file) (w : world) :
  init (boot cf af) = (Ok tt, w) -> ids_ok w /\ selection_ok w.
Proof.
  unfold init. intros H. apply bind_ok in H. destruct H as ([] & w1 & H1 & H).
  destruct (load_data_ids_ok _ _ _ H1) as [Hi Hc].
  rewrite !bind_update in H.
  assert (Hcore : core w = core w1).
  { rewrite (snd_eq _ _ _ _ H). rewrite (refresh_client_list_core _).
    unfold core. cbn. now rewrite Hc. }
  split; [now apply (ids_ok_core w1)|].
  apply (selection_ok_core w1); [assumption|].
  intros cid Hcid. congruence.
Qed.

Lemma reachable_invariant (w : world) :
  reachable w -> ids_ok w /\ selection_ok w.
Proof.
  induction 1 as [cf af w _ _ H | w a w' _ [Hi Hs] _ H].
  - now apply init_invariant with cf af.
  - rewrite (snd_eq _ _ _ _ H). now apply perform_invariant.
Qed.

Lemma load_data_counters (cf af : option file) (w : world) :
  load_data (boot cf af) = (Ok tt, w) ->
  counter_updated (keys (clients w)) 1 (client_counter w) /\
  counter_updated (keys (appointments w)) 1 (appointment_counter w).
Proof.
  unfold load_data. intros H.
  apply bind_ok in H. destruct H as ([] & w1 & H1 & H).
  apply bind_ok in H. destruct H as ([] & w2 & H2 & H).
  assert (Hc : client_counter w2 = 1 /\ appointment_counter w2 = 1).
  { rewrite (snd_eq _ _ _ _ H2).
    assert (S2 : stable (same_on (fun w => (client_counter w, appointment_counter w)))
                   load_appointments_file).
    { unfold load_appointments_file, load_appointment, set_item, get_item.
      stable_steps; reflexivity. }
    assert (S1 : stable (same_on (fun w => (client_counter w, appointment_counter w)))
                   load_clients).
    { unfold load_clients, update_item. stable_steps; reflexivity. }
    pose proof (S2 w1) as E2. pose proof (S1 (boot cf af)) as E1.
    unfold same_on in E1, E2. rewrite <- (snd_eq _ _ _ _ H1) in E1.
    cbn in E1. split; congruence. }
  destruct Hc as [C1 C2].
  destruct (update_counters_ok _ _ H) as (E1 & E2 & _ & _ & _ & S1 & S2).
  rewrite E1, E2. now rewrite C1 in S1; rewrite C2 in S2.
Qed.

Lemma map_result_in {A B : Type} (f : A -> result B) (l : list A)
    (ys : list B) :
  map_result f l = Ok ys ->
  forall y, In y ys -> exists x, In x l /\ f x = Ok y.
Proof.
  revert ys. induction l as [| a l IH]; intros ys; cbn.
  - intros [= <-] y [].
  - destruct (f a) as [y0 | e] eqn:E; cbn; [|discriminate].
    destruct (map_result f l) as [ys' | e]; cbn; [|discriminate].
    intros [= <-] y [<- | Hy].
    + exists a. split; [now left | assumption].
    + destruct (IH ys' eq_refl y Hy) as (x & H1 & H2). exists x.
      split; [now right | assumption].
Qed.

Lemma fold_left_max_in (r : list Z) (n : Z) : In (fold_left Z.max r n) (n :: r).
Proof.
  revert n. induction r as [| x r IH]; intros n; cbn; [now left|].
  destruct (IH (Z.max n x)) as [H | H]; [|auto].
  destruct (Z.max_spec n x) as [[_ E] | [_ E]]; rewrite E in *; auto.
Qed.

Lemma next_counter_max (ks : list string) (n : Z) :
  ks <> [] -> next_counter ks = Ok n -> max_suffix_plus_one ks n.
Proof.
  intros Hne H. pose proof (next_counter_below ks n H) as Hb.
  destruct ks as [| k0 ks]; [congruence|]. split.
  - intros k Hk. destruct (Hb k Hk) as (m & Hm & Hlt). exists m.
    split; [assumption | lia].
  - unfold next_counter in H.
    destruct (map_result _ (k0 :: ks)) as [ns | e] eqn:E; cbn in H;
      [|discriminate].
    destruct ns as [| n0 r]; [discriminate|]. injection H as <-.
    destruct (map_result_in _ _ _ E _ (fold_left_max_in r n0)) as (k & Hk & Hm).
    exists k. split; [assumption|]. rewrite Hm. f_equal. lia.
Qed.

Lemma counter_updated_max (ks : list string) (n : Z) :
  counter_updated ks 1 n -> max_suffix_plus_one ks n.
Proof.
  intros [[-> ->] | [Hne H]]; [reflexivity | now apply next_counter_max].
Qed.

Lemma in_keys_dict_update (d other : pydict) (k : string) :
  In k (keys (dict_update d other)) <-> In k (keys d) \/ In k (keys other).
Proof.
  unfold dict_update. revert d.
  induction other as [| [k0 v0] o IH]; intros d; cbn [fold_left].
  - cbn. tauto.
  - rewrite IH, in_keys_dict_set. cbn. intuition congruence.
Qed.

Lemma load_appointment_key (k : string) (v : pyval) (w w' : world) :
  load_appointment (k, v) w = (Ok tt, w') ->
  clients w' = clients w /\
  forall k', In k' (keys (appointments w')) <->
             In k' (keys (appointments w)) \/ k' = k.
Proof.
  unfold load_appointment. destruct v as [| | | | | | | d]; try discriminate.
  intros H.
  apply bind_ok in H. destruct H as (l & w1 & H1 & H).
  apply bind_ok in H. destruct H as (s & w2 & H2 & H).
  apply bind_ok in H. destruct H as (t & w3 & H3 & H).
  apply bind_ok in H. destruct H as ([] & w4 & H4 & H).
  apply bind_ok in H. destruct H as (e & w5 & H5 & H).
  apply bind_ok in H. destruct H as (t' & w6 & H6 & H).
  apply bind_ok in H. destruct H as ([] & w7 & H7 & H).
  unfold new_object, alloc in H1. injection H1 as <- <-.
  unfold get_item, lift in H2, H5. unfold attempt in H3, H6.
  unfold set_item, update in H4, H7, H.
  injection H2 as _ <-. injection H3 as _ <-. injection H4 as <-.
  injection H5 as _ <-. injection H6 as _ <-. injection H7 as <-.
  injection H as <-. cbn [clients appointments set_appointments set_heap].
  split; [reflexivity|]. intros k'. apply in_keys_dict_set.
Qed.

Lemma load_appointments_keys (items : pydict) (w w' : world) :
  for_each items load_appointment w = (Ok tt, w') ->
  clients w' = clients w /\
  forall k, In k (keys (appointments w')) <->
            In k (keys (appointments w)) \/ In k (keys items).
Proof.
  revert w. induction items as [| [k v] items IH]; intros w H.
  - cbn in H. injection H as <-. cbn. split; [reflexivity | tauto].
  - cbn [for_each] in H. apply bind_ok in H. destruct H as ([] & w1 & H1 & H).
    destruct (load_appointment_key k v w w1 H1) as [C1 K1].
    destruct (IH w1 H) as [C2 K2]. split; [congruence|].
    intros k'. rewrite K2, K1. cbn. intuition.
Qed.

Lemma load_data_keys (cf af : option file) (w : world) :
  load_data (boot cf af) = (Ok tt, w) ->
  (cf = None -> clients w = []) /\
  (forall d, cf = Some (FileJson (VDict d)) ->
     forall k, In k (keys d) <-> In k (keys (clients w))) /\
  (af = None -> appointments w = []) /\
  (forall d, af = Some (FileJson (VDict d)) ->
     forall k, In k (keys d) <-> In k (keys (appointments w))).
Proof.
  unfold load_data. intros H.
  apply bind_ok in H. destruct H as ([] & w1 & H1 & H).
  apply bind_ok in H. destruct H as ([] & w2 & H2 & H).
  destruct (update_counters_ok _ _ H) as (E1 & E2 & _).
  rewrite E1, E2. clear H E1 E2.
  assert (S1 : appointments w1 = [] /\ appts_file w1 = af).
  { assert (S : stable (same_on (fun w => (appointments w, appts_file w)))
                  load_clients).
    { unfold load_clients, update_item. repeat stable_step; reflexivity. }
    pose proof (S (boot cf af)) as E. rewrite H1 in E.
    unfold same_on in E. cbn in E. now injection E. }
  destruct S1 as [A1 F1].
  assert (C2 : clients w2 = clients w1 /\
               (af = None -> appointments w2 = []) /\
               (forall d, af = Some (FileJson (VDict d)) ->
                  forall k, In k (keys d) <-> In k (keys (appointments w2)))).
  { unfold load_appointments_file in H2. rewrite bind_get, F1 in H2.
    destruct af as [f |].
    - rewrite bind_attempt in H2. destruct f as [doc |]; [|discriminate].
      cbn [json_load] in H2. destruct doc as [| | | | | | | d];
        try discriminate.
      destruct (load_appointments_keys d w1 w2 H2) as [C K].
      split; [exact C|]. split; [discriminate|].
      intros d' [= <-] k. rewrite K, A1. cbn. tauto.
    - injection H2 as <-. split; [reflexivity|].
      split; [intros _; exact A1 | discriminate]. }
  destruct C2 as (C2 & A2 & K2). rewrite C2.
  split; [|split; [|split; assumption]].
  - intros ->. unfold load_clients in H1. rewrite bind_get in H1.
    cbn in H1. now injection H1 as <-.
  - intros d -> k. unfold load_clients in H1. rewrite bind_get in H1.
    cbn [clients_file boot] in H1. rewrite bind_attempt in H1.
    cbn [json_load] in H1. injection H1 as <-.
    cbn [clients set_clients boot]. rewrite in_keys_dict_update. cbn. tauto.
Qed.

(** C5: [load_data] in a new process reads every identifier that the two
    files hold, and leaves each counter at 1 for an empty collection and
    at the greatest number of a key plus one otherwise, so that the next
    identifier is none of those in the file; and in every state of the
    window the keys of each collection are pairwise distinct and the
    identifier the next addition will use is not among them. *)
Theorem identifiers_unique (cf af : option file) (w0 w : world) :
  load_data (boot cf af) = (Ok tt, w0) -> reachable w ->
  ((cf = None -> clients w0 = []) /\
   (forall d, cf = Some (FileJson (VDict d)) ->
      (forall k, In k (keys d) <-> In k (keys (clients w0))) /\
      ~ In ("c" ++ str_of_int (client_counter w0))%string (keys d)) /\
   (af = None -> appointments w0 = []) /\
   (forall d, af = Some (FileJson (VDict d)) ->
      (forall k, In k (keys d) <-> In k (keys (appointments w0))) /\
      ~ In ("a" ++ str_of_int (appointment_counter w0))%string (keys d)) /\
   max_suffix_plus_one (keys (clients w0)) (client_counter w0) /\
   max_suffix_plus_one (keys (appointments w0)) (appointment_counter w0) /\
   ~ In ("c" ++ str_of_int (client_counter w0))%string (keys (clients w0)) /\
   ~ In ("a" ++ str_of_int (appointment_counter w0))%string
        (keys (appointments w0))) /\
  (NoDup (keys (clients w)) /\ NoDup (keys (appointments w)) /\
   ~ In ("c" ++ str_of_int (client_counter w))%string (keys (clients w)) /\
   ~ In ("a" ++ str_of_int (appointment_counter w))%string
        (keys (appointments w))).
Proof.
  intros Hload Hreach. split.
  - destruct (load_data_counters _ _ _ Hload) as [S1 S2].
    destruct (load_data_ids_ok _ _ _ Hload) as [(_ & _ & B1 & B2) _].
    destruct (load_data_keys _ _ _ Hload) as (K0 & K1 & K2 & K3).
    pose proof (below_fresh _ _ "c" B1) as F1.
    pose proof (below_fresh _ _ "a" B2) as F2.
    split; [exact K0|]. split.
    { intros d Hd. split; [exact (K1 d Hd)|].
      intros Hin. apply F1. now apply (K1 d Hd). }
    split; [exact K2|]. split.
    { intros d Hd. split; [exact (K3 d Hd)|].
      intros Hin. apply F2. now apply (K3 d Hd). }
    split; [now apply counter_updated_max|].
    split; [now apply counter_updated_max|]. split; assumption.
  - destruct (reachable_invariant w Hreach) as [(D1 & D2 & B1 & B2) _].
    repeat split; try assumption; now apply below_fresh.
Qed.

Lemma started_reachable : reachable started.
Proof.
  apply (reach_init None None); [exact I | exact I |]. vm_compute. reflexivity.
Qed.

Lemma one_client_reachable : reachable one_client.
Proof.
  apply (reach_step started (AddClient " Ann " "555" "")).
  - exact started_reachable.
  - exact I.
  - vm_compute. reflexivity.
Qed.

Lemma identifiers_unique_witness :
  let w0 := snd (load_data (boot (clients_file one_client)
                                 (appts_file one_client))) in
  (forall k, In k ["c1"%string] <-> In k (keys (clients w0))) /\
  max_suffix_plus_one (keys (clients w0)) (client_counter w0) /\
  NoDup (keys (clients one_client)) /\
  ~ In "c2"%string (keys (clients one_client)).
Proof.
  cbv zeta.
  destruct (identifiers_unique (clients_file one_client) (appts_file one_client)
              (snd (load_data (boot (clients_file one_client)
                                    (appts_file one_client))))
              one_client) as [(_ & K & _ & _ & M & _) (H1 & _ & H2 & _)].
  - vm_compute. reflexivity.
  - exact one_client_reachable.
  - split; [|split; [exact M | split; [exact H1 | exact H2]]].
    exact (proj1 (K [("c1", VDict [("name", VStr "Ann"); ("phone", VStr "555");
                                   ("email", VStr "")])]%string
                    eq_refl)).
Defined.

Lemma selected_some (cur : option string) (cid : string) :
  selected cur = Some cid -> cur = Some cid.
Proof.
  destruct cur as [c|]; cbn; [|discriminate].
  destruct (String.eqb c ""); [discriminate | tauto].
Qed.

(** C7, as the code has it: [add_appointment] takes the client from the
    selection and does not look it up before it inserts.  With no client
    selected it shows the warning and changes nothing else: no record is
    added and neither counter moves.  In every state of the window a
    selected id is a key of [clients], so that an unknown client cannot
    be met. *)
Theorem add_appointment_guard (ts te : Z) (d : date) (s e : time) (r : float)
    (i : Z) (w : world) :
  (selected (current_client_id w) = None ->
   add_appointment ts te d s e r i w
   = (Ok tt, add_warning "No client selected" w)) /\
  (reachable w ->
   forall cid, selected (current_client_id w) = Some cid ->
               In cid (keys (clients w))).
Proof.
  split.
  - apply add_appointment_no_client.
  - intros Hr cid Hc. destruct (reachable_invariant w Hr) as [_ Hs].
    apply Hs. now apply selected_some.
Qed.

Lemma add_appointment_guard_witness :
  add_appointment 738000 738000 (mk_date 2024 3 5) (mk_time 9 0 0 0)
    (mk_time 9 47 0 0) (Float64.of_Z 30) 6 one_client
  = (Ok tt, add_warning "No client selected" one_client).
Proof.
  apply (add_appointment_guard 738000 738000 (mk_date 2024 3 5)
           (mk_time 9 0 0 0) (mk_time 9 47 0 0) (Float64.of_Z 30) 6 one_client).
  vm_compute. reflexivity.
Defined.

(** ** The appointment list and its totals *)

Lemma appt_okb_items (appt : pydict) :
  appt_okb appt = true ->
  (exists c, dict_get appt "client_id" = Some c) /\
  (exists s d, dict_get appt "date" = Some (VStr s) /\ parse_date s = Ok d) /\
  (exists t, dict_get appt "start" = Some (VTime t)) /\
  (exists t, dict_get appt "end" = Some (VTime t)) /\
  (exists n, dict_get appt "duration" = Some (VInt n)) /\
  (exists f, dict_get appt "cost" = Some (VFloat f)).
Proof.
  unfold appt_okb.
  destruct (dict_get appt "client_id") as [c|]; [|discriminate].
  destruct (dict_get appt "date") as [[| | | | s | | |]|]; try discriminate.
  destruct (dict_get appt "start") as [[| | | | | t1 | |]|]; try discriminate.
  destruct (dict_get appt "end") as [[| | | | | t2 | |]|]; try discriminate.
  destruct (dict_get appt "duration") as [[| | n | | | | |]|]; try discriminate.
  destruct (dict_get appt "cost") as [[| | | f | | | |]|]; try discriminate.
  destruct (parse_date s) as [d | e] eqn:E; [|discriminate].
  intros _. repeat split; eauto.
Qed.

Lemma set_appt_list_twice (x y : list row) (w : world) :
  set_appt_list x (set_appt_list y w) = set_appt_list x w.
Proof. reflexivity. Qed.

Lemma list_appointment_step (cid : string) (from to : date) (l : nat)
    (n ds : Z) (cs : float) (w : world) :
  date_filter_active w = true -> filter_from w = Some from ->
  filter_to w = Some to -> appt_ok (deref w l) ->
  let appt := deref w l in
  if in_range cid from to appt then
    exists r, render_row appt = Ok r /\
      list_appointment cid l (n, VInt ds, VFloat cs) w
      = (Ok (n + 1, VInt (ds + duration_of appt),
             VFloat (Float64.add cs (cost_of appt))),
         set_appt_list (appt_list w ++ [r]) w)
  else
    list_appointment cid l (n, VInt ds, VFloat cs) w
    = (Ok (n, VInt ds, VFloat cs), w).
Proof.
  intros Ha Hf Ht Hok. apply appt_okb_items in Hok.
  destruct Hok as ((c & Hc) & (s & d & Hd & Hp) & (t1 & H1) & (t2 & H2) &
                   (m & Hm) & (f & Hcost)).
  cbv zeta. unfold in_range, list_appointment, duration_of, cost_of.
  rewrite bind_get, bind_attempt. unfold dict_item. rewrite Hc, Hd, Hp.
  destruct (is_str c cid); [|reflexivity]. cbn [andb].
  rewrite bind_lift. unfold filtered_out. rewrite Ha, Hf, Ht.
  unfold dict_item. rewrite Hd. cbn [bind strptime_date]. rewrite Hp.
  cbn [bind]. unfold date_leb.
  destruct (date_ltb d from); [reflexivity|].
  destruct (date_ltb to d); [reflexivity|]. cbn [negb andb].
  unfold render_row, dict_item. rewrite H1, H2, Hm, Hcost, Hd.
  cbn [bind strftime12 format_fixed]. eexists. split; [reflexivity|].
  rewrite bind_attempt, bind_update. cbn [row_duration row_cost].
  rewrite !bind_attempt. reflexivity.
Qed.

Lemma list_appointments_loop (cid : string) (from to : date) (ls : list nat) :
  forall (n ds : Z) (cs : float) (w : world),
    date_filter_active w = true -> filter_from w = Some from ->
    filter_to w = Some to -> Forall appt_ok (map (deref w) ls) ->
    let sel := List.filter (in_range cid from to) (map (deref w) ls) in
    exists rows,
      Forall2 (fun a r => render_row a = Ok r) sel rows /\
      fold_each ls (n, VInt ds, VFloat cs) (list_appointment cid) w
      = (Ok (n + Z.of_nat (length sel),
             VInt (fold_left (fun acc a => acc + duration_of a) sel ds),
             VFloat (fold_left (fun acc a => Float64.add acc (cost_of a)) sel cs)),
         set_appt_list (appt_list w ++ rows) w).
Proof.
  induction ls as [| l ls IH]; intros n ds cs w Ha Hf Ht Hok; cbv zeta.
  - exists []. split; [constructor|]. cbn. rewrite Z.add_0_r, app_nil_r.
    destruct w; reflexivity.
  - cbn [map] in Hok. inversion Hok as [| ? ? Hl Hls]; subst.
    pose proof (list_appointment_step cid from to l n ds cs w Ha Hf Ht Hl) as Hs.
    cbv zeta in Hs. cbn [map fold_each List.filter].
    unfold mbind at 1.
    destruct (in_range cid from to (deref w l)) eqn:E.
    + destruct Hs as (r & Hr & ->).
      destruct (IH (n + 1) (ds + duration_of (deref w l))
                  (Float64.add cs (cost_of (deref w l)))
                  (set_appt_list (appt_list w ++ [r]) w) Ha Hf Ht Hls)
        as (rows & Hrows & Heq).
      exists (r :: rows). split; [now constructor|].
      change (map (deref (set_appt_list (appt_list w ++ [r]) w)) ls)
        with (map (deref w) ls) in Heq.
      rewrite Heq. cbn [length fold_left appt_list set_appt_list].
      rewrite set_appt_list_twice, <- app_assoc. cbn [app].
      rewrite Nat2Z.inj_succ, <- Z.add_1_l, Z.add_assoc. reflexivity.
    + rewrite Hs. now apply IH.
Qed.

(** C3: with a client selected and the date filter set to [from, to],
    [load_appointments] lists exactly the records of that client whose
    date is between [from] and [to], both included, in the order of the
    dict, and the three totals are the number of these records, the sum
    of their durations and the sum of their costs. *)
Theorem list_appointments_range (w : world) (cid : string) (from to : date)
    (c name : pyval) :
  selected (current_client_id w) = Some cid ->
  dict_get (clients w) cid = Some c -> subscript c "name" = Ok name ->
  date_filter_active w = true ->
  filter_from w = Some from -> filter_to w = Some to ->
  forallb appt_okb (map snd (records w)) = true ->
  let sel := List.filter (in_range cid from to) (map snd (records w)) in
  exists rows,
    load_appointments w
    = (Ok tt,
       set_totals (VInt (Z.of_nat (length sel))) (VInt (sum_durations sel))
         (VFloat (sum_costs sel))
         (set_appt_list rows (set_client_label (Some name) w))) /\
    Forall2 (fun a r => render_row a = Ok r) sel rows /\
    (forall a, In a sel <->
               In a (map snd (records w)) /\ in_range cid from to a = true).
Proof.
  intros Hsel Hc Hname Ha Hf Ht Hok. cbv zeta.
  assert (Hok' : Forall appt_ok (map snd (records w))).
  { apply Forall_forall. intros a Hin. apply list_elem_of_In in Hin.
    exact (proj1 (forallb_forall _ _) Hok a Hin). }
  clear Hok. rename Hok' into Hok.
  assert (Hrec : map snd (records w) = map (deref w) (values (appointments w))).
  { unfold records, values. rewrite !map_map. reflexivity. }
  rewrite Hrec in *.
  set (w1 := set_client_label (Some name) (set_appt_list [] w)).
  destruct (list_appointments_loop cid from to (values (appointments w))
              0 0 Float64.zero w1 Ha Hf Ht Hok) as (rows & Hrows & Hloop).
  cbv zeta in Hloop.
  change (map (deref w1) (values (appointments w)))
    with (map (deref w) (values (appointments w))) in Hloop.
  exists rows. split; [|split; [exact Hrows | intros a; apply filter_In]].
  unfold load_appointments. rewrite bind_update, bind_get.
  change (current_client_id (set_appt_list [] w)) with (current_client_id w).
  rewrite Hsel, bind_lift.
  change (clients (set_appt_list [] w)) with (clients w).
  unfold dict_item. rewrite Hc, bind_attempt, Hname, bind_update, bind_get.
  fold w1. change (appointments w1) with (appointments w).
  unfold mbind at 1. rewrite Hloop. reflexivity.
Qed.

Lemma list_appointments_range_witness :
  total_appointments_label (snd (load_appointments filtered)) = VInt 1 /\
  total_duration_label (snd (load_appointments filtered)) = VInt 47 /\
  total_cost_label (snd (load_appointments filtered)) = VFloat (Float64.of_Z 24).
Proof.
  destruct (list_appointments_range filtered "c1"
              (mk_date 2024 3 1) (mk_date 2024 3 6)
              (VDict [("name", VStr "Ann"); ("phone", VStr "555");
                      ("email", VStr "")]%string)
              (VStr "Ann")) as (rows & Heq & _).
  - vm_compute. reflexivity.
  - vm_compute. reflexivity.
  - vm_compute. reflexivity.
  - vm_compute. reflexivity.
  - vm_compute. reflexivity.
  - vm_compute. reflexivity.
  - vm_compute. reflexivity.
  - rewrite Heq. vm_compute. repeat split; reflexivity.
Defined.

(** ** Times as text *)

Lemma digit_char_facts (a : Z) :
  0 <= a <= 9 ->
  digit_val (digit_char a) = Some a /\ Ascii.eqb (digit_char a) ":" = false.
Proof.
  intros H.
  assert (a = 0 \/ a = 1 \/ a = 2 \/ a = 3 \/ a = 4 \/ a = 5 \/ a = 6 \/
          a = 7 \/ a = 8 \/ a = 9) as Hc by lia.
  repeat (destruct Hc as [-> | Hc]); try subst a; split; reflexivity.
Qed.

Lemma list_ascii_app (s1 s2 : string) :
  list_ascii_of_string (s1 ++ s2) =
  list_ascii_of_string s1 ++ list_ascii_of_string s2.
Proof. induction s1; cbn; [reflexivity | now f_equal]. Qed.

Lemma field_two_digits (a b : Z) :
  0 <= a <= 9 -> 0 <= b <= 9 ->
  field 1 2 [digit_char a; digit_char b] = Some (a * 10 + b).
Proof.
  intros Ha Hb. destruct (digit_char_facts a Ha) as [Ea _].
  destruct (digit_char_facts b Hb) as [Eb _].
  unfold field. cbn [length Nat.leb andb digits_val]. now rewrite Ea, Eb.
Qed.

Lemma parse_time_digits (h1 h2 m1 m2 s1 s2 : Z) :
  0 <= h1 <= 9 -> 0 <= h2 <= 9 -> 0 <= m1 <= 9 -> 0 <= m2 <= 9 ->
  0 <= s1 <= 9 -> 0 <= s2 <= 9 ->
  split_on ":" [digit_char h1; digit_char h2; ":"%char;
                digit_char m1; digit_char m2; ":"%char;
                digit_char s1; digit_char s2]
  = [[digit_char h1; digit_char h2]; [digit_char m1; digit_char m2];
     [digit_char s1; digit_char s2]].
Proof.
  intros H1 H2 H3 H4 H5 H6.
  destruct (digit_char_facts h1 H1) as [_ E1].
  destruct (digit_char_facts h2 H2) as [_ E2].
  destruct (digit_char_facts m1 H3) as [_ E3].
  destruct (digit_char_facts m2 H4) as [_ E4].
  destruct (digit_char_facts s1 H5) as [_ E5].
  destruct (digit_char_facts s2 H6) as [_ E6].
  cbn [split_on]. rewrite E1, E2, E3, E4, E5, E6.
  change (Ascii.eqb ":" ":") with true. cbv iota. reflexivity.
Qed.

Lemma parse_format_time (t : time) :
  time_ok t -> parse_time (format_time t) = Ok (truncate t).
Proof.
  intros (Hh & Hm & Hs & _). unfold parse_time, format_time.
  rewrite !list_ascii_app. unfold pad2. cbn [list_ascii_of_string app].
  assert (D : forall n, 0 <= n < 60 -> 0 <= n / 10 <= 9 /\ 0 <= n mod 10 <= 9 /\
                                     n / 10 * 10 + n mod 10 = n).
  { intros n Hn. pose proof (Z.div_mod n 10 ltac:(lia)).
    pose proof (Z.mod_pos_bound n 10 ltac:(lia)).
    assert (0 <= n / 10) by (apply Z.div_pos; lia).
    assert (n / 10 < 6) by (apply Z.div_lt_upper_bound; lia). lia. }
  destruct (D (hour t) ltac:(lia)) as (A1 & A2 & A3).
  destruct (D (minute t) Hm) as (B1 & B2 & B3).
  destruct (D (second t) Hs) as (C1 & C2 & C3).
  rewrite parse_time_digits by assumption.
  rewrite !field_two_digits by assumption. rewrite A3, B3, C3.
  replace ((hour t <=? 23) && (minute t <=? 59) && (second t <=? 59)) with true.
  - reflexivity.
  - symmetry. rewrite !andb_true_iff. repeat split; apply Z.leb_le; lia.
Qed.

(** ** Dict updates *)

Section DictSet.

Context {V : Type}.
Implicit Types (d : list (string * V)) (k : string) (v : V).

Lemma dict_get_set_same d k v : dict_get (dict_set d k v) k = Some v.
Proof.
  induction d as [| [k' v'] d IH]; cbn.
  - now rewrite String.eqb_refl.
  - destruct (String.eqb k' k) eqn:E; cbn; now rewrite E.
Qed.

Lemma dict_get_set_other d k k' v :
  k <> k' -> dict_get (dict_set d k v) k' = dict_get d k'.
Proof.
  intros Hne. induction d as [| [k0 v0] d IH]; cbn.
  - destruct (String.eqb_spec k k'); [contradiction | reflexivity].
  - destruct (String.eqb_spec k0 k) as [-> | Hk]; cbn.
    + destruct (String.eqb_spec k k'); [contradiction | reflexivity].
    + destruct (String.eqb k0 k'); [reflexivity | assumption].
Qed.

Lemma dict_set_twice d k v v' :
  dict_set (dict_set d k v) k v' = dict_set d k v'.
Proof.
  induction d as [| [k0 v0] d IH]; cbn.
  - now rewrite String.eqb_refl.
  - destruct (String.eqb k0 k) eqn:E; cbn; rewrite E; [reflexivity|].
    now rewrite IH.
Qed.

Lemma dict_set_same d k v : dict_get d k = Some v -> dict_set d k v = d.
Proof.
  induction d as [| [k0 v0] d IH]; cbn; [discriminate|].
  destruct (String.eqb k0 k) eqn:E.
  - now intros [= ->].
  - intros H. now rewrite IH.
Qed.

Lemma dict_set_comm d k k' v v' :
  k <> k' -> In k (keys d) -> In k' (keys d) ->
  dict_set (dict_set d k v) k' v' = dict_set (dict_set d k' v') k v.
Proof.
  intros Hne. induction d as [| [k0 v0] d IH]; cbn; [tauto|].
  intros H1 H2.
  destruct (String.eqb k0 k) eqn:E1; destruct (String.eqb k0 k') eqn:E2;
    cbn; rewrite ?E1, ?E2; try reflexivity.
  - apply String.eqb_eq in E1, E2. congruence.
  - f_equal. apply String.eqb_neq in E1, E2.
    apply IH; intuition congruence.
Qed.

Lemma dict_update_fresh d other :
  NoDup (keys d ++ keys other) -> dict_update d other = d ++ other.
Proof.
  unfold dict_update. revert d.
  induction other as [| [k v] o IH]; intros d H; cbn.
  - now rewrite app_nil_r.
  - cbn in H. assert (Hn : ~ In k (keys d)).
    { apply NoDup_app in H. destruct H as (_ & H & _). intros Hin.
      apply (H k); [now apply list_elem_of_In | left]. }
    assert (Hs : dict_set d k v = d ++ [(k, v)]).
    { clear -Hn. induction d as [| [k0 v0] d IHd]; cbn; [reflexivity|].
      cbn in Hn. destruct (String.eqb_spec k0 k); [tauto|].
      f_equal. apply IHd. tauto. }
    rewrite Hs, IH.
    + now rewrite <- app_assoc.
    + unfold keys in *. rewrite map_app. cbn. now rewrite <- app_assoc.
Qed.

End DictSet.

(** ** Saving and loading again *)

Lemma time_okb_ok (t : time) : time_okb t = true -> time_ok t.
Proof.
  unfold time_okb, time_ok. rewrite !andb_true_iff.
  rewrite !Z.leb_le, !Z.ltb_lt. tauto.
Qed.

Lemma nodupb_NoDup (l : list string) : nodupb l = true -> NoDup l.
Proof.
  induction l as [| x l IH]; cbn; [constructor|].
  rewrite andb_true_iff, negb_true_iff. intros [Hx Hl].
  constructor; [|auto]. intros Hin. apply list_elem_of_In in Hin.
  assert (existsb (String.eqb x) l = true); [|congruence].
  apply existsb_exists. exists x. split; [assumption | apply String.eqb_refl].
Qed.

Lemma record_okb_items (d : pydict) :
  record_okb d = true ->
  exists s e,
    dict_get d "start" = Some (VTime s) /\ dict_get d "end" = Some (VTime e) /\
    time_ok s /\ time_ok e /\ serializable (VDict (saved_copy d)) = true.
Proof.
  unfold record_okb.
  destruct (dict_get d "start") as [[| | | | | s | |]|]; try discriminate.
  destruct (dict_get d "end") as [[| | | | | e | |]|]; try discriminate.
  rewrite !andb_true_iff. intros [[Hs He] Hj]. exists s, e.
  repeat split; auto using time_okb_ok; now apply time_okb_ok.
Qed.

Lemma deref_valid (w : world) (l : nat) :
  deref w l <> [] -> (l < length (heap w))%nat.
Proof.
  intros H. destruct (Nat.lt_ge_cases l (length (heap w))) as [|Hge];
    [assumption|].
  exfalso. apply H. unfold deref. rewrite list_lookup_total_alt.
  now rewrite lookup_ge_None_2.
Qed.

Lemma record_okb_valid (w : world) (l : nat) :
  record_okb (deref w l) = true -> (l < length (heap w))%nat.
Proof.
  intros H. apply deref_valid. intros E. rewrite E in H. discriminate.
Qed.

Lemma deref_old (w : world) (extra : list pydict) (l : nat) :
  (l < length (heap w))%nat ->
  deref (set_heap (heap w ++ extra) w) l = deref w l.
Proof. intros H. unfold deref. cbn. now apply lookup_total_app_l. Qed.

Lemma save_appointment_ok (k : string) (v : nat) (ts : list (string * nat))
    (w : world) :
  record_okb (deref w v) = true ->
  save_appointment (k, v) ts w
  = (Ok (dict_set ts k (length (heap w))),
     set_heap (heap w ++ [saved_copy (deref w v)]) w).
Proof.
  intros H. destruct (record_okb_items _ H) as (s & e & Hs & He & _).
  unfold saved_copy. rewrite Hs, He.
  unfold save_appointment, mbind, copy_object, new_object, alloc, get_item,
    lift, attempt, set_item, update, ret, dict_item.
  cbn [fst snd]. rewrite !deref_fresh, Hs. cbn [strftime].
  cbn [heap set_heap]. rewrite insert_fresh.
  replace (set_heap _ (set_heap (heap w ++ [deref w v]) w))
    with (set_heap (heap w ++ [dict_set (deref w v) "start"
                                 (VStr (format_time s))]) w)
    by (destruct w; reflexivity).
  rewrite !deref_fresh. rewrite dict_get_set_other by discriminate.
  rewrite He. cbn [strftime heap set_heap]. rewrite insert_fresh.
  destruct w; reflexivity.
Qed.

Lemma doc_items_old (w : world) (extra : list pydict) (d : list (string * nat)) :
  Forall (fun kl => (snd kl < length (heap w))%nat) d ->
  doc_items (set_heap (heap w ++ extra) w) d = doc_items w d.
Proof.
  intros H. unfold doc_items. apply map_ext_Forall.
  eapply Forall_impl; [exact H|]. intros [k l] Hl. cbn [fst snd] in *.
  now rewrite deref_old.
Qed.

Lemma dict_set_fresh {V : Type} (d : list (string * V)) (k : string) (v : V) :
  ~ In k (keys d) -> dict_set d k v = d ++ [(k, v)].
Proof.
  induction d as [| [k0 v0] d IH]; cbn; [reflexivity|]. intros Hn.
  destruct (String.eqb_spec k0 k); [tauto|]. f_equal. apply IH. tauto.
Qed.

Lemma save_loop (aps : list (string * nat)) :
  forall (w : world) (ts : list (string * nat)),
    Forall (fun kl => (snd kl < length (heap w))%nat) ts ->
    NoDup (keys ts ++ keys aps) ->
    forallb record_okb (map (fun kl => deref w (snd kl)) aps) = true ->
    exists ts' copies,
      fold_each aps ts save_appointment w
      = (Ok ts', set_heap (heap w ++ copies) w) /\
      doc_items (set_heap (heap w ++ copies) w) ts'
      = doc_items w ts ++
        map (fun kl => (fst kl, VDict (saved_copy (deref w (snd kl))))) aps.
Proof.
  induction aps as [| [k v] aps IH]; intros w ts Hts Hnd Hok.
  - exists ts, []. cbn. rewrite !app_nil_r. split.
    + destruct w; reflexivity.
    + replace (set_heap (heap w) w) with w by (destruct w; reflexivity).
      reflexivity.
  - cbn [map forallb] in Hok. apply andb_true_iff in Hok.
    destruct Hok as [Hv Hok]. cbn [fst snd] in Hv.
    pose proof (record_okb_valid _ _ Hv) as Hvalid.
    cbn [fold_each]. unfold mbind at 1.
    rewrite (save_appointment_ok k v ts w Hv).
    set (c := saved_copy (deref w v)). set (w1 := set_heap (heap w ++ [c]) w).
    assert (Hk : ~ In k (keys ts)).
    { cbn in Hnd. apply NoDup_app in Hnd. destruct Hnd as (_ & H & _).
      intros Hin. apply (H k); [now apply list_elem_of_In | left]. }
    rewrite (dict_set_fresh ts k _ Hk).
    assert (Hlen : length (heap w1) = S (length (heap w)))
      by (unfold w1; cbn; rewrite length_app; cbn; lia).
    destruct (IH w1 (ts ++ [(k, length (heap w))])) as (ts' & copies & Heq & Hdoc).
    + apply Forall_app. split.
      * eapply Forall_impl; [exact Hts|]. intros kl Hkl. cbv beta in *.
        rewrite Hlen. lia.
      * constructor; [cbn [snd]; rewrite Hlen; lia | constructor].
    + unfold keys in *. rewrite map_app. cbn in *. now rewrite <- app_assoc.
    + rewrite <- Hok. f_equal. apply map_ext_Forall.
      apply Forall_forall. intros [k' l'] Hin. cbn.
      unfold w1. apply deref_old.
      apply record_okb_valid.
      apply list_elem_of_In in Hin.
      apply (proj1 (forallb_forall _ _) Hok).
      apply in_map_iff. exists (k', l'). split; [reflexivity | assumption].
    + exists ts', (c :: copies).
      replace (set_heap (heap w ++ c :: copies) w)
        with (set_heap (heap w1 ++ copies) w1)
        by (unfold w1; destruct w; cbn; now rewrite <- app_assoc).
      split; [exact Heq|]. rewrite Hdoc.
      unfold doc_items at 1. rewrite map_app. cbn [map fst snd].
      fold (doc_items w1 ts). unfold w1 at 1. rewrite doc_items_old by assumption.
      unfold w1 at 1. rewrite deref_fresh. rewrite <- app_assoc. cbn [app].
      f_equal. f_equal. apply map_ext_Forall.
      apply Forall_forall. intros [k' l'] Hin. cbn. f_equal. f_equal. f_equal.
      unfold w1. apply deref_old. apply record_okb_valid.
      apply list_elem_of_In in Hin.
      apply (proj1 (forallb_forall _ _) Hok).
      apply in_map_iff. exists (k', l'). split; [reflexivity | assumption].
Qed.

Lemma store_okb_items (w : world) :
  store_okb w = true ->
  NoDup (keys (clients w)) /\ forallb parses (keys (clients w)) = true /\
  serializable (VDict (clients w)) = true /\
  NoDup (keys (appointments w)) /\
  forallb parses (keys (appointments w)) = true /\
  forallb record_okb (map snd (records w)) = true.
Proof.
  unfold store_okb. rewrite !andb_true_iff.
  intros [[[[[H1 H2] H3] H4] H5] H6]. auto 10 using nodupb_NoDup.
Qed.

Lemma records_snd (w : world) :
  map snd (records w) = map (fun kl => deref w (snd kl)) (appointments w).
Proof. unfold records. now rewrite map_map. Qed.

Lemma records_fst (w : world) : map fst (records w) = keys (appointments w).
Proof. unfold records, keys. now rewrite map_map. Qed.

Lemma serializable_saved_items (w : world) :
  forallb record_okb (map snd (records w)) = true ->
  serializable (VDict (saved_items w)) = true.
Proof.
  intros H. cbn [serializable]. unfold saved_items.
  induction (records w) as [| [k d] r IH]; [reflexivity|].
  cbn [map forallb fst snd] in *. apply andb_true_iff in H.
  destruct H as [Hd Hr]. apply andb_true_iff. split; [|auto].
  destruct (record_okb_items d Hd) as (_ & _ & _ & _ & _ & _ & Hj). exact Hj.
Qed.

Lemma save_data_ok (w : world) :
  store_okb w = true ->
  exists copies,
    save_data w
    = (Ok tt,
       set_appts_file (Some (FileJson (VDict (saved_items w))))
         (set_heap (heap w ++ copies)
            (set_clients_file (Some (FileJson (VDict (clients w)))) w))).
Proof.
  intros H. destruct (store_okb_items w H) as (_ & _ & Hc & Hnd & _ & Hr).
  unfold save_data. rewrite bind_get. unfold write_json at 1. rewrite Hc.
  rewrite bind_update, bind_get.
  set (w0 := set_clients_file (Some (FileJson (VDict (clients w)))) w).
  change (appointments w0) with (appointments w).
  destruct (save_loop (appointments w) w0 []) as (ts' & copies & Heq & Hdoc).
  - constructor.
  - exact Hnd.
  - rewrite <- Hr, records_snd. reflexivity.
  - exists copies. unfold mbind at 1. rewrite Heq, bind_get.
    unfold document. fold (doc_items (set_heap (heap w0 ++ copies) w0) ts').
    rewrite Hdoc. cbn [doc_items map app].
    assert (Hitems : map (fun kl => (fst kl, VDict (saved_copy (deref w0 (snd kl)))))
                       (appointments w) = saved_items w).
    { unfold saved_items, records. rewrite map_map. reflexivity. }
    rewrite Hitems. unfold write_json.
    rewrite (serializable_saved_items w Hr). reflexivity.
Qed.

Lemma whole_seconds_saved (d : pydict) (s e : time) :
  dict_get d "start" = Some (VTime s) -> dict_get d "end" = Some (VTime e) ->
  dict_set
    (dict_set (saved_copy d) "start" (VTime (truncate s)))
    "end" (VTime (truncate e))
  = whole_seconds d.
Proof.
  intros Hs He. unfold saved_copy, whole_seconds. rewrite Hs, He.
  set (X := dict_set d "start" (VStr (format_time s))).
  assert (Hx1 : In "start"%string (keys X))
    by (apply dict_get_in with (VStr (format_time s)), dict_get_set_same).
  assert (Hx2 : In "end"%string (keys X)).
  { apply dict_get_in with (VTime e). unfold X.
    now rewrite dict_get_set_other by discriminate. }
  rewrite (dict_set_comm X "end" "start") by (assumption || discriminate).
  rewrite dict_set_twice. unfold X. now rewrite dict_set_twice.
Qed.

Lemma load_appointment_ok (k : string) (d : pydict) (wl : world) :
  record_okb d = true ->
  load_appointment (k, VDict (saved_copy d)) wl
  = (Ok tt,
     set_appointments (dict_set (appointments wl) k (length (heap wl)))
       (set_heap (heap wl ++ [whole_seconds d]) wl)).
Proof.
  intros H. destruct (record_okb_items _ H) as (s & e & Hs & He & Ts & Te & _).
  rewrite <- (whole_seconds_saved d s e Hs He).
  assert (G1 : dict_get (saved_copy d) "start" = Some (VStr (format_time s))).
  { unfold saved_copy. rewrite Hs, He.
    rewrite dict_get_set_other by discriminate. apply dict_get_set_same. }
  assert (G2 : dict_get (saved_copy d) "end" = Some (VStr (format_time e))).
  { unfold saved_copy. rewrite Hs, He. apply dict_get_set_same. }
  set (sc := saved_copy d) in *.
  unfold load_appointment, mbind, new_object, alloc, get_item, lift, attempt,
    set_item, update, dict_item.
  cbn [fst snd]. rewrite !deref_fresh, G1. cbn [strptime_time].
  rewrite (parse_format_time s Ts). cbn [heap set_heap]. rewrite insert_fresh.
  replace (set_heap _ (set_heap (heap wl ++ [sc]) wl))
    with (set_heap (heap wl ++ [dict_set sc "start" (VTime (truncate s))]) wl)
    by (destruct wl; reflexivity).
  rewrite !deref_fresh. rewrite dict_get_set_other by discriminate.
  rewrite G2. cbn [strptime_time]. rewrite (parse_format_time e Te).
  cbn [heap set_heap]. rewrite insert_fresh.
  destruct wl; reflexivity.
Qed.

Lemma records_old (w : world) (a : list (string * nat)) (extra : list pydict) :
  Forall (fun kl => (snd kl < length (heap w))%nat) (appointments w) ->
  records (set_appointments (appointments w ++ a) (set_heap (heap w ++ extra) w))
  = records w ++
    map (fun kl => (fst kl, deref (set_heap (heap w ++ extra) w) (snd kl))) a.
Proof.
  intros H. unfold records. cbn [appointments set_appointments].
  rewrite map_app. f_equal. apply map_ext_Forall.
  eapply Forall_impl; [exact H|]. intros [k l] Hl. cbn [fst snd] in *.
  f_equal. unfold deref. cbn. now apply lookup_total_app_l.
Qed.

Lemma load_loop (recs : list (string * pydict)) :
  forall wl : world,
    Forall (fun kl => (snd kl < length (heap wl))%nat) (appointments wl) ->
    NoDup (keys (appointments wl) ++ keys recs) ->
    forallb record_okb (map snd recs) = true ->
    exists a h,
      for_each (map (fun kd => (fst kd, VDict (saved_copy (snd kd)))) recs)
               load_appointment wl
      = (Ok tt, set_appointments a (set_heap h wl)) /\
      records (set_appointments a (set_heap h wl))
      = records wl ++ map (fun kd => (fst kd, whole_seconds (snd kd))) recs.
Proof.
  induction recs as [| [k d] recs IH]; intros wl Hv Hnd Hok.
  - exists (appointments wl), (heap wl). cbn. rewrite app_nil_r.
    replace (set_appointments (appointments wl) (set_heap (heap wl) wl))
      with wl by (destruct wl; reflexivity).
    split; reflexivity.
  - cbn [map forallb fst snd] in *. apply andb_true_iff in Hok.
    destruct Hok as [Hd Hok]. cbn [for_each]. unfold mbind at 1.
    rewrite (load_appointment_ok k d wl Hd).
    assert (Hk : ~ In k (keys (appointments wl))).
    { cbn in Hnd. apply NoDup_app in Hnd. destruct Hnd as (_ & H & _).
      intros Hin. apply (H k); [now apply list_elem_of_In | left]. }
    rewrite (dict_set_fresh _ k _ Hk).
    set (w1 := set_appointments (appointments wl ++ [(k, length (heap wl))])
                 (set_heap (heap wl ++ [whole_seconds d]) wl)).
    assert (Hrec1 : records w1 = records wl ++ [(k, whole_seconds d)]).
    { unfold w1. rewrite records_old by assumption. cbn [map fst snd].
      now rewrite deref_fresh. }
    destruct (IH w1) as (a & h & Heq & Hrec).
    + unfold w1. cbn [appointments set_appointments heap set_heap].
      rewrite length_app. cbn [length]. apply Forall_app. split.
      * eapply Forall_impl; [exact Hv|]. intros kl Hkl. cbv beta in *. lia.
      * constructor; [cbn [snd]; lia | constructor].
    + unfold w1. cbn [appointments set_appointments].
      unfold keys in *. rewrite map_app. cbn in *. now rewrite <- app_assoc.
    + exact Hok.
    + exists a, h.
      replace (set_appointments a (set_heap h wl))
        with (set_appointments a (set_heap h w1))
        by (unfold w1; destruct wl; reflexivity).
      split; [exact Heq|]. rewrite Hrec, Hrec1, <- app_assoc. reflexivity.
Qed.

Lemma next_counter_total (ks : list string) :
  forallb parses ks = true -> ks <> [] -> exists n, next_counter ks = Ok n.
Proof.
  intros H Hne. unfold next_counter.
  assert (Hm : exists ns, map_result (fun k => py_int (tail k)) ks = Ok ns /\
                          length ns = length ks).
  { clear Hne. induction ks as [| k ks IH]; [now exists []|].
    cbn [forallb] in H. apply andb_true_iff in H. destruct H as [Hk Hks].
    destruct (IH Hks) as (ns & Hns & Hlen). unfold parses in Hk.
    cbn [map_result]. destruct (py_int (tail k)) as [n | e]; [|discriminate].
    rewrite Hns. exists (n :: ns). cbn. now rewrite Hlen. }
  destruct Hm as (ns & -> & Hlen). cbn [bind].
  destruct ns as [| n r]; [|eauto].
  destruct ks; [contradiction | discriminate].
Qed.

Lemma update_counters_total (w : world) :
  forallb parses (keys (clients w)) = true ->
  forallb parses (keys (appointments w)) = true ->
  exists n m,
    update_counters w
    = (Ok tt, set_appointment_counter m (set_client_counter n w)).
Proof.
  intros Hc Ha. unfold update_counters. rewrite bind_get.
  assert (H1 : exists n,
             (match clients w with
              | [] => ret tt
              | _ => do* n := attempt (next_counter (keys (clients w))) in
                     update (set_client_counter n)
              end) w = (Ok tt, set_client_counter n w)).
  { destruct (clients w) as [| c cs] eqn:E.
    - exists (client_counter w). destruct w; reflexivity.
    - destruct (next_counter_total _ Hc ltac:(discriminate)) as [n Hn].
      exists n. rewrite bind_attempt, Hn. reflexivity. }
  destruct H1 as [n H1]. unfold mbind at 1. rewrite H1, bind_get.
  change (appointments (set_client_counter n w)) with (appointments w).
  destruct (appointments w) as [| a aps] eqn:E.
  - exists n, (appointment_counter w). destruct w; reflexivity.
  - destruct (next_counter_total _ Ha ltac:(discriminate)) as [m Hm].
    exists n, m. rewrite bind_attempt, Hm. reflexivity.
Qed.

Lemma whole_seconds_same (d : pydict) :
  record_okb d = true -> no_microseconds d = true -> whole_seconds d = d.
Proof.
  intros H Hn. destruct (record_okb_items _ H) as (s & e & Hs & He & _).
  unfold no_microseconds, whole_seconds in *. rewrite Hs, He in *.
  apply andb_true_iff in Hn. destruct Hn as [H1 H2].
  apply Z.eqb_eq in H1, H2.
  assert (Ts : truncate s = s) by (destruct s; cbn in *; now subst).
  assert (Te : truncate e = e) by (destruct e; cbn in *; now subst).
  rewrite Ts, Te. rewrite (dict_set_same d "start") by assumption.
  now apply dict_set_same.
Qed.

(** A store that can be saved is read back by a new process with its
    clients as they were and with every appointment record as it was up
    to the microseconds of its two times. *)
Lemma store_round_trip (w : world) :
  store_okb w = true ->
  exists w1 w2,
    save_data w = (Ok tt, w1) /\
    load_data (boot (clients_file w1) (appts_file w1)) = (Ok tt, w2) /\
    clients w2 = clients w /\
    records w2 = map (fun kd => (fst kd, whole_seconds (snd kd))) (records w) /\
    (forallb no_microseconds (map snd (records w)) = true ->
     records w2 = records w).
Proof.
  intros H. destruct (store_okb_items w H) as (Nc & Pc & Hc & Na & Pa & Hr).
  destruct (save_data_ok w H) as (copies & Hsave).
  eexists. 
  set (b := boot (Some (FileJson (VDict (clients w))))
                 (Some (FileJson (VDict (saved_items w))))).
  assert (Hload : exists a h n m,
            load_data b
            = (Ok tt, set_appointment_counter m (set_client_counter n
                        (set_appointments a (set_heap h
                           (set_clients (clients w) b))))) /\
            records (set_appointments a (set_heap h (set_clients (clients w) b)))
            = map (fun kd => (fst kd, whole_seconds (snd kd))) (records w)).
  { set (b1 := set_clients (clients w) b).
    assert (L1 : load_clients b = (Ok tt, b1)).
    { unfold load_clients. rewrite bind_get.
      change (clients_file b) with (Some (FileJson (VDict (clients w)))).
      cbv iota. rewrite bind_attempt. cbn [json_load]. cbv iota.
      unfold update. change (clients b) with (@nil (string * pyval)).
      rewrite (dict_update_fresh [] (clients w)) by exact Nc. reflexivity. }
    destruct (load_loop (records w) b1) as (a & h & Heq & Hrec).
    - constructor.
    - cbn. unfold keys. rewrite records_fst. exact Na.
    - exact Hr.
    - assert (L2 : load_appointments_file b1
                   = (Ok tt, set_appointments a (set_heap h b1))).
      { unfold load_appointments_file. rewrite bind_get.
        change (appts_file b1) with (Some (FileJson (VDict (saved_items w)))).
        cbv iota. rewrite bind_attempt. cbn [json_load]. cbv iota.
        exact Heq. }
      set (w' := set_appointments a (set_heap h b1)) in *.
      assert (Hrec' : records w'
                = map (fun kd => (fst kd, whole_seconds (snd kd))) (records w))
        by (rewrite Hrec; reflexivity).
      assert (Hk : keys (appointments w') = keys (appointments w)).
      { rewrite <- !records_fst, Hrec'. rewrite map_map. reflexivity. }
      destruct (update_counters_total w') as (n & m & Hu).
      + exact Pc.
      + now rewrite Hk.
      + exists a, h, n, m. split; [|exact Hrec'].
        unfold load_data. unfold mbind at 1. rewrite L1.
        unfold mbind at 1. rewrite L2. exact Hu. }
  destruct Hload as (a & h & n & m & Hload & Hrec).
  eexists. split; [exact Hsave|]. split; [exact Hload|].
  split; [reflexivity|]. split; [exact Hrec|].
  intros Hn. change (records (set_appointment_counter m (set_client_counter n
            (set_appointments a (set_heap h (set_clients (clients w) b))))))
    with (records (set_appointments a (set_heap h (set_clients (clients w) b)))).
  rewrite Hrec. rewrite <- (map_id (records w)) at 2.
  apply map_ext_Forall. apply Forall_forall. intros [k d] Hin.
  cbn [fst snd]. f_equal. apply list_elem_of_In in Hin.
  apply whole_seconds_same.
  - apply (proj1 (forallb_forall _ _) Hr). apply in_map_iff.
    exists (k, d). auto.
  - apply (proj1 (forallb_forall _ _) Hn). apply in_map_iff.
    exists (k, d). auto.
Qed.

(** ** Every state of the window can be saved *)

#[local] Instance grown_preorder : PreOrder grown.
Proof.
  split.
  - intros w. repeat split. exists []. now rewrite app_nil_r.
  - intros w1 w2 w3 (C1 & A1 & x1 & H1) (C2 & A2 & x2 & H2).
    repeat split; try congruence. exists (x1 ++ x2).
    now rewrite H2, H1, app_assoc.
Qed.

Lemma kept_grown (w w' : world) : kept w w' -> grown w w'.
Proof.
  intros (x & cf & af & ->). destruct w; cbn. repeat split. now exists x.
Qed.

Lemma grown_memory_ok (w w' : world) :
  grown w w' -> memory_ok w -> memory_ok w'.
Proof.
  intros (C & A & x & H) [Hc Hr]. split; [now rewrite C|].
  unfold records_ok in *. rewrite A.
  eapply Forall_impl; [exact Hr|]. intros l Hl. cbv beta in *.
  pose proof (record_okb_valid _ _ Hl) as Hv.
  replace (deref w' l) with (deref w l); [assumption|].
  unfold deref. rewrite H. symmetry. now apply lookup_total_app_l.
Qed.

Ltac grown_same :=
  repeat split; exists []; cbn; now rewrite app_nil_r.

Lemma save_data_grown : stable grown save_data.
Proof. exact (stable_weaken _ _ _ kept_grown save_data_kept). Qed.

Lemma refresh_client_list_grown : stable grown refresh_client_list.
Proof.
  unfold refresh_client_list, show_client. repeat stable_step; grown_same.
Qed.

Lemma load_appointments_grown : stable grown load_appointments.
Proof.
  unfold load_appointments, list_appointment. repeat stable_step; grown_same.
Qed.

Lemma serializable_dict_set (d : pydict) (k : string) (v : pyval) :
  serializable (VDict d) = true -> serializable v = true ->
  serializable (VDict (dict_set d k v)) = true.
Proof.
  cbn [serializable]. intros Hd Hv.
  induction d as [| [k0 v0] d IH]; cbn [dict_set forallb].
  - now rewrite Hv.
  - cbn [forallb] in Hd. apply andb_true_iff in Hd. destruct Hd as [H0 Hd].
    destruct (String.eqb k0 k); cbn [forallb]; apply andb_true_iff; auto.
Qed.

Lemma serializable_dict_update (d other : pydict) :
  serializable (VDict d) = true -> serializable (VDict other) = true ->
  serializable (VDict (dict_update d other)) = true.
Proof.
  unfold dict_update. revert d.
  induction other as [| [k v] o IH]; intros d Hd Ho; cbn [fold_left];
    [assumption|].
  cbn [serializable forallb] in Ho. apply andb_true_iff in Ho.
  destruct Ho as [Hv Ho]. apply IH; [|exact Ho].
  now apply serializable_dict_set.
Qed.

Lemma values_dict_set {V : Type} (P : V -> Prop) (d : list (string * V))
    (k : string) (v : V) :
  Forall P (values d) -> P v -> Forall P (values (dict_set d k v)).
Proof.
  intros Hd Hv. induction d as [| [k0 v0] d IH]; cbn.
  - now repeat constructor.
  - cbn in Hd. inversion Hd; subst.
    destruct (String.eqb k0 k); cbn; constructor; auto.
Qed.

Lemma time_ok_okb (t : time) : time_ok t -> time_okb t = true.
Proof.
  unfold time_okb, time_ok. rewrite !andb_true_iff.
  rewrite !Z.leb_le, !Z.ltb_lt. tauto.
Qed.

Lemma records_ok_insert (w : world) (k : string) (r : pydict) :
  records_ok w -> record_okb r = true ->
  records_ok (set_appointments (dict_set (appointments w) k (length (heap w)))
                (set_heap (heap w ++ [r]) w)).
Proof.
  intros Hr Hk. unfold records_ok. cbn [appointments set_appointments].
  apply values_dict_set.
  - eapply Forall_impl; [exact Hr|]. intros l Hl. cbv beta in *.
    pose proof (record_okb_valid _ _ Hl) as Hv.
    replace (deref _ l) with (deref w l); [assumption|].
    unfold deref. cbn. symmetry. now apply lookup_total_app_l.
  - replace (deref _ (length (heap w))) with r; [assumption|].
    symmetry. apply (deref_fresh w (heap w) r).
Qed.

Lemma add_client_memory (name phone email : string) (w : world) :
  memory_ok w -> memory_ok (snd (add_client name phone email w)).
Proof.
  intros [Hc Hr]. unfold add_client. destruct (String.eqb (strip name) "").
  - split; assumption.
  - rewrite bind_get, !bind_update.
    assert (S : stable grown (refresh_client_list ;; save_data))
      by (repeat stable_step;
          auto using refresh_client_list_grown, save_data_grown).
    apply (grown_memory_ok _ _ (S _)). split; [|exact Hr].
    cbn [clients set_clients set_client_counter].
    now apply serializable_dict_set.
Qed.

Lemma add_appointment_memory (ts te : Z) (d : date) (s e : time) (r : float)
    (i : Z) (w : world) :
  time_ok s -> time_ok e -> memory_ok w ->
  memory_ok (snd (add_appointment ts te d s e r i w)).
Proof.
  intros Hs He [Hc Hr]. unfold add_appointment. rewrite bind_get.
  destruct (selected (current_client_id w)) as [cid|]; [|split; assumption].
  rewrite bind_attempt.
  destruct (calculate_duration_minutes ts te s e) as [dur | x];
    [|split; assumption].
  rewrite bind_attempt.
  destruct (calculate_cost dur r i) as [cost | x]; [|split; assumption].
  rewrite bind_get, bind_update. unfold mbind at 1, new_object, alloc.
  rewrite bind_update.
  assert (S : stable grown (load_appointments ;; save_data))
    by (repeat stable_step;
        auto using load_appointments_grown, save_data_grown).
  apply (grown_memory_ok _ _ (S _)). split; [exact Hc|].
  set (w0 := set_appointment_counter (appointment_counter w + 1) w).
  apply (records_ok_insert w0); [exact Hr|].
  unfold record_okb. cbn [dict_get String.eqb Ascii.eqb Bool.eqb].
  rewrite (time_ok_okb s Hs), (time_ok_okb e He). reflexivity.
Qed.

Lemma perform_memory (a : action) (w : world) :
  action_ok a -> memory_ok w -> memory_ok (snd (perform a w)).
Proof.
  intros Ha Hm.
  destruct a as [name phone email | name | | from to | | ts te d s e r i];
    cbn [perform].
  - now apply add_client_memory.
  - apply (grown_memory_ok w); [|assumption].
    clear Hm. revert w. change (stable grown (open_client_appointments name)).
    unfold open_client_appointments.
    repeat stable_step; auto using load_appointments_grown; grown_same.
  - apply (grown_memory_ok w); [|assumption].
    clear Hm. revert w. change (stable grown go_back_to_clients).
    unfold go_back_to_clients.
    repeat stable_step; auto using refresh_client_list_grown; grown_same.
  - apply (grown_memory_ok w); [|assumption].
    clear Hm. revert w. change (stable grown (apply_date_filter from to)).
    unfold apply_date_filter.
    repeat stable_step; auto using load_appointments_grown; grown_same.
  - apply (grown_memory_ok w); [|assumption].
    clear Hm. revert w. change (stable grown clear_date_filter).
    unfold clear_date_filter.
    repeat stable_step; auto using load_appointments_grown; grown_same.
  - destruct Ha. now apply add_appointment_memory.
Qed.

Lemma digits_val_nonneg (l : list ascii) (acc n : Z) :
  0 <= acc -> digits_val acc l = Some n -> 0 <= n.
Proof.
  revert acc. induction l as [| c l IH]; intros acc Ha; cbn.
  - intros [= <-]. exact Ha.
  - unfold digit_val.
    destruct ((48 <=? Z.of_nat (nat_of_ascii c)) &&
              (Z.of_nat (nat_of_ascii c) <=? 57)) eqn:E; [|discriminate].
    apply andb_true_iff in E. destruct E as [E1 E2].
    apply Z.leb_le in E1. apply IH. lia.
Qed.

Lemma field_nonneg (lo hi : nat) (l : list ascii) (n : Z) :
  field lo hi l = Some n -> 0 <= n.
Proof.
  unfold field. destruct (_ && _); [|discriminate].
  apply digits_val_nonneg. lia.
Qed.

Lemma parse_time_okb (s : string) (t : time) :
  parse_time s = Ok t -> time_okb t = true.
Proof.
  unfold parse_time.
  destruct (split_on ":" (list_ascii_of_string s)) as [| h [| m [| sec [|]]]];
    try discriminate.
  destruct (field 1 2 h) as [a |] eqn:Ea; [|discriminate].
  destruct (field 1 2 m) as [b |] eqn:Eb; [|discriminate].
  destruct (field 1 2 sec) as [c |] eqn:Ec; [|discriminate].
  destruct ((a <=? 23) && (b <=? 59) && (c <=? 59)) eqn:E; [|discriminate].
  intros [= <-]. apply andb_true_iff in E. destruct E as [E E3].
  apply andb_true_iff in E. destruct E as [E1 E2].
  apply Z.leb_le in E1, E2, E3.
  apply field_nonneg in Ea, Eb, Ec.
  apply time_ok_okb. unfold time_ok. cbn. lia.
Qed.

Lemma saved_copy_loaded (d : pydict) (x y : pyval) (s e : time) :
  dict_get d "start" = Some x -> dict_get d "end" = Some y ->
  saved_copy (dict_set (dict_set d "start" (VTime s)) "end" (VTime e))
  = dict_set (dict_set d "start" (VStr (format_time s)))
      "end" (VStr (format_time e)).
Proof.
  intros Hx Hy. unfold saved_copy.
  rewrite dict_get_set_other by discriminate.
  rewrite !dict_get_set_same.
  set (X := dict_set d "start" (VTime s)).
  set (Y := dict_set X "end" (VTime e)).
  assert (Hx1 : In "start"%string (keys X))
    by (apply dict_get_in with (VTime s), dict_get_set_same).
  assert (Hx2 : In "end"%string (keys X)).
  { apply dict_get_in with y. unfold X.
    now rewrite dict_get_set_other by discriminate. }
  assert (Hy1 : In "start"%string (keys Y)).
  { apply dict_get_in with (VTime s). unfold Y.
    rewrite dict_get_set_other by discriminate. apply dict_get_set_same. }
  assert (Hy2 : In "end"%string (keys Y))
    by (apply dict_get_in with (VTime e), dict_get_set_same).
  rewrite (dict_set_comm Y "start" "end") by (assumption || discriminate).
  unfold Y. rewrite dict_set_twice.
  rewrite (dict_set_comm X "end" "start") by (assumption || discriminate).
  unfold X. now rewrite dict_set_twice.
Qed.

Lemma load_appointment_record (k : string) (v : pyval) (w w' : world) :
  serializable v = true -> load_appointment (k, v) w = (Ok tt, w') ->
  exists r, record_okb r = true /\
    w' = set_appointments (dict_set (appointments w) k (length (heap w)))
           (set_heap (heap w ++ [r]) w).
Proof.
  intros Hv. unfold load_appointment.
  destruct v as [| | | | | | | d]; try discriminate.
  unfold mbind, new_object, alloc, get_item, lift, attempt, set_item, update,
    dict_item.
  cbn [fst snd]. rewrite !deref_fresh.
  destruct (dict_get d "start") as [x |] eqn:Gx; [|discriminate].
  destruct (strptime_time x) as [s | ?] eqn:Ps; [|discriminate].
  cbn [heap set_heap]. rewrite insert_fresh.
  replace (set_heap _ (set_heap (heap w ++ [d]) w))
    with (set_heap (heap w ++ [dict_set d "start" (VTime s)]) w)
    by (destruct w; reflexivity).
  rewrite !deref_fresh. rewrite dict_get_set_other by discriminate.
  destruct (dict_get d "end") as [y |] eqn:Gy; [|discriminate].
  destruct (strptime_time y) as [e | ?] eqn:Pe; [|discriminate].
  cbn [heap set_heap]. rewrite insert_fresh.
  intros [= <-].
  exists (dict_set (dict_set d "start" (VTime s)) "end" (VTime e)). split.
  - unfold record_okb. rewrite dict_get_set_other by discriminate.
    rewrite !dict_get_set_same.
    destruct x; try discriminate. destruct y; try discriminate.
    cbn [strptime_time] in Ps, Pe.
    rewrite (parse_time_okb _ _ Ps), (parse_time_okb _ _ Pe).
    rewrite (saved_copy_loaded d _ _ s e Gx Gy).
    cbn [andb]. now repeat apply serializable_dict_set.
  - destruct w; reflexivity.
Qed.

Lemma load_loop_memory (items : list (string * pyval)) (w w' : world) :
  serializable (VDict items) = true ->
  for_each items load_appointment w = (Ok tt, w') ->
  memory_ok w -> memory_ok w'.
Proof.
  revert w. induction items as [| [k v] items IH]; intros w Hs H Hm.
  - cbn in H. now injection H as <-.
  - cbn [serializable forallb] in Hs. apply andb_true_iff in Hs. destruct Hs as [Hv Hs].
    cbn [for_each] in H. apply bind_ok in H. destruct H as ([] & w1 & H1 & H).
    apply (IH w1 Hs H).
    destruct (load_appointment_record k v w w1 Hv H1) as (r & Hr & ->).
    destruct Hm as [Hc Hrs]. split; [exact Hc|].
    now apply records_ok_insert.
Qed.

Lemma update_counters_grown : stable grown update_counters.
Proof. unfold update_counters. repeat stable_step; grown_same. Qed.

Lemma update_pair_serializable (x k v : pyval) :
  serializable x = true -> update_pair x = Ok (k, v) -> serializable v = true.
Proof.
  destruct x as [| | | | s | | l | d]; cbn [update_pair]; try discriminate.
  - destruct (chars_of (list_ascii_of_string s)) as [| a [| b [|]]];
      try discriminate.
    now intros _ [= <- <-].
  - destruct l as [| k0 [| v0 [|]]]; try discriminate.
    cbn [serializable forallb]. rewrite !andb_true_iff.
    now intros (_ & Hv & _) [= <- <-].
  - destruct d as [| [a ?] [| [b ?] [|]]]; try discriminate.
    now intros _ [= <- <-].
Qed.

Lemma update_item_set (x : pyval) (w w' : world) :
  update_item x w = (Ok tt, w') ->
  exists k v, update_pair x = Ok (VStr k, v) /\
              w' = set_clients (dict_set (clients w) k v) w.
Proof.
  unfold update_item. rewrite bind_attempt.
  destruct (update_pair x) as [[kk v] | e]; [|discriminate]. cbn [fst snd].
  destruct kk; try discriminate. intros [= <-]. eauto.
Qed.

Lemma update_items_memory (l : list pyval) (w w' : world) :
  serializable (VList l) = true ->
  for_each l update_item w = (Ok tt, w') -> memory_ok w -> memory_ok w'.
Proof.
  revert w. induction l as [| x l IH]; intros w Hs H Hm.
  - cbn in H. now injection H as <-.
  - cbn [serializable forallb] in Hs. apply andb_true_iff in Hs.
    destruct Hs as [Hx Hs].
    cbn [for_each] in H. apply bind_ok in H. destruct H as ([] & w1 & H1 & H).
    apply (IH w1 Hs H).
    destruct (update_item_set x w w1 H1) as (k & v & Hp & ->).
    destruct Hm as [Hc Hr]. split; [|exact Hr].
    cbn [clients set_clients]. apply serializable_dict_set; [exact Hc|].
    exact (update_pair_serializable _ _ _ Hx Hp).
Qed.

Lemma load_clients_memory (w w' : world) :
  file_ok (clients_file w) -> load_clients w = (Ok tt, w') ->
  memory_ok w -> memory_ok w'.
Proof.
  intros Hf H Hm. unfold load_clients in H. rewrite bind_get in H.
  destruct (clients_file w) as [f |].
  - rewrite bind_attempt in H. destruct f as [doc |]; [|discriminate].
    cbn [json_load] in H. destruct doc as [| | | | s | | l | d];
      try discriminate.
    + destruct (String.eqb s ""); [|discriminate]. now injection H as <-.
    + exact (update_items_memory l w w' Hf H Hm).
    + injection H as <-. destruct Hm as [Hc Hr]. split; [|exact Hr].
      cbn [clients set_clients]. now apply serializable_dict_update.
  - now injection H as <-.
Qed.

Lemma load_data_memory (cf af : option file) (w : world) :
  file_ok cf -> file_ok af ->
  load_data (boot cf af) = (Ok tt, w) -> memory_ok w.
Proof.
  intros Hcf Haf H. unfold load_data in H.
  apply bind_ok in H. destruct H as ([] & w1 & H1 & H).
  apply bind_ok in H. destruct H as ([] & w2 & H2 & H).
  rewrite (snd_eq _ _ _ _ H). apply (grown_memory_ok w2);
    [apply update_counters_grown|].
  assert (M1 : memory_ok w1).
  { apply (load_clients_memory (boot cf af) w1 Hcf H1).
    split; [reflexivity | constructor]. }
  assert (Ea : appts_file w1 = af).
  { assert (S : stable (same_on appts_file) load_clients).
    { unfold load_clients, update_item. repeat stable_step; reflexivity. }
    pose proof (S (boot cf af)) as E. rewrite H1 in E. exact E. }
  unfold load_appointments_file in H2. rewrite bind_get, Ea in H2.
  destruct af as [f |].
  - rewrite bind_attempt in H2. destruct f as [doc |]; [|discriminate].
    cbn [json_load] in H2. destruct doc; try discriminate.
    apply (load_loop_memory _ w1 w2 Haf H2 M1).
  - now injection H2 as <-.
Qed.

Lemma init_memory (cf af : option file) (w : world) :
  file_ok cf -> file_ok af -> init (boot cf af) = (Ok tt, w) -> memory_ok w.
Proof.
  intros Hcf Haf H. unfold init in H.
  apply bind_ok in H. destruct H as ([] & w1 & H1 & H).
  rewrite (snd_eq _ _ _ _ H). apply (grown_memory_ok w1).
  - generalize w1.
    change (stable grown (update (set_current_client_id None) ;;
                          update (set_filter false None None) ;;
                          refresh_client_list)).
    repeat stable_step; auto using refresh_client_list_grown; grown_same.
  - now apply load_data_memory with cf af.
Qed.

Lemma reachable_memory (w : world) : reachable w -> memory_ok w.
Proof.
  induction 1 as [cf af w Hcf Haf H | w a w' _ IH Ha H].
  - now apply init_memory with cf af.
  - rewrite (snd_eq _ _ _ _ H). now apply perform_memory.
Qed.

Lemma NoDup_nodupb (l : list string) : NoDup l -> nodupb l = true.
Proof.
  induction 1 as [| x l Hx _ IH]; cbn; [reflexivity|].
  rewrite IH, andb_true_r. apply negb_true_iff.
  destruct (existsb (String.eqb x) l) eqn:E; [|reflexivity].
  apply existsb_exists in E. destruct E as (y & Hy & E).
  apply String.eqb_eq in E. subst y. exfalso. apply Hx.
  now apply list_elem_of_In.
Qed.

Lemma below_parses (ks : list string) (n : Z) :
  below ks n -> forallb parses ks = true.
Proof.
  intros H. apply forallb_forall. intros k Hk.
  destruct (H k Hk) as (m & Hm & _). unfold parses. now rewrite Hm.
Qed.

Lemma reachable_store (w : world) : reachable w -> store_okb w = true.
Proof.
  intros H. destruct (reachable_invariant w H) as [(N1 & N2 & B1 & B2) _].
  destruct (reachable_memory w H) as [Hc Hr].
  unfold store_okb.
  rewrite (NoDup_nodupb _ N1), (NoDup_nodupb _ N2).
  rewrite (below_parses _ _ B1), (below_parses _ _ B2), Hc. cbn [andb].
  apply forallb_forall. intros d Hd. apply in_map_iff in Hd.
  destruct Hd as ([k d'] & <- & Hd). unfold records in Hd.
  apply in_map_iff in Hd. destruct Hd as ([k' l] & [= <- <-] & Hl).
  unfold records_ok in Hr. rewrite Forall_forall in Hr. apply Hr.
  apply list_elem_of_In. unfold values. apply in_map_iff. now exists (k', l).
Qed.

(** C4, as the code has it: in every state of the window [save_data]
    returns, and a new process that reads the two files it wrote has the
    clients as they were and every appointment record as it was up to the
    microseconds of its two times, which the text HH:MM:SS does not hold;
    the records are the same when no time has microseconds. *)
Theorem save_load_round_trip (w : world) :
  reachable w ->
  exists w1 w2,
    save_data w = (Ok tt, w1) /\
    load_data (boot (clients_file w1) (appts_file w1)) = (Ok tt, w2) /\
    clients w2 = clients w /\
    records w2 = map (fun kd => (fst kd, whole_seconds (snd kd))) (records w) /\
    (forallb no_microseconds (map snd (records w)) = true ->
     records w2 = records w).
Proof. intros H. apply store_round_trip, reachable_store, H. Qed.

Lemma two_appointments_reachable : reachable two_appointments.
Proof.
  apply (reach_step one_appointment
           (AddAppointment 738000 738000 (mk_date 2024 3 9)
              (mk_time 23 50 0 0) (mk_time 0 10 0 500000) (Float64.of_Z 30) 6)).
  - apply (reach_step client_opened
             (AddAppointment 738000 738000 (mk_date 2024 3 5)
                (mk_time 9 0 0 0) (mk_time 9 47 0 0) (Float64.of_Z 30) 6)).
    + apply (reach_step one_client (OpenClient "Ann")).
      * exact one_client_reachable.
      * exact I.
      * vm_compute. reflexivity.
    + unfold action_ok, time_ok. cbn. lia.
    + vm_compute. reflexivity.
  - unfold action_ok, time_ok. cbn. lia.
  - vm_compute. reflexivity.
Qed.

Lemma save_load_round_trip_witness :
  clients (snd (load_data (boot (clients_file (snd (save_data two_appointments)))
                                (appts_file (snd (save_data two_appointments))))))
  = clients two_appointments.
Proof.
  destruct (save_load_round_trip two_appointments) as (w1 & w2 & H1 & H2 & H3 & _).
  - exact two_appointments_reachable.
  - rewrite H1. cbn [snd]. rewrite H2. exact H3.
Defined.

(** C4 as stated fails: the state [two_appointments] is reached through
    the window, and the end of its second appointment, 00:10:00.500000,
    is read back as 00:10:00. *)
Lemma round_trip_drops_microseconds :
  let w := two_appointments in
  let w1 := snd (save_data w) in
  let w2 := snd (load_data (boot (clients_file w1) (appts_file w1))) in
  fst (save_data w) = Ok tt /\
  fst (load_data (boot (clients_file w1) (appts_file w1))) = Ok tt /\
  records w2 <> records w.
Proof.
  cbv zeta. split; [vm_compute; reflexivity|]. split; [vm_compute; reflexivity|].
  intros H.
  apply (f_equal (fun r => map (fun kd => dict_get (snd kd) "end") r)) in H.
  vm_compute in H. discriminate H.
Qed.

(** ** The client list *)

Lemma show_client_line (kv : string * pyval) (w w' : world) :
  show_client kv w = (Ok tt, w') ->
  exists items, lines_of (snd kv) = Some items /\
    w' = set_client_list (client_list w ++ items) w.
Proof.
  destruct kv as [k data]. unfold show_client. rewrite bind_attempt.
  destruct data as [| | | | | | | d]; cbn [subscript]; try discriminate.
  unfold dict_item. cbn [snd lines_of]. unfold shown.
  destruct (dict_get d "name") as [[| | | | n | | |] |]; try discriminate.
  - destruct (match dict_get d "phone" with
              | Some v => if truthy v then Some v else None
              | None => None
              end); [discriminate|].
    destruct (match dict_get d "email" with
              | Some v => if truthy v then Some v else None
              | None => None
              end); [discriminate|].
    intros [= <-]. exists []. split; [reflexivity|].
    rewrite app_nil_r. destruct w; reflexivity.
  - unfold update. intros [= <-]. eexists. split; reflexivity.
Qed.

Lemma line_show_client (kv : string * pyval) (items : list client_item)
    (w : world) :
  lines_of (snd kv) = Some items ->
  show_client kv w = (Ok tt, set_client_list (client_list w ++ items) w).
Proof.
  destruct kv as [k data]. unfold show_client. cbn [snd].
  destruct data as [| | | | | | | d]; cbn [lines_of]; try discriminate.
  rewrite bind_attempt. cbn [subscript]. unfold dict_item, shown.
  destruct (dict_get d "name") as [[| | | | n | | |] |]; try discriminate.
  - destruct (match dict_get d "phone" with
              | Some v => if truthy v then Some v else None
              | None => None
              end); [discriminate|].
    destruct (match dict_get d "email" with
              | Some v => if truthy v then Some v else None
              | None => None
              end); [discriminate|].
    intros [= <-]. rewrite app_nil_r. destruct w; reflexivity.
  - intros [= <-]. reflexivity.
Qed.

Lemma show_clients_lines (cs : pydict) (w w' : world) :
  for_each cs show_client w = (Ok tt, w') ->
  exists ls, map (fun kv => lines_of (snd kv)) cs = map Some ls /\
    w' = set_client_list (client_list w ++ concat ls) w.
Proof.
  revert w. induction cs as [| kv cs IH]; intros w H.
  - exists []. cbn in H. injection H as <-. split; [reflexivity|].
    cbn. rewrite app_nil_r. destruct w; reflexivity.
  - cbn [for_each] in H. apply bind_ok in H. destruct H as ([] & w1 & H1 & H).
    destruct (show_client_line kv w w1 H1) as (items & Hi & ->).
    destruct (IH _ H) as (ls & Hm & ->). exists (items :: ls).
    cbn [map concat]. rewrite Hi, Hm. split; [reflexivity|].
    cbn [client_list set_client_list]. rewrite <- app_assoc.
    destruct w; reflexivity.
Qed.

Lemma lines_show_clients (cs : pydict) (ls : list (list client_item))
    (w : world) :
  map (fun kv => lines_of (snd kv)) cs = map Some ls ->
  for_each cs show_client w
  = (Ok tt, set_client_list (client_list w ++ concat ls) w).
Proof.
  revert ls w. induction cs as [| kv cs IH]; intros ls w H.
  - destruct ls; [|discriminate]. cbn. rewrite app_nil_r.
    destruct w; reflexivity.
  - destruct ls as [| items ls]; [discriminate|]. cbn [map] in H.
    injection H as Hi Hm. cbn [for_each concat]. unfold mbind.
    rewrite (line_show_client kv items w Hi), (IH ls _ Hm).
    cbn [client_list set_client_list]. rewrite <- app_assoc.
    destruct w; reflexivity.
Qed.

Lemma refresh_client_list_lines (w w' : world) :
  refresh_client_list w = (Ok tt, w') ->
  list_shown w' /\ exists items, w' = set_client_list items w.
Proof.
  unfold refresh_client_list. rewrite bind_update, bind_get. intros H.
  destruct (show_clients_lines _ _ _ H) as (ls & Hm & ->).
  cbn [clients client_list set_client_list app] in *. split.
  - exists ls. split; [exact Hm | reflexivity].
  - exists (concat ls). destruct w; reflexivity.
Qed.

Lemma lines_refresh_client_list (ls : list (list client_item)) (w : world) :
  map (fun kv => lines_of (snd kv)) (clients w) = map Some ls ->
  refresh_client_list w = (Ok tt, set_client_list (concat ls) w).
Proof.
  intros H. unfold refresh_client_list. rewrite bind_update, bind_get.
  cbn [clients set_client_list].
  rewrite (lines_show_clients _ ls _ H). destruct w; reflexivity.
Qed.

Lemma save_data_shown :
  stable (same_on (fun w => (clients w, client_list w))) save_data.
Proof.
  apply (stable_weaken kept). 2: exact save_data_kept.
  intros w w' (x & cf & af & ->). destruct w; reflexivity.
Qed.

Lemma load_appointments_shown :
  stable (same_on (fun w => (clients w, client_list w))) load_appointments.
Proof.
  unfold load_appointments, list_appointment. repeat stable_step; reflexivity.
Qed.

Lemma list_shown_same (w w' : world) :
  same_on (fun w => (clients w, client_list w)) w w' ->
  list_shown w -> list_shown w'.
Proof.
  unfold same_on, list_shown. intros [= -> ->]. exact id.
Qed.

Lemma perform_list_shown (a : action) (w w' : world) :
  perform a w = (Ok tt, w') -> list_shown w -> list_shown w'.
Proof.
  intros H Hl.
  destruct a as [name phone email | name | | from to | | ts te d s e r i];
    cbn [perform] in H.
  - unfold add_client in H. destruct (String.eqb (strip name) "").
    + injection H as <-. exact Hl.
    + rewrite bind_get, !bind_update in H.
      apply bind_ok in H. destruct H as ([] & w1 & H1 & H).
      destruct (refresh_client_list_lines _ _ H1) as [Hs _].
      rewrite (snd_eq _ _ _ _ H).
      exact (list_shown_same _ _ (save_data_shown w1) Hs).
  - rewrite (snd_eq _ _ _ _ H). apply (list_shown_same w); [|exact Hl].
    generalize w.
    change (stable (same_on (fun w => (clients w, client_list w)))
              (open_client_appointments name)).
    unfold open_client_appointments.
    repeat stable_step; auto using load_appointments_shown; reflexivity.
  - unfold go_back_to_clients in H.
    apply bind_ok in H. destruct H as ([] & w1 & H1 & H).
    destruct (refresh_client_list_lines _ _ H1) as [Hs _].
    injection H as <-. exact Hs.
  - rewrite (snd_eq _ _ _ _ H). apply (list_shown_same w); [|exact Hl].
    generalize w.
    change (stable (same_on (fun w => (clients w, client_list w)))
              (apply_date_filter from to)).
    unfold apply_date_filter.
    repeat stable_step; auto using load_appointments_shown; reflexivity.
  - rewrite (snd_eq _ _ _ _ H). apply (list_shown_same w); [|exact Hl].
    generalize w.
    change (stable (same_on (fun w => (clients w, client_list w)))
              clear_date_filter).
    unfold clear_date_filter.
    repeat stable_step; auto using load_appointments_shown; reflexivity.
  - rewrite (snd_eq _ _ _ _ H). apply (list_shown_same w); [|exact Hl].
    generalize w.
    change (stable (same_on (fun w => (clients w, client_list w)))
              (add_appointment ts te d s e r i)).
    unfold add_appointment.
    stable_steps;
      auto using load_appointments_shown, save_data_shown; reflexivity.
Qed.

Lemma reachable_list_shown (w : world) : reachable w -> list_shown w.
Proof.
  induction 1 as [cf af w _ _ H | w a w' _ IH _ H].
  - unfold init in H.
    apply bind_ok in H. destruct H as ([] & w1 & _ & H).
    rewrite !bind_update in H.
    now destruct (refresh_client_list_lines _ _ H).
  - now apply perform_list_shown with a w.
Qed.

(** In every state of the window every client is a dict whose name is a
    string or None, and the client list shows, in the order of the dict,
    one line for each client whose name is a string: the name, and the
    phone and the email when they count as true.  A client whose name is
    None has no line, and neither a phone nor an email that counts as
    true. *)
Theorem client_list_shows_clients (w : world) :
  reachable w ->
  exists ls,
    Forall2 (fun kv items =>
               exists d,
                 snd kv = VDict d /\
                 ((exists n, dict_get d "name" = Some (VStr n) /\
                             items = [(n, shown d "phone", shown d "email")]) \/
                  (dict_get d "name" = Some VNone /\
                   shown d "phone" = None /\ shown d "email" = None /\
                   items = [])))
            (clients w) ls /\
    client_list w = concat ls.
Proof.
  intros H. destruct (reachable_list_shown w H) as (ls & Hm & Hc).
  exists ls. split; [|exact Hc]. clear Hc. revert ls Hm.
  induction (clients w) as [| [k data] cs IH]; intros [| items ls] Hm;
    try discriminate; constructor.
  - cbn [map snd] in *. injection Hm as Hm _.
    destruct data as [| | | | | | | d]; try discriminate. cbn [lines_of] in Hm.
    exists d. split; [reflexivity|].
    destruct (dict_get d "name") as [[| | | | n | | |] |]; try discriminate.
    + right. destruct (shown d "phone"); [discriminate|].
      destruct (shown d "email"); [discriminate|].
      injection Hm as <-. auto.
    + left. exists n. injection Hm as <-. auto.
  - apply IH. now injection Hm.
Qed.

Lemma client_list_shows_clients_witness :
  exists ls, length ls = length (clients one_client) /\
             client_list one_client = concat ls.
Proof.
  destruct (client_list_shows_clients one_client one_client_reachable)
    as (ls & H & Hc).
  exists ls. split; [|exact Hc]. symmetry. exact (Forall2_length _ _ _ H).
Defined.

(** In every state of the window [go_back_to_clients] returns, and only
    the page changes: the selected client, the date filter and the
    appointment list stay as they are. *)
Theorem go_back_to_clients_page (w : world) :
  reachable w ->
  go_back_to_clients w = (Ok tt, set_current_page ClientsPage w).
Proof.
  intros H. destruct (reachable_list_shown w H) as (ls & Hm & Hc).
  unfold go_back_to_clients, mbind.
  rewrite (lines_refresh_client_list ls w Hm), <- Hc. unfold update.
  destruct w; reflexivity.
Qed.

Lemma go_back_to_clients_page_witness :
  current_client_id (snd (go_back_to_clients client_opened)) = Some "c1"%string.
Proof.
  rewrite (go_back_to_clients_page client_opened).
  - vm_compute. reflexivity.
  - apply (reach_step one_client (OpenClient "Ann")).
    + exact one_client_reachable.
    + exact I.
    + vm_compute. reflexivity.
Defined.

(** ** Adding a client *)

Lemma lstrip_nil (l : list ascii) :
  lstrip l = [] <-> forallb is_space l = true.
Proof.
  induction l as [| c l IH]; cbn; [tauto|].
  destruct (is_space c); cbn; [exact IH|]. split; discriminate.
Qed.

Lemma forallb_rev {A : Type} (f : A -> bool) (l : list A) :
  forallb f (rev l) = forallb f l.
Proof.
  induction l as [| x l IH]; [reflexivity|]. cbn [rev forallb].
  rewrite forallb_app, IH. cbn. rewrite andb_true_r. apply andb_comm.
Qed.

Lemma lstrip_spaces (l : list ascii) :
  forallb is_space (lstrip l) = true -> lstrip l = [].
Proof.
  induction l as [| c l IH]; cbn; [reflexivity|].
  destruct (is_space c) eqn:E; [exact IH|]. cbn. now rewrite E.
Qed.

Lemma strip_chars_nil (l : list ascii) :
  strip_chars l = [] <-> forallb is_space l = true.
Proof.
  unfold strip_chars. rewrite <- lstrip_nil. split.
  - intros H. apply (f_equal (@rev ascii)) in H. rewrite rev_involutive in H.
    cbn in H. apply lstrip_nil in H. rewrite forallb_rev in H.
    now apply lstrip_spaces.
  - intros ->. reflexivity.
Qed.

Lemma strip_empty (s : string) :
  strip s = ""%string <-> forallb is_space (list_ascii_of_string s) = true.
Proof.
  unfold strip. rewrite <- strip_chars_nil.
  destruct (strip_chars (list_ascii_of_string s)); cbn; split;
    try reflexivity; discriminate.
Qed.

Lemma ids_memory_store (w : world) :
  ids_ok w -> memory_ok w -> store_okb w = true.
Proof.
  intros (N1 & N2 & B1 & B2) [Hc Hr]. unfold store_okb.
  rewrite (NoDup_nodupb _ N1), (NoDup_nodupb _ N2).
  rewrite (below_parses _ _ B1), (below_parses _ _ B2), Hc. cbn [andb].
  apply forallb_forall. intros d Hd. apply in_map_iff in Hd.
  destruct Hd as ([k d'] & <- & Hd). unfold records in Hd.
  apply in_map_iff in Hd. destruct Hd as ([k' l] & [= <- <-] & Hl).
  unfold records_ok in Hr. rewrite Forall_forall in Hr. apply Hr.
  apply list_elem_of_In. unfold values. apply in_map_iff. now exists (k', l).
Qed.

Lemma records_grown (w w' : world) (x : list pydict) :
  appointments w' = appointments w -> heap w' = heap w ++ x ->
  records_ok w -> records w' = records w.
Proof.
  intros A H Hr. unfold records. rewrite A.
  apply map_ext_Forall. unfold records_ok, values in Hr.
  rewrite Forall_map in Hr. eapply Forall_impl; [exact Hr|].
  intros [k l] Hl. cbn [fst snd] in *. f_equal.
  pose proof (record_okb_valid _ _ Hl) as Hv.
  unfold deref. rewrite H. now apply lookup_total_app_l.
Qed.

(** In every state of the window, [add_client] with three texts of
    ASCII characters and a name that has a character other than white
    space returns: the client is added last,
    under the identifier made of the counter, with the three texts
    stripped; the counter goes up by one, the appointments stay as they
    are, the client list gets the line of the new client, and the
    clients file holds the clients as they now are. *)
Theorem add_client_appends (name phone email : string) (w : world) :
  reachable w ->
  ascii_text name = true -> ascii_text phone = true ->
  ascii_text email = true ->
  forallb is_space (list_ascii_of_string name) = false ->
  let cid := ("c" ++ str_of_int (client_counter w))%string in
  let data := [("name", VStr (strip name)); ("phone", VStr (strip phone));
               ("email", VStr (strip email))]%string in
  exists w',
    add_client name phone email w = (Ok tt, w') /\
    clients w' = clients w ++ [(cid, VDict data)] /\
    client_counter w' = client_counter w + 1 /\
    appointments w' = appointments w /\
    appointment_counter w' = appointment_counter w /\
    records w' = records w /\
    client_list w'
    = client_list w ++ [(strip name, shown data "phone", shown data "email")] /\
    clients_file w' = Some (FileJson (VDict (clients w'))).
Proof.
  intros Hr _ _ _ Hn. cbv zeta.
  destruct (reachable_invariant w Hr) as [(N1 & N2 & B1 & B2) _].
  pose proof (reachable_memory w Hr) as [Mc Mr].
  destruct (reachable_list_shown w Hr) as (ls & Hl & Hcl).
  assert (Hne : String.eqb (strip name) "" = false).
  { apply String.eqb_neq. intros E. apply strip_empty in E. congruence. }
  unfold add_client. rewrite Hne, bind_get, !bind_update.
  set (data := [("name", VStr (strip name)); ("phone", VStr (strip phone));
                ("email", VStr (strip email))]%string).
  set (n := client_counter w) in *.
  change ("c" ++ str_of_int n)%string with (String "c" (str_of_int n)).
  destruct (ids_after_insert (clients w) n "c" (VDict data) N1 B1)
    as (N1' & B1' & Hk).
  pose proof (dict_set_fresh (clients w) _ (VDict data) (below_fresh _ _ "c" B1))
    as Hcs.
  change (clients (set_client_counter (n + 1) w)) with (clients w).
  set (w0 := set_clients _ (set_client_counter (n + 1) w)).
  set (item := (strip name, shown data "phone", shown data "email")).
  assert (R : refresh_client_list w0
              = (Ok tt, set_client_list (client_list w ++ [item]) w0)).
  { rewrite Hcl. replace (concat ls ++ [item]) with (concat (ls ++ [[item]]))
      by (rewrite concat_app; reflexivity).
    apply lines_refresh_client_list. unfold w0.
    cbn [clients set_clients set_client_counter].
    rewrite Hcs, !map_app, Hl. reflexivity. }
  unfold mbind at 1. rewrite R.
  set (w1 := set_client_list (client_list w ++ [item]) w0).
  assert (S : store_okb w1 = true).
  { apply ids_memory_store.
    - unfold ids_ok, w1, w0.
      cbn [clients appointments client_counter appointment_counter
           set_client_list set_clients set_client_counter].
      repeat split; assumption.
    - split; [|exact Mr]. unfold w1, w0.
      cbn [clients set_client_list set_clients].
      now apply serializable_dict_set. }
  destruct (save_data_ok w1 S) as (copies & ->).
  eexists. split; [reflexivity|].
  split; [exact Hcs|]. do 3 (split; [reflexivity|]).
  split; [|split; reflexivity].
  now apply (records_grown w _ copies).
Qed.

Lemma add_client_appends_witness :
  keys (clients (snd (add_client " Bob" "" "b@x.org" one_client)))
  = ["c1"; "c2"]%string.
Proof.
  destruct (add_client_appends " Bob" "" "b@x.org" one_client
              one_client_reachable) as (w' & H & Hc & _).
  - vm_compute. reflexivity.
  - vm_compute. reflexivity.
  - vm_compute. reflexivity.
  - vm_compute. reflexivity.
  - rewrite H. cbn [snd]. rewrite Hc. vm_compute. reflexivity.
Defined.

(** [add_client] with a name of white space only, or an empty one, shows
    the warning and does nothing else: no client, no identifier used, no
    file written. *)
Theorem add_client_blank_name (name phone email : string) (w : world) :
  forallb is_space (list_ascii_of_string name) = true ->
  add_client name phone email w = (Ok tt, add_warning "Name is required" w).
Proof.
  intros H. apply strip_empty in H. unfold add_client. now rewrite H.
Qed.

Lemma add_client_blank_name_witness :
  clients (snd (add_client "  " "555" "" one_client)) = clients one_client.
Proof.
  rewrite (add_client_blank_name "  " "555" "" one_client).
  - reflexivity.
  - vm_compute. reflexivity.
Defined.

(** ** The selected client *)

Lemma find_client_app (cs extra : pydict) (name cid : string) :
  find_client cs name = Ok (Some cid) ->
  find_client (cs ++ extra) name = Ok (Some cid).
Proof.
  induction cs as [| [k data] cs IH]; cbn; [discriminate|].
  destruct (subscript data "name") as [n | e]; cbn; [|discriminate].
  destruct (is_str n name); auto.
Qed.

Lemma is_str_true (v : pyval) (s : string) : is_str v s = true <-> v = VStr s.
Proof.
  destruct v; cbn; try (split; discriminate).
  rewrite String.eqb_eq. split; congruence.
Qed.

Lemma find_client_first (cs : pydict) (name cid : string) :
  find_client cs name = Ok (Some cid) ->
  exists before d after,
    cs = before ++ (cid, VDict d) :: after /\
    dict_get d "name" = Some (VStr name) /\
    Forall (fun kv => forall d', snd kv = VDict d' ->
                      dict_get d' "name" <> Some (VStr name)) before.
Proof.
  induction cs as [| [k data] cs IH]; cbn [find_client]; [discriminate|].
  destruct data as [| | | | | | | d0]; cbn [subscript bind]; try discriminate.
  unfold dict_item. destruct (dict_get d0 "name") as [v |] eqn:G;
    cbn [bind]; [|discriminate].
  destruct (is_str v name) eqn:E.
  - intros [= ->]. apply is_str_true in E. subst v.
    exists [], d0, cs. repeat split; [exact G | constructor].
  - intros H. destruct (IH H) as (before & d & after & -> & Hd & Hb).
    exists ((k, VDict d0) :: before), d, after. repeat split; [exact Hd|].
    constructor; [|exact Hb]. intros d' [= <-]. rewrite G. intros [= ->].
    cbn in E. now rewrite String.eqb_refl in E.
Qed.

Lemma open_client_found (name : string) (w : world) :
  let w' := snd (open_client_appointments name w) in
  core w' = core w \/
  exists cid, find_client (clients w) name = Ok (Some cid) /\
    core w' = (clients w, appointments w, client_counter w,
               appointment_counter w, Some cid).
Proof.
  cbv zeta. unfold open_client_appointments.
  assert (Htail : stable (same_on core)
            (do* cur := get current_client_id in
             match selected cur with
             | Some _ => load_appointments ;; update (set_current_page AppointmentsPage)
             | None => ret tt
             end)).
  { repeat stable_step; auto using load_appointments_core; reflexivity. }
  rewrite bind_lift.
  destruct (find_client (clients w) name) as [[cid |] | e] eqn:E;
    cbv beta iota.
  - right. exists cid. split; [reflexivity|].
    rewrite bind_update. rewrite (Htail _). reflexivity.
  - left. change (mbind (ret tt) ?k w) with (k tt w). cbv beta.
    rewrite (Htail _). reflexivity.
  - left. reflexivity.
Qed.

Lemma selection_first_core (w w' : world) :
  core w' = core w -> selection_first w -> selection_first w'.
Proof. unfold core, selection_first. intros [= -> _ _ _ ->]. tauto. Qed.

Lemma perform_selection_first (a : action) (w : world) :
  ids_ok w -> selection_first w -> selection_first (snd (perform a w)).
Proof.
  intros (D1 & D2 & B1 & B2) Hs.
  destruct a as [name phone email | name | | from to | | ts te d s e r i];
    cbn [perform].
  - destruct (add_client_core name phone email w) as [H | [v H]].
    + now apply (selection_first_core w).
    + injection H as H1 _ _ _ H5. intros cid Hc. rewrite H5 in Hc.
      destruct (Hs cid Hc) as (n & Hn). exists n. rewrite H1.
      change ("c" ++ str_of_int (client_counter w))%string
        with (String "c" (str_of_int (client_counter w))).
      rewrite dict_set_fresh by (now apply below_fresh).
      now apply find_client_app.
  - destruct (open_client_found name w) as [H | (cid & Hf & H)].
    + now apply (selection_first_core w).
    + injection H as H1 _ _ _ H5. intros c Hc. rewrite H5 in Hc.
      injection Hc as <-. exists name. now rewrite H1.
  - pose proof (other_actions_core GoBack w) as H.
    now apply (selection_first_core w).
  - pose proof (other_actions_core (ApplyFilter from to) w) as H.
    now apply (selection_first_core w).
  - pose proof (other_actions_core ClearFilter w) as H.
    now apply (selection_first_core w).
  - destruct (add_appointment_core ts te d s e r i w) as [H | [l H]].
    + now apply (selection_first_core w).
    + injection H as H1 _ _ _ H5. intros cid Hc. rewrite H5 in Hc.
      rewrite H1. auto.
Qed.

Lemma reachable_selection_first (w : world) :
  reachable w -> selection_first w.
Proof.
  induction 1 as [cf af w _ _ H | w a w' Hr IH _ H].
  - unfold init in H. apply bind_ok in H. destruct H as ([] & w1 & _ & H).
    rewrite !bind_update in H. intros cid Hc.
    assert (E : current_client_id w = None).
    { rewrite (snd_eq _ _ _ _ H).
      pose proof (refresh_client_list_core
                    (set_filter false None None
                       (set_current_client_id None w1))) as C.
      unfold same_on, core in C. now injection C. }
    congruence.
  - rewrite (snd_eq _ _ _ _ H). apply perform_selection_first; [|exact IH].
    now apply reachable_invariant.
Qed.

(** In every state of the window the selected client is the first
    client of its name: it is a dict with a name, and no client before it
    in the dict has that name.  A client that has the name of an earlier
    one is never the selected one. *)
Theorem selected_client_first_of_name (w : world) (cid : string) :
  reachable w -> current_client_id w = Some cid ->
  exists before d name after,
    clients w = before ++ (cid, VDict d) :: after /\
    dict_get d "name" = Some (VStr name) /\
    Forall (fun kv => forall d', snd kv = VDict d' ->
                      dict_get d' "name" <> Some (VStr name)) before.
Proof.
  intros Hr Hc. destruct (reachable_selection_first w Hr cid Hc) as (n & Hn).
  destruct (find_client_first _ _ _ Hn) as (b & d & a & H1 & H2 & H3).
  now exists b, d, n, a.
Qed.

Lemma client_opened_reachable : reachable client_opened.
Proof.
  apply (reach_step one_client (OpenClient "Ann")).
  - exact one_client_reachable.
  - exact I.
  - vm_compute. reflexivity.
Qed.

Lemma selected_client_first_of_name_witness :
  exists d, In ("c1"%string, VDict d) (clients client_opened).
Proof.
  destruct (selected_client_first_of_name client_opened "c1"
              client_opened_reachable) as (b & d & n & a & H & _).
  - vm_compute. reflexivity.
  - exists d. rewrite H. apply in_elt.
Defined.

(** ** Nothing is removed or changed *)

#[local] Instance heap_grown_preorder : PreOrder heap_grown.
Proof.
  split.
  - intros w. exists []. now rewrite app_nil_r.
  - intros w1 w2 w3 [x1 H1] [x2 H2]. exists (x1 ++ x2).
    now rewrite H2, H1, app_assoc.
Qed.

Ltac heap_same := exists []; cbn; now rewrite app_nil_r.

Lemma save_data_heap_grown : stable heap_grown save_data.
Proof.
  apply (stable_weaken kept); [|exact save_data_kept].
  intros w w' (x & cf & af & ->). now exists x.
Qed.

Lemma perform_heap_grown (a : action) : stable heap_grown (perform a).
Proof.
  destruct a; cbn [perform];
    unfold add_client, open_client_appointments, go_back_to_clients,
      apply_date_filter, clear_date_filter, add_appointment,
      refresh_client_list, show_client, load_appointments, list_appointment;
    stable_steps; auto using save_data_heap_grown; try heap_same.
  eexists. reflexivity.
Qed.

Lemma records_extended (w w' : world) (ext : list (string * nat))
    (x : list pydict) :
  appointments w' = appointments w ++ ext -> heap w' = heap w ++ x ->
  records_ok w ->
  records w' = records w ++ map (fun kl => (fst kl, deref w' (snd kl))) ext.
Proof.
  intros A H Hr. unfold records. rewrite A, map_app. f_equal.
  apply map_ext_Forall. unfold records_ok, values in Hr.
  rewrite Forall_map in Hr. eapply Forall_impl; [exact Hr|].
  intros [k l] Hl. cbn [fst snd] in *. f_equal.
  pose proof (record_okb_valid _ _ Hl) as Hv.
  unfold deref. rewrite H. now apply lookup_total_app_l.
Qed.

(** In every state of the window, whatever is done next and whether it
    returns or raises, the clients that were there stay as they are and
    in their places, and so do the appointment records: new ones go
    after them.  Neither counter goes down. *)
Theorem perform_only_adds (a : action) (w : world) :
  reachable w ->
  let w' := snd (perform a w) in
  (exists cs, clients w' = clients w ++ cs) /\
  (exists rs, records w' = records w ++ rs) /\
  client_counter w <= client_counter w' /\
  appointment_counter w <= appointment_counter w'.
Proof.
  intros Hr. cbv zeta.
  destruct (reachable_invariant w Hr) as [(D1 & D2 & B1 & B2) _].
  destruct (reachable_memory w Hr) as [_ Mr].
  destruct (perform_heap_grown a w) as [x Hx].
  assert (Same : core (snd (perform a w)) = core w ->
            (exists cs, clients (snd (perform a w)) = clients w ++ cs) /\
            (exists rs, records (snd (perform a w)) = records w ++ rs) /\
            client_counter w <= client_counter (snd (perform a w)) /\
            appointment_counter w <= appointment_counter (snd (perform a w))).
  { intros H. injection H as H1 H2 H3 H4 _. rewrite H1, H3, H4.
    split; [exists []; now rewrite app_nil_r|].
    split; [|lia]. exists [].
    rewrite app_nil_r. now apply (records_grown w _ x). }
  destruct a as [name phone email | name | | from to | | ts te d s e r i].
  - destruct (add_client_core name phone email w) as [H | [v H]];
      [now apply Same|].
    cbn [perform] in *. injection H as H1 H2 H3 H4 _. rewrite H1, H3, H4.
    change ("c" ++ str_of_int (client_counter w))%string
      with (String "c" (str_of_int (client_counter w))).
    rewrite dict_set_fresh by (now apply below_fresh).
    split; [eauto|]. split; [|lia]. exists [].
    rewrite app_nil_r. now apply (records_grown w _ x).
  - destruct (open_client_core name w) as [H | (cid & _ & H)];
      [now apply Same|].
    cbn [perform] in *. injection H as H1 H2 H3 H4 _. rewrite H1, H3, H4.
    split; [exists []; now rewrite app_nil_r|].
    split; [|lia]. exists [].
    rewrite app_nil_r. now apply (records_grown w _ x).
  - apply Same. apply (other_actions_core GoBack w).
  - apply Same. apply (other_actions_core (ApplyFilter from to) w).
  - apply Same. apply (other_actions_core ClearFilter w).
  - destruct (add_appointment_core ts te d s e r i w) as [H | [l H]];
      [now apply Same|].
    cbn [perform] in *. injection H as H1 H2 H3 H4 _. rewrite H1, H3, H4.
    split; [exists []; now rewrite app_nil_r|].
    split; [|lia]. eexists.
    apply (records_extended w _
             [(String "a" (str_of_int (appointment_counter w)), l)] x);
      [|exact Hx | exact Mr].
    rewrite H2. apply dict_set_fresh. now apply below_fresh.
Qed.

Lemma perform_only_adds_witness :
  exists cs, clients (snd (perform (AddClient "Bob" "" "") client_opened))
             = clients client_opened ++ cs.
Proof.
  exact (proj1 (perform_only_adds (AddClient "Bob" "" "") client_opened
                  client_opened_reachable)).
Defined.

(** ** The files hold what the memory holds *)

Lemma parse_time_whole (s : string) (t : time) :
  parse_time s = Ok t -> microsecond t = 0.
Proof.
  unfold parse_time.
  destruct (split_on ":" (list_ascii_of_string s)) as [| h [| m [| sec [|]]]];
    try discriminate.
  destruct (field 1 2 h) as [a |]; [|discriminate].
  destruct (field 1 2 m) as [b |]; [|discriminate].
  destruct (field 1 2 sec) as [c |]; [|discriminate].
  destruct ((a <=? 23) && (b <=? 59) && (c <=? 59)); [|discriminate].
  now intros [= <-].
Qed.

Lemma load_appointment_whole (k : string) (v : pyval) (w w' : world) :
  serializable v = true -> load_appointment (k, v) w = (Ok tt, w') ->
  exists r, record_okb r = true /\ no_microseconds r = true /\
    w' = set_appointments (dict_set (appointments w) k (length (heap w)))
           (set_heap (heap w ++ [r]) w).
Proof.
  intros Hv H.
  destruct (load_appointment_record k v w w' Hv H) as (r & Hr & Hw).
  exists r. split; [exact Hr|]. split; [|exact Hw].
  revert H. unfold load_appointment.
  destruct v as [| | | | | | | d]; try discriminate.
  unfold mbind, new_object, alloc, get_item, lift, attempt, set_item, update,
    dict_item.
  cbn [fst snd]. rewrite !deref_fresh.
  destruct (dict_get d "start") as [x |] eqn:Gx; [|discriminate].
  destruct (strptime_time x) as [s | ?] eqn:Ps; [|discriminate].
  cbn [heap set_heap]. rewrite insert_fresh.
  replace (set_heap _ (set_heap (heap w ++ [d]) w))
    with (set_heap (heap w ++ [dict_set d "start" (VTime s)]) w)
    by (destruct w; reflexivity).
  rewrite !deref_fresh. rewrite dict_get_set_other by discriminate.
  destruct (dict_get d "end") as [y |] eqn:Gy; [|discriminate].
  destruct (strptime_time y) as [e | ?] eqn:Pe; [|discriminate].
  cbn [heap set_heap]. rewrite insert_fresh. rewrite Hw. intros [= E].
  apply app_inv_head in E. injection E as <-.
  unfold no_microseconds. rewrite dict_get_set_other by discriminate.
  rewrite !dict_get_set_same.
  destruct x; try discriminate. destruct y; try discriminate.
  cbn [strptime_time] in Ps, Pe.
  now rewrite (parse_time_whole _ _ Ps), (parse_time_whole _ _ Pe).
Qed.

Lemma records_whole_insert (w : world) (k : string) (r : pydict) :
  records_whole w -> record_okb r = true -> no_microseconds r = true ->
  records_whole
    (set_appointments (dict_set (appointments w) k (length (heap w)))
       (set_heap (heap w ++ [r]) w)).
Proof.
  intros Hr Hk Hn. unfold records_whole. cbn [appointments set_appointments].
  apply values_dict_set.
  - eapply Forall_impl; [exact Hr|]. intros l [Hl Hm]. cbv beta in *.
    pose proof (record_okb_valid _ _ Hl) as Hv.
    replace (deref _ l) with (deref w l); [now split|].
    unfold deref. cbn. symmetry. now apply lookup_total_app_l.
  - replace (deref _ (length (heap w))) with r; [now split|].
    symmetry. apply (deref_fresh w (heap w) r).
Qed.

Lemma load_loop_whole (items : list (string * pyval)) (w w' : world) :
  serializable (VDict items) = true ->
  for_each items load_appointment w = (Ok tt, w') ->
  records_whole w -> records_whole w'.
Proof.
  revert w. induction items as [| [k v] items IH]; intros w Hs H Hm.
  - cbn in H. now injection H as <-.
  - cbn [serializable forallb] in Hs. apply andb_true_iff in Hs.
    destruct Hs as [Hv Hs].
    cbn [for_each] in H. apply bind_ok in H. destruct H as ([] & w1 & H1 & H).
    apply (IH w1 Hs H).
    destruct (load_appointment_whole k v w w1 Hv H1) as (r & Hr & Hn & ->).
    now apply records_whole_insert.
Qed.

Lemma load_data_whole (cf af : option file) (w : world) :
  file_ok af -> load_data (boot cf af) = (Ok tt, w) -> records_whole w.
Proof.
  intros Haf H. unfold load_data in H.
  apply bind_ok in H. destruct H as ([] & w1 & H1 & H).
  apply bind_ok in H. destruct H as ([] & w2 & H2 & H).
  assert (E : records_whole w2).
  { assert (M1 : records_whole w1 /\ appts_file w1 = af).
    { assert (S : stable (same_on (fun w => (appointments w, appts_file w)))
                    load_clients).
      { unfold load_clients, update_item. stable_steps; reflexivity. }
      pose proof (S (boot cf af)) as E. rewrite H1 in E.
      unfold same_on in E. cbn in E. injection E as E1 E2.
      split; [|exact E2]. unfold records_whole. rewrite E1. constructor. }
    destruct M1 as [M1 Ea].
    unfold load_appointments_file in H2. rewrite bind_get, Ea in H2.
    destruct af as [f |].
    - rewrite bind_attempt in H2. destruct f as [doc |]; [|discriminate].
      cbn [json_load] in H2. destruct doc; try discriminate.
      apply (load_loop_whole _ w1 w2 Haf H2 M1).
    - now injection H2 as <-. }
  destruct (update_counters_grown w2) as (_ & A & x & Hx).
  rewrite H in A, Hx. cbn [snd] in A, Hx.
  unfold records_whole in *. rewrite A.
  eapply Forall_impl; [exact E|]. intros l [Hl Hn]. cbv beta in *.
  pose proof (record_okb_valid _ _ Hl) as Hv.
  replace (deref w l) with (deref w2 l); [now split|].
  unfold deref. rewrite Hx. symmetry. now apply lookup_total_app_l.
Qed.

Lemma refresh_client_list_store : stable (same_on store) refresh_client_list.
Proof.
  unfold refresh_client_list, show_client. repeat stable_step; reflexivity.
Qed.

Lemma load_appointments_store : stable (same_on store) load_appointments.
Proof.
  unfold load_appointments, list_appointment. repeat stable_step; reflexivity.
Qed.

Lemma restorable_store (w w' : world) :
  store w' = store w -> restorable w -> restorable w'.
Proof.
  unfold store, restorable, records, deref.
  intros [= -> -> -> -> ->]. exact id.
Qed.

Lemma store_records_ok (w : world) : store_okb w = true -> records_ok w.
Proof.
  intros H. destruct (store_okb_items w H) as (_ & _ & _ & _ & _ & Hr).
  rewrite records_snd, forallb_forall in Hr.
  unfold records_ok, values. rewrite Forall_map. apply Forall_forall.
  intros [k l] Hin. apply Hr. apply in_map_iff. exists (k, l).
  split; [reflexivity|]. now apply list_elem_of_In.
Qed.

Lemma saved_restorable (w1 w' : world) :
  store_okb w1 = true -> save_data w1 = (Ok tt, w') -> restorable w'.
Proof.
  intros S H.
  destruct (store_round_trip w1 S) as (wa & wb & H1 & H2 & H3 & H4 & _).
  rewrite H in H1. injection H1 as <-.
  destruct (save_data_kept w1) as (x & cf & af & E).
  rewrite H in E. cbn [snd] in E.
  assert (Ec : clients w' = clients w1) by (rewrite E; reflexivity).
  assert (Er : records w' = records w1).
  { apply (records_grown w1 w' x); [rewrite E; reflexivity .. |].
    now apply store_records_ok. }
  exists wb. rewrite Ec, Er. auto.
Qed.

Lemma init_restorable (cf af : option file) (w : world) :
  file_ok af -> init (boot cf af) = (Ok tt, w) -> restorable w.
Proof.
  intros Haf H. unfold init in H.
  apply bind_ok in H. destruct H as ([] & w1 & H1 & H).
  rewrite !bind_update in H.
  assert (Es : store w = store w1).
  { rewrite (snd_eq _ _ _ _ H).
    exact (refresh_client_list_store
             (set_filter false None None (set_current_client_id None w1))). }
  assert (Ef : (clients_file w1, appts_file w1) = (cf, af)).
  { assert (S : stable (same_on (fun w => (clients_file w, appts_file w)))
                  load_data).
    { unfold load_data, load_clients, update_item, load_appointments_file,
        load_appointment, update_counters, set_item, get_item.
      stable_steps; reflexivity. }
    pose proof (S (boot cf af)) as E. rewrite H1 in E. exact E. }
  apply (restorable_store w1); [exact Es|].
  unfold restorable. injection Ef as -> ->. exists w1. split; [exact H1|]. split; [reflexivity|].
  pose proof (load_data_whole _ _ _ Haf H1) as Hw.
  rewrite <- (map_id (records w1)) at 1. apply map_ext_Forall.
  unfold records. rewrite Forall_map.
  unfold records_whole, values in Hw. rewrite Forall_map in Hw.
  eapply Forall_impl; [exact Hw|]. intros [k l] [Hl Hn]. cbn [fst snd] in *.
  now rewrite whole_seconds_same.
Qed.

Lemma other_actions_store (a : action) :
  match a with
  | OpenClient _ | GoBack | ApplyFilter _ _ | ClearFilter =>
      stable (same_on store) (perform a)
  | _ => True
  end.
Proof.
  destruct a; cbn [perform]; try exact I;
    unfold open_client_appointments, go_back_to_clients, apply_date_filter,
      clear_date_filter;
    repeat stable_step;
    auto using refresh_client_list_store, load_appointments_store;
    reflexivity.
Qed.

Lemma perform_restorable (a : action) (w w' : world) :
  reachable w -> action_ok a -> perform a w = (Ok tt, w') ->
  restorable w -> restorable w'.
Proof.
  intros Hr Ha H Hres.
  assert (Hr' : reachable w') by (now apply (reach_step w a)).
  destruct (reachable_invariant w' Hr') as [Hids' _].
  destruct (reachable_memory w Hr) as [Mc Mr].
  destruct a as [name phone email | name | | from to | | ts te d s e r i];
    cbn [perform] in H.
  - unfold add_client in H. destruct (String.eqb (strip name) "").
    + injection H as <-. exact Hres.
    + rewrite bind_get, !bind_update in H.
      apply bind_ok in H. destruct H as ([] & w1 & H1 & H).
      apply (saved_restorable w1 w'); [|exact H].
      apply ids_memory_store.
      * apply (ids_ok_core w'); [|exact Hids'].
        rewrite (snd_eq _ _ _ _ H). symmetry. apply save_data_core.
      * destruct (refresh_client_list_lines _ _ H1) as [_ (items & ->)].
        split; [|exact Mr].
        cbn [clients set_client_list set_clients set_client_counter].
        now apply serializable_dict_set.
  - rewrite (snd_eq _ _ _ _ H).
    apply (restorable_store w); [|exact Hres].
    apply (other_actions_store (OpenClient name)).
  - rewrite (snd_eq _ _ _ _ H).
    apply (restorable_store w); [|exact Hres].
    apply (other_actions_store GoBack).
  - rewrite (snd_eq _ _ _ _ H).
    apply (restorable_store w); [|exact Hres].
    apply (other_actions_store (ApplyFilter from to)).
  - rewrite (snd_eq _ _ _ _ H).
    apply (restorable_store w); [|exact Hres].
    apply (other_actions_store ClearFilter).
  - destruct Ha as [Hs He]. unfold add_appointment in H.
    rewrite bind_get in H.
    destruct (selected (current_client_id w)) as [cid |].
    2: { injection H as <-. exact Hres. }
    rewrite bind_attempt in H.
    destruct (calculate_duration_minutes ts te s e) as [dur | x];
      [|discriminate].
    rewrite bind_attempt in H.
    destruct (calculate_cost dur r i) as [cost | x]; [|discriminate].
    rewrite bind_get, bind_update in H.
    unfold mbind at 1, new_object, alloc in H. rewrite bind_update in H.
    apply bind_ok in H. destruct H as ([] & w1 & H1 & H).
    apply (saved_restorable w1 w'); [|exact H].
    apply ids_memory_store.
    + apply (ids_ok_core w'); [|exact Hids'].
      rewrite (snd_eq _ _ _ _ H). symmetry. apply save_data_core.
    + rewrite (snd_eq _ _ _ _ H1).
      apply (grown_memory_ok _ _ (load_appointments_grown _)).
      split; [exact Mc|].
      set (w0 := set_appointment_counter (appointment_counter w + 1) w).
      apply (records_ok_insert w0); [exact Mr|].
      unfold record_okb. cbn [dict_get String.eqb Ascii.eqb Bool.eqb].
      rewrite (time_ok_okb s Hs), (time_ok_okb e He). reflexivity.
Qed.

Lemma reachable_restorable (w : world) : reachable w -> restorable w.
Proof.
  induction 1 as [cf af w _ Haf H | w a w' Hr IH Ha H].
  - now apply init_restorable with cf af.
  - now apply perform_restorable with a w.
Qed.

(** In every state of the window the two files hold what the memory
    holds: a new process that reads them has the same clients and the same
    appointment records, the times to the second.  Nothing that was
    entered is waiting to be written. *)
Theorem files_hold_memory (w : world) :
  reachable w ->
  exists w2,
    load_data (boot (clients_file w) (appts_file w)) = (Ok tt, w2) /\
    clients w2 = clients w /\
    records w2 = map (fun kd => (fst kd, whole_seconds (snd kd))) (records w).
Proof. exact (reachable_restorable w). Qed.

Lemma files_hold_memory_witness :
  clients (snd (load_data (boot (clients_file two_appointments)
                                (appts_file two_appointments))))
  = clients two_appointments.
Proof.
  destruct (files_hold_memory two_appointments two_appointments_reachable)
    as (w2 & H & Hc & _).
  rewrite H. exact Hc.
Defined.

(** ** Opening a client from its line *)

Lemma no_bullet_ahead (n rest : list ascii) :
  occurs bullet n = false ->
  rest = [] \/ (exists x, rest = separator ++ x) ->
  prefixb (bullet ++ [" "%char]) (n ++ rest) = false.
Proof.
  intros Hn Hrest.
  assert (Hr : rest = [] \/ exists x, rest = " "%char :: x).
  { destruct Hrest as [-> | [x ->]]; [now left | right; eexists; reflexivity]. }
  clear Hrest.
  destruct n as [| a [| b [| c n]]]; cbn [app].
  - destruct Hr as [-> | [x ->]]; reflexivity.
  - cbn [bullet app prefixb].
    destruct Hr as [-> | [x ->]]; cbn; apply andb_false_r.
  - cbn [bullet app prefixb].
    destruct Hr as [-> | [x ->]]; cbn; now rewrite !andb_false_r.
  - cbn [occurs] in Hn. apply orb_false_iff in Hn. destruct Hn as [Hn _].
    cbn [bullet app prefixb] in *. rewrite andb_true_r in Hn.
    destruct (Ascii.eqb "226" a); [|reflexivity].
    destruct (Ascii.eqb "128" b); [|reflexivity].
    destruct (Ascii.eqb "162" c); [discriminate | reflexivity].
Qed.

Lemma occurs_tail (p : list ascii) (c : ascii) (l : list ascii) :
  occurs p (c :: l) = false -> occurs p l = false.
Proof. cbn [occurs]. intros H. now apply orb_false_iff in H. Qed.

Lemma before_name (n rest : list ascii) :
  occurs bullet n = false ->
  rest = [] \/ (exists x, rest = separator ++ x) ->
  before separator (n ++ rest) = n.
Proof.
  intros Hn Hrest. induction n as [| c n IH]; cbn [app].
  - destruct Hrest as [-> | [x ->]]; reflexivity.
  - cbn [before]. unfold separator at 1. cbn [prefixb].
    rewrite (no_bullet_ahead n rest (occurs_tail _ _ _ Hn) Hrest).
    rewrite andb_false_r. f_equal. apply IH. now apply occurs_tail with c.
Qed.

Lemma first_field_item (other : pyval -> string) (item : client_item) :
  occurs bullet (list_ascii_of_string (fst (fst item))) = false ->
  first_field (item_text other item) = fst (fst item).
Proof.
  destruct item as [[n phone] email]. cbn [fst]. intros Hn.
  unfold first_field, item_text.
  assert (E : forall rest,
             rest = [] \/ (exists x, rest = separator ++ x) ->
             string_of_list_ascii
               (before separator (list_ascii_of_string n ++ rest)) = n).
  { intros rest Hrest. rewrite (before_name _ rest Hn Hrest).
    apply string_of_list_ascii_of_string. }
  destruct phone as [p |]; destruct email as [e |];
    rewrite ?list_ascii_app, ?list_ascii_of_string_of_list_ascii.
  - rewrite <- !app_assoc. apply E. right. eexists. reflexivity.
  - apply E. right. eexists. reflexivity.
  - apply E. right. eexists. reflexivity.
  - rewrite <- (app_nil_r (list_ascii_of_string n)). apply E. now left.
Qed.

Lemma find_client_line (cs : pydict) (ls : list (list client_item))
    (item : client_item) :
  map (fun kv => lines_of (snd kv)) cs = map Some ls -> In item (concat ls) ->
  exists cid, find_client cs (fst (fst item)) = Ok (Some cid).
Proof.
  revert ls. induction cs as [| [k data] cs IH]; intros [| items ls] H Hin;
    try discriminate; try contradiction.
  cbn [map snd] in H. injection H as Hl Hm.
  destruct data as [| | | | | | | d]; try discriminate. cbn [lines_of] in Hl.
  cbn [find_client subscript]. unfold dict_item.
  destruct (dict_get d "name") as [[| | | | n | | |] |] eqn:G;
    try discriminate; cbn [bind is_str].
  - destruct (shown d "phone"); [discriminate|].
    destruct (shown d "email"); [discriminate|].
    injection Hl as <-. now apply (IH ls).
  - injection Hl as <-.
    destruct (String.eqb n (fst (fst item))) eqn:E; [eauto|].
    cbn [concat app] in Hin. destruct Hin as [<- | Hin].
    + cbn in E. now rewrite String.eqb_refl in E.
    + now apply (IH ls).
Qed.

Lemma open_client_selects (name cid : string) (w : world) :
  find_client (clients w) name = Ok (Some cid) ->
  current_client_id (snd (open_client_appointments name w)) = Some cid.
Proof.
  intros H. unfold open_client_appointments.
  rewrite bind_lift, H, bind_update.
  assert (Htail : stable (same_on core)
            (do* cur := get current_client_id in
             match selected cur with
             | Some _ => load_appointments ;; update (set_current_page AppointmentsPage)
             | None => ret tt
             end)).
  { repeat stable_step; auto using load_appointments_core; reflexivity. }
  pose proof (Htail (set_current_client_id (Some cid) w)) as E.
  unfold same_on, core in E. now injection E.
Qed.

(** In every state of the window, a double click on a line of the client
    list whose name has no bullet in it selects the first client of that
    name: the text of the line up to its first separator is the name. *)
Theorem open_item_selects (other : pyval -> string) (w : world)
    (item : client_item) :
  reachable w -> In item (client_list w) ->
  occurs bullet (list_ascii_of_string (fst (fst item))) = false ->
  exists cid before d after,
    current_client_id (snd (open_item other item w)) = Some cid /\
    clients w = before ++ (cid, VDict d) :: after /\
    dict_get d "name" = Some (VStr (fst (fst item))) /\
    Forall (fun kv => forall d', snd kv = VDict d' ->
                      dict_get d' "name" <> Some (VStr (fst (fst item))))
           before.
Proof.
  intros Hr Hin Hn. unfold open_item.
  rewrite (first_field_item other item Hn).
  destruct (reachable_list_shown w Hr) as (ls & Hm & Hc).
  rewrite Hc in Hin.
  destruct (find_client_line _ _ item Hm Hin) as (cid & Hf).
  destruct (find_client_first _ _ _ Hf) as (b & d & a & H1 & H2 & H3).
  exists cid, b, d, a. split; [|auto]. now apply open_client_selects.
Qed.

Lemma open_item_selects_witness :
  current_client_id
    (snd (open_item (fun _ => EmptyString)
            ("Ann"%string, Some (VStr "555"), None) one_client))
  = Some "c1"%string.
Proof.
  destruct (open_item_selects (fun _ => EmptyString) one_client
              ("Ann"%string, Some (VStr "555"), None) one_client_reachable)
    as (cid & b & d & a & H & _).
  - vm_compute. left. reflexivity.
  - vm_compute. reflexivity.
  - rewrite H. f_equal. vm_compute in H. now injection H.
Defined.

(** ** Dates as text *)

Lemma digit_char_date (a : Z) :
  0 <= a <= 9 ->
  digit_val (digit_char a) = Some a /\ Ascii.eqb (digit_char a) "-" = false /\
  forall r, day_field (digit_char a :: r) = field 1 2 (digit_char a :: r).
Proof.
  intros H.
  assert (a = 0 \/ a = 1 \/ a = 2 \/ a = 3 \/ a = 4 \/ a = 5 \/ a = 6 \/
          a = 7 \/ a = 8 \/ a = 9) as Hc by lia.
  repeat (destruct Hc as [-> | Hc]); try subst a; repeat split; reflexivity.
Qed.

Lemma decimal_digits (n : Z) :
  0 <= n <= 9999 ->
  0 <= n / 1000 <= 9 /\ 0 <= n / 100 mod 10 <= 9 /\
  0 <= n mod 100 / 10 <= 9 /\ 0 <= n mod 100 mod 10 <= 9 /\
  ((n / 1000 * 10 + n / 100 mod 10) * 10 + n mod 100 / 10) * 10
    + n mod 100 mod 10 = n.
Proof.
  intros Hn.
  pose proof (Z.div_mod n 100 ltac:(lia)).
  pose proof (Z.mod_pos_bound n 100 ltac:(lia)).
  pose proof (Z.div_mod (n / 100) 10 ltac:(lia)).
  pose proof (Z.mod_pos_bound (n / 100) 10 ltac:(lia)).
  pose proof (Z.div_mod (n mod 100) 10 ltac:(lia)).
  pose proof (Z.mod_pos_bound (n mod 100) 10 ltac:(lia)).
  assert (E : n / 1000 = n / 100 / 10)
    by (rewrite Z.div_div by lia; reflexivity).
  assert (0 <= n / 100 < 100)
    by (split; [apply Z.div_pos | apply Z.div_lt_upper_bound]; lia).
  assert (0 <= n / 100 / 10 < 10)
    by (split; [apply Z.div_pos | apply Z.div_lt_upper_bound]; lia).
  assert (0 <= n mod 100 / 10 < 10)
    by (split; [apply Z.div_pos | apply Z.div_lt_upper_bound]; lia).
  rewrite E. lia.
Qed.

Lemma parse_date_format_date (d : date) :
  date_okb d = true -> parse_date (format_date d) = Ok d.
Proof.
  intros Hok. pose proof Hok as Hb. unfold date_okb in Hb.
  rewrite !andb_true_iff, !Z.leb_le in Hb.
  destruct Hb as [[[[[Hy1 Hy2] Hm1] Hm2] Hd1] Hd2].
  assert (Hd3 : day d <= 31).
  { unfold days_in_month in Hd2.
    destruct (month d =? 2); [destruct (is_leap (year d)); lia|].
    destruct ((month d =? 4) || (month d =? 6) || (month d =? 9)
              || (month d =? 11)); lia. }
  destruct (decimal_digits (year d) ltac:(lia)) as (Y1 & Y2 & Y3 & Y4 & Y).
  destruct (decimal_digits (month d) ltac:(lia)) as (_ & _ & M3 & M4 & M).
  destruct (decimal_digits (day d) ltac:(lia)) as (_ & _ & D3 & D4 & D).
  assert (Em : month d mod 100 = month d) by (apply Z.mod_small; lia).
  assert (Ed : day d mod 100 = day d) by (apply Z.mod_small; lia).
  rewrite Em in *. rewrite Ed in *.
  assert (M' : month d / 10 * 10 + month d mod 10 = month d).
  { pose proof (Z.div_mod (month d) 10 ltac:(lia)). lia. }
  assert (D' : day d / 10 * 10 + day d mod 10 = day d).
  { pose proof (Z.div_mod (day d) 10 ltac:(lia)). lia. }
  unfold parse_date, format_date. rewrite !list_ascii_app.
  unfold pad4, pad2. cbn [list_ascii_of_string app].
  destruct (digit_char_date _ Y1) as (V1 & S1 & _).
  destruct (digit_char_date _ Y2) as (V2 & S2 & _).
  destruct (digit_char_date _ Y3) as (V3 & S3 & _).
  destruct (digit_char_date _ Y4) as (V4 & S4 & _).
  destruct (digit_char_date _ M3) as (V5 & S5 & _).
  destruct (digit_char_date _ M4) as (V6 & S6 & _).
  destruct (digit_char_date _ D3) as (V7 & S7 & F7).
  destruct (digit_char_date _ D4) as (V8 & S8 & _).
  cbn [split_on]. rewrite S1, S2, S3, S4, S5, S6, S7, S8.
  change (Ascii.eqb "-" "-") with true. cbv iota.
  rewrite F7. rewrite !field_two_digits by assumption.
  unfold field. cbn [length Nat.leb andb digits_val].
  rewrite V1, V2, V3, V4. cbn [Z.mul Z.add]. rewrite M', D'.
  replace ((((0 * 10 + year d / 1000) * 10 + year d / 100 mod 10) * 10
            + year d mod 100 / 10) * 10 + year d mod 100 mod 10)
    with (year d) by lia.
  replace (mk_date (year d) (month d) (day d)) with d by (destruct d; reflexivity).
  now rewrite Hok.
Qed.

(** The text that the date input gives for a date of the years 1 to 9999
    is read back by the date filter as that date. *)
Theorem date_text_round_trip (d : date) :
  date_okb d = true -> parse_date (format_date d) = Ok d.
Proof. exact (parse_date_format_date d). Qed.

Lemma date_text_round_trip_witness :
  parse_date (format_date (mk_date 2024 2 29)) = Ok (mk_date 2024 2 29).
Proof. apply date_text_round_trip. vm_compute. reflexivity. Defined.

(** ** The appointment list without a date filter *)

Lemma listable_items (appt : pydict) :
  listable appt = true ->
  (exists c, dict_get appt "client_id" = Some c) /\
  (exists d, dict_get appt "date" = Some d) /\
  (exists t, dict_get appt "start" = Some (VTime t)) /\
  (exists t, dict_get appt "end" = Some (VTime t)) /\
  (exists n, dict_get appt "duration" = Some (VInt n)) /\
  (exists f, dict_get appt "cost" = Some (VFloat f)).
Proof.
  unfold listable.
  destruct (dict_get appt "client_id") as [c|]; [|discriminate].
  destruct (dict_get appt "date") as [d|]; [|discriminate].
  destruct (dict_get appt "start") as [[| | | | | t1 | |]|]; try discriminate.
  destruct (dict_get appt "end") as [[| | | | | t2 | |]|]; try discriminate.
  destruct (dict_get appt "duration") as [[| | n | | | | |]|]; try discriminate.
  destruct (dict_get appt "cost") as [[| | | f | | | |]|]; try discriminate.
  intros _. repeat split; eauto.
Qed.

Lemma appt_okb_listable (appt : pydict) :
  appt_okb appt = true -> listable appt = true.
Proof.
  intros H. apply appt_okb_items in H.
  destruct H as ((c & Hc) & (s & d & Hd & _) & (t1 & H1) & (t2 & H2) &
                 (m & Hm) & (f & Hf)).
  unfold listable. now rewrite Hc, Hd, H1, H2, Hm, Hf.
Qed.

Lemma list_appointment_unfiltered (cid : string) (l : nat)
    (n ds : Z) (cs : float) (w : world) :
  date_filter_active w = false -> listable (deref w l) = true ->
  let appt := deref w l in
  if of_client cid appt then
    exists r, render_row appt = Ok r /\
      list_appointment cid l (n, VInt ds, VFloat cs) w
      = (Ok (n + 1, VInt (ds + duration_of appt),
             VFloat (Float64.add cs (cost_of appt))),
         set_appt_list (appt_list w ++ [r]) w)
  else
    list_appointment cid l (n, VInt ds, VFloat cs) w
    = (Ok (n, VInt ds, VFloat cs), w).
Proof.
  intros Ha Hok. apply listable_items in Hok.
  destruct Hok as ((c & Hc) & (d & Hd) & (t1 & H1) & (t2 & H2) &
                   (m & Hm) & (f & Hcost)).
  cbv zeta. unfold of_client, list_appointment, duration_of, cost_of.
  rewrite bind_get, bind_attempt. unfold dict_item. rewrite Hc.
  destruct (is_str c cid); [|reflexivity].
  rewrite bind_lift. unfold filtered_out. rewrite Ha.
  unfold render_row, dict_item. rewrite H1, H2, Hm, Hcost, Hd.
  cbn [bind strftime12 format_fixed]. eexists. split; [reflexivity|].
  rewrite bind_attempt, bind_update. cbn [row_duration row_cost].
  rewrite !bind_attempt. reflexivity.
Qed.

Lemma list_appointments_unfiltered_loop (cid : string) (ls : list nat) :
  forall (n ds : Z) (cs : float) (w : world),
    date_filter_active w = false ->
    Forall (fun a => listable a = true) (map (deref w) ls) ->
    let sel := List.filter (of_client cid) (map (deref w) ls) in
    exists rows,
      Forall2 (fun a r => render_row a = Ok r) sel rows /\
      fold_each ls (n, VInt ds, VFloat cs) (list_appointment cid) w
      = (Ok (n + Z.of_nat (length sel),
             VInt (fold_left (fun acc a => acc + duration_of a) sel ds),
             VFloat (fold_left (fun acc a => Float64.add acc (cost_of a)) sel cs)),
         set_appt_list (appt_list w ++ rows) w).
Proof.
  induction ls as [| l ls IH]; intros n ds cs w Ha Hok; cbv zeta.
  - exists []. split; [constructor|]. cbn. rewrite Z.add_0_r, app_nil_r.
    destruct w; reflexivity.
  - cbn [map] in Hok. inversion Hok as [| ? ? Hl Hls]; subst.
    pose proof (list_appointment_unfiltered cid l n ds cs w Ha Hl) as Hs.
    cbv zeta in Hs. cbn [map fold_each List.filter].
    unfold mbind at 1.
    destruct (of_client cid (deref w l)) eqn:E.
    + destruct Hs as (r & Hr & ->).
      destruct (IH (n + 1) (ds + duration_of (deref w l))
                  (Float64.add cs (cost_of (deref w l)))
                  (set_appt_list (appt_list w ++ [r]) w) Ha Hls)
        as (rows & Hrows & Heq).
      exists (r :: rows). split; [now constructor|].
      change (map (deref (set_appt_list (appt_list w ++ [r]) w)) ls)
        with (map (deref w) ls) in Heq.
      rewrite Heq. cbn [length fold_left appt_list set_appt_list].
      rewrite set_appt_list_twice, <- app_assoc. cbn [app].
      rewrite Nat2Z.inj_succ, <- Z.add_1_l, Z.add_assoc. reflexivity.
    + rewrite Hs. now apply IH.
Qed.

Lemma load_appointments_run (w : world) (cid : string) (c name : pyval)
    (n ds : Z) (cs : float) (rows : list row) :
  selected (current_client_id w) = Some cid ->
  dict_get (clients w) cid = Some c -> subscript c "name" = Ok name ->
  fold_each (values (appointments w)) (0, VInt 0, VFloat Float64.zero)
    (list_appointment cid) (set_client_label (Some name) (set_appt_list [] w))
  = (Ok (n, VInt ds, VFloat cs),
     set_appt_list rows (set_client_label (Some name) w)) ->
  load_appointments w
  = (Ok tt,
     set_totals (VInt n) (VInt ds) (VFloat cs)
       (set_appt_list rows (set_client_label (Some name) w))).
Proof.
  intros Hsel Hc Hname Hloop.
  unfold load_appointments. rewrite bind_update, bind_get.
  change (current_client_id (set_appt_list [] w)) with (current_client_id w).
  rewrite Hsel, bind_lift.
  change (clients (set_appt_list [] w)) with (clients w).
  unfold dict_item. rewrite Hc, bind_attempt, Hname, bind_update, bind_get.
  change (appointments (set_client_label (Some name) (set_appt_list [] w)))
    with (appointments w).
  unfold mbind at 1. rewrite Hloop. reflexivity.
Qed.

Lemma records_values (w : world) :
  map snd (records w) = map (deref w) (values (appointments w)).
Proof. unfold records, values. rewrite !map_map. reflexivity. Qed.

Lemma load_appointments_unfiltered (w : world) (cid : string)
    (c name : pyval) :
  selected (current_client_id w) = Some cid ->
  dict_get (clients w) cid = Some c -> subscript c "name" = Ok name ->
  date_filter_active w = false ->
  forallb listable (map snd (records w)) = true ->
  let sel := List.filter (of_client cid) (map snd (records w)) in
  exists rows,
    load_appointments w
    = (Ok tt,
       set_totals (VInt (Z.of_nat (length sel))) (VInt (sum_durations sel))
         (VFloat (sum_costs sel))
         (set_appt_list rows (set_client_label (Some name) w))) /\
    Forall2 (fun a r => render_row a = Ok r) sel rows.
Proof.
  intros Hsel Hc Hname Ha Hok. cbv zeta.
  assert (Hok' : Forall (fun a => listable a = true) (map snd (records w))).
  { apply Forall_forall. intros a Hin. apply list_elem_of_In in Hin.
    exact (proj1 (forallb_forall _ _) Hok a Hin). }
  rewrite records_values in *.
  set (w1 := set_client_label (Some name) (set_appt_list [] w)).
  destruct (list_appointments_unfiltered_loop cid (values (appointments w))
              0 0 Float64.zero w1 Ha Hok') as (rows & Hrows & Hloop).
  cbv zeta in Hloop.
  change (map (deref w1) (values (appointments w)))
    with (map (deref w) (values (appointments w))) in Hloop.
  exists rows. split; [|exact Hrows].
  apply (load_appointments_run w cid c name); assumption.
Qed.

(** [clear_date_filter] with a client selected: whatever filter was set,
    the list then shows every record of the client, whatever its date (the
    date is not read), in the order of the dict, and the totals are the
    number of these records, the sum of their durations and the sum of
    their costs; the filter is off and its two dates are gone. *)
Theorem clear_date_filter_lists_all (w : world) (cid : string)
    (c name : pyval) :
  selected (current_client_id w) = Some cid ->
  dict_get (clients w) cid = Some c -> subscript c "name" = Ok name ->
  forallb listable (map snd (records w)) = true ->
  let sel := List.filter (of_client cid) (map snd (records w)) in
  exists rows,
    clear_date_filter w
    = (Ok tt,
       set_totals (VInt (Z.of_nat (length sel))) (VInt (sum_durations sel))
         (VFloat (sum_costs sel))
         (set_appt_list rows
            (set_client_label (Some name) (set_filter false None None w)))) /\
    Forall2 (fun a r => render_row a = Ok r) sel rows.
Proof.
  intros Hsel Hc Hname Hok. cbv zeta.
  unfold clear_date_filter. rewrite bind_update.
  apply (load_appointments_unfiltered (set_filter false None None w) cid c name);
    try assumption; reflexivity.
Qed.

Lemma clear_date_filter_lists_all_witness :
  total_appointments_label (snd (clear_date_filter filtered)) = VInt 2.
Proof.
  destruct (clear_date_filter_lists_all filtered "c1"
              (VDict [("name", VStr "Ann"); ("phone", VStr "555");
                      ("email", VStr "")]%string)
              (VStr "Ann")) as (rows & Heq & _).
  - vm_compute. reflexivity.
  - vm_compute. reflexivity.
  - vm_compute. reflexivity.
  - vm_compute. reflexivity.
  - rewrite Heq. vm_compute. reflexivity.
Defined.

(** ** A date range that is refused *)

Lemma date_range_empty (from to d : date) :
  date_ltb to from = true -> date_leb from d && date_leb d to = false.
Proof.
  unfold date_leb, date_ltb. intros H.
  repeat match goal with
         | H : context [?x <? ?y] |- _ => destruct (Z.ltb_spec x y)
         | |- context [?x <? ?y] => destruct (Z.ltb_spec x y)
         end; try reflexivity; try discriminate; lia.
Qed.

Lemma in_range_empty (cid : string) (from to : date) (appt : pydict) :
  date_ltb to from = true -> in_range cid from to appt = false.
Proof.
  intros H. unfold in_range.
  destruct (dict_get appt "client_id") as [c |]; [|reflexivity].
  destruct (dict_get appt "date") as [[| | | | s | | |] |]; try reflexivity.
  destruct (parse_date s) as [d | e]; [|apply andb_false_r].
  rewrite (date_range_empty from to d H). apply andb_false_r.
Qed.

Lemma filter_none {A : Type} (f : A -> bool) (l : list A) :
  (forall a, f a = false) -> List.filter f l = [].
Proof.
  intros H. induction l as [| a l IH]; cbn; [reflexivity|]. now rewrite H.
Qed.

(** [apply_date_filter] with a From date after the To date shows the
    warning and does not touch the list or the switch of the filter, but
    the two dates have already taken the place of the bounds: when a
    filter was active, the next [load_appointments] (the one that
    [add_appointment] makes, for instance) lists no appointment. *)
Theorem apply_date_filter_rejected (w : world) (from to : date) (cid : string)
    (c name : pyval) :
  date_ltb to from = true ->
  let w' := add_warning "From date must be before or equal to To date"
              (set_filter (date_filter_active w) (Some from) (Some to) w) in
  apply_date_filter from to w = (Ok tt, w') /\
  (date_filter_active w = true ->
   selected (current_client_id w) = Some cid ->
   dict_get (clients w) cid = Some c -> subscript c "name" = Ok name ->
   forallb appt_okb (map snd (records w)) = true ->
   load_appointments w'
   = (Ok tt,
      set_totals (VInt 0) (VInt 0) (VFloat Float64.zero)
        (set_appt_list [] (set_client_label (Some name) w')))).
Proof.
  intros Hlt. cbv zeta. split.
  - unfold apply_date_filter. rewrite bind_update, Hlt. reflexivity.
  - intros Ha Hsel Hc Hname Hok.
    set (w' := add_warning _ _).
    assert (Hok' : Forall appt_ok (map snd (records w))).
    { apply Forall_forall. intros a Hin. apply list_elem_of_In in Hin.
      exact (proj1 (forallb_forall _ _) Hok a Hin). }
    rewrite records_values in Hok'.
    set (w1 := set_client_label (Some name) (set_appt_list [] w')).
    destruct (list_appointments_loop cid from to (values (appointments w))
                0 0 Float64.zero w1) as (rows & Hrows & Hloop);
      [exact Ha | reflexivity | reflexivity | exact Hok' |].
    cbv zeta in Hloop, Hrows.
    rewrite (filter_none _ _ (fun a => in_range_empty cid from to a Hlt))
      in Hloop, Hrows.
    inversion Hrows; subst.
    apply (load_appointments_run w' cid c name); try assumption.
Qed.

Lemma apply_date_filter_rejected_witness :
  appt_list (snd (load_appointments
                    (snd (apply_date_filter (mk_date 2024 3 6)
                            (mk_date 2024 3 1) filtered))))
  = [].
Proof.
  destruct (apply_date_filter_rejected filtered (mk_date 2024 3 6)
              (mk_date 2024 3 1) "c1"
              (VDict [("name", VStr "Ann"); ("phone", VStr "555");
                      ("email", VStr "")]%string)
              (VStr "Ann")) as [H1 H2].
  - vm_compute. reflexivity.
  - rewrite H1. cbn [snd]. rewrite H2.
    + reflexivity.
    + vm_compute. reflexivity.
    + vm_compute. reflexivity.
    + vm_compute. reflexivity.
    + vm_compute. reflexivity.
    + vm_compute. reflexivity.
Defined.

(** ** Adding an appointment *)

Lemma filter_ok_same (w w' : world) :
  filter_state w' = filter_state w -> filter_ok w -> filter_ok w'.
Proof. unfold filter_state, filter_ok. intros [= -> -> ->]. exact id. Qed.

Lemma load_appointments_filter : stable (same_on filter_state) load_appointments.
Proof.
  unfold load_appointments, list_appointment. repeat stable_step; reflexivity.
Qed.

Lemma refresh_client_list_filter :
  stable (same_on filter_state) refresh_client_list.
Proof.
  unfold refresh_client_list, show_client. repeat stable_step; reflexivity.
Qed.

Lemma save_data_filter : stable (same_on filter_state) save_data.
Proof.
  apply (stable_weaken kept); [|exact save_data_kept].
  intros w w' (x & cf & af & ->). destruct w; reflexivity.
Qed.

Lemma perform_filter_ok (a : action) (w : world) :
  filter_ok w -> filter_ok (snd (perform a w)).
Proof.
  intros Hf.
  destruct a as [name phone email | name | | from to | | ts te d s e r i];
    cbn [perform].
  - apply (filter_ok_same w); [|exact Hf]. generalize w.
    change (stable (same_on filter_state) (add_client name phone email)).
    unfold add_client. repeat stable_step;
      auto using refresh_client_list_filter, save_data_filter; reflexivity.
  - apply (filter_ok_same w); [|exact Hf]. generalize w.
    change (stable (same_on filter_state) (open_client_appointments name)).
    unfold open_client_appointments. repeat stable_step;
      auto using load_appointments_filter; reflexivity.
  - apply (filter_ok_same w); [|exact Hf]. generalize w.
    change (stable (same_on filter_state) go_back_to_clients).
    unfold go_back_to_clients. repeat stable_step;
      auto using refresh_client_list_filter; reflexivity.
  - unfold apply_date_filter. rewrite bind_update.
    destruct (date_ltb to from).
    + intros _. now exists from, to.
    + rewrite bind_update.
      pose proof (load_appointments_filter
                    (set_filter true (Some from) (Some to)
                       (set_filter (date_filter_active w) (Some from)
                          (Some to) w))) as E.
      unfold same_on, filter_state in E. injection E as _ E2 E3.
      intros _. exists from, to. cbn in E2, E3 |- *. split; assumption.
  - unfold clear_date_filter. rewrite bind_update.
    pose proof (load_appointments_filter (set_filter false None None w)) as E.
    unfold same_on, filter_state in E. injection E as E1 _ _.
    intros H. rewrite E1 in H. discriminate H.
  - apply (filter_ok_same w); [|exact Hf]. generalize w.
    change (stable (same_on filter_state) (add_appointment ts te d s e r i)).
    unfold add_appointment. stable_steps;
      auto using load_appointments_filter, save_data_filter; reflexivity.
Qed.

Lemma reachable_filter_ok (w : world) : reachable w -> filter_ok w.
Proof.
  induction 1 as [cf af w _ _ H | w a w' _ IH _ H].
  - unfold init in H. apply bind_ok in H. destruct H as ([] & w1 & _ & H).
    rewrite !bind_update in H. rewrite (snd_eq _ _ _ _ H).
    pose proof (refresh_client_list_filter
                  (set_filter false None None
                     (set_current_client_id None w1))) as E.
    unfold same_on, filter_state in E. injection E as E1 _ _.
    intros Ha. rewrite E1 in Ha. discriminate Ha.
  - rewrite (snd_eq _ _ _ _ H). now apply perform_filter_ok.
Qed.

Lemma load_appointments_ok (w : world) (cid : string) (c name : pyval) :
  selected (current_client_id w) = Some cid ->
  dict_get (clients w) cid = Some c -> subscript c "name" = Ok name ->
  filter_ok w -> forallb appt_okb (map snd (records w)) = true ->
  exists n ds cs rows,
    load_appointments w
    = (Ok tt,
       set_totals (VInt n) (VInt ds) (VFloat cs)
         (set_appt_list rows (set_client_label (Some name) w))).
Proof.
  intros Hsel Hc Hname Hf Hok.
  assert (Hok' : Forall appt_ok (map snd (records w))).
  { apply Forall_forall. intros a Hin. apply list_elem_of_In in Hin.
    exact (proj1 (forallb_forall _ _) Hok a Hin). }
  rewrite records_values in Hok'.
  set (w1 := set_client_label (Some name) (set_appt_list [] w)).
  destruct (date_filter_active w) eqn:Ha.
  - destruct (Hf Ha) as (from & to & Hfrom & Hto).
    destruct (list_appointments_loop cid from to (values (appointments w))
                0 0 Float64.zero w1 Ha Hfrom Hto Hok')
      as (rows & _ & Hloop).
    cbv zeta in Hloop. do 3 eexists. exists rows.
    apply (load_appointments_run w cid c name); try assumption.
    exact Hloop.
  - destruct (list_appointments_unfiltered_loop cid (values (appointments w))
                0 0 Float64.zero w1 Ha) as (rows & _ & Hloop).
    { eapply Forall_impl; [exact Hok'|]. intros a.
      apply appt_okb_listable. }
    cbv zeta in Hloop. do 3 eexists. exists rows.
    apply (load_appointments_run w cid c name); try assumption.
    exact Hloop.
Qed.

Lemma calculate_cost_form (dur : Z) (r : float) (i : Z) :
  0 <= dur <= 1439 -> 1 <= i <= 60 ->
  exists cost, calculate_cost dur r i = Ok cost.
Proof.
  intros Hd Hi. unfold calculate_cost.
  destruct (rounded_minutes_bound dur i ltac:(lia)) as (b & -> & Hb).
  cbn [bind].
  assert (Hlt : Z.abs b < 2 ^ 1024).
  { pose proof (Z.pow_le_mono_r 2 11 1024 ltac:(lia) ltac:(lia)) as Hp.
    change (2 ^ 11) with 2048 in Hp. lia. }
  destruct (int_truediv_60_finite b Hlt) as (h & -> & _). cbn [bind]. eauto.
Qed.

Lemma selected_client_named (w : world) (cid : string) :
  reachable w -> selected (current_client_id w) = Some cid ->
  exists d n, dict_get (clients w) cid = Some (VDict d) /\
              dict_get d "name" = Some (VStr n).
Proof.
  intros Hr Hsel.
  assert (Hc : current_client_id w = Some cid).
  { unfold selected in Hsel. destruct (current_client_id w) as [c |];
      [|discriminate].
    destruct (String.eqb c ""); [discriminate | congruence]. }
  destruct (reachable_selection_first w Hr cid Hc) as (n & Hn).
  destruct (find_client_first _ _ _ Hn) as (b & d & a & H1 & H2 & _).
  exists d, n. split; [|exact H2].
  destruct (reachable_invariant w Hr) as [(N1 & _) _].
  rewrite H1 in N1 |- *. clear H1. induction b as [| [k v] b IH]; cbn.
  - now rewrite String.eqb_refl.
  - destruct (String.eqb_spec k cid) as [-> | Hk].
    + exfalso. cbn in N1. apply NoDup_cons in N1. destruct N1 as [N1 _].
      apply N1. apply list_elem_of_In. unfold keys. rewrite map_app.
      apply in_or_app. right. now left.
    + apply IH. cbn in N1. apply NoDup_cons in N1. tauto.
Qed.

(** In every state of the window with a client selected and records of
    the right types, [add_appointment] with the values the form can give
    (valid times, a date of the years 1 to 9999, an increment from 1 to
    60, both clock readings on one day) returns: one record is added
    last, under the identifier made of the counter, with the selected
    client, the date as text, the two times, the duration in minutes and
    the cost of [calculate_cost]; the counter goes up by one and the
    clients and the selection stay as they are. *)
Theorem add_appointment_appends (today : Z) (d : date) (s e : time)
    (r : float) (i : Z) (w : world) (cid : string) :
  reachable w -> selected (current_client_id w) = Some cid ->
  forallb appt_okb (map snd (records w)) = true ->
  time_ok s -> time_ok e -> 1 <= today < max_ordinal ->
  date_okb d = true -> 1 <= i <= 60 ->
  exists cost w',
    calculate_cost (duration_spec s e) r i = Ok cost /\
    add_appointment today today d s e r i w = (Ok tt, w') /\
    records w'
    = records w ++
      [(("a" ++ str_of_int (appointment_counter w))%string,
        [("client_id", VStr cid); ("date", VStr (format_date d));
         ("start", VTime s); ("end", VTime e);
         ("duration", VInt (duration_spec s e));
         ("cost", VFloat cost)]%string)] /\
    appointment_counter w' = appointment_counter w + 1 /\
    clients w' = clients w /\ client_counter w' = client_counter w /\
    current_client_id w' = current_client_id w /\
    forallb appt_okb (map snd (records w')) = true.
Proof.
  intros Hr Hsel Hok Hs He Hday Hd Hi.
  destruct (reachable_invariant w Hr) as [(N1 & N2 & B1 & B2) _].
  destruct (reachable_memory w Hr) as [Mc Mr].
  destruct (selected_client_named w cid Hr Hsel) as (cd & cn & Hcd & Hcn).
  pose proof (reachable_filter_ok w Hr) as Hf.
  pose proof (calculate_duration_minutes_elapsed today s e Hs He Hday) as Hdur.
  rewrite <- duration_spec_div in Hdur.
  assert (Hrange : 0 <= duration_spec s e <= 1439).
  { rewrite duration_spec_div.
    pose proof (elapsed_spec_range s e Hs He) as [Hlo Hhi]. split.
    - apply Z.div_pos; lia.
    - assert (elapsed_spec s e / 60000000 < 1440); [|lia].
      apply Z.div_lt_upper_bound; lia. }
  destruct (calculate_cost_form (duration_spec s e) r i Hrange Hi)
    as (cost & Hcost).
  exists cost. unfold add_appointment.
  rewrite bind_get, Hsel, bind_attempt, Hdur, bind_attempt, Hcost.
  rewrite bind_get, bind_update. unfold mbind at 1, new_object, alloc.
  rewrite bind_update.
  set (n := appointment_counter w) in *.
  change ("a" ++ str_of_int n)%string with (String "a" (str_of_int n)).
  set (rec := [("client_id", VStr cid); ("date", VStr (format_date d));
               ("start", VTime s); ("end", VTime e);
               ("duration", VInt (duration_spec s e));
               ("cost", VFloat cost)]%string).
  set (wc := set_appointment_counter (n + 1) w).
  change (heap wc) with (heap w). change (appointments (set_heap _ wc))
    with (appointments w).
  match goal with
  | |- context [mbind load_appointments _ ?x] => set (w0 := x)
  end.
  destruct (ids_after_insert (appointments w) n "a" (length (heap w)) N2 B2)
    as (N2' & B2' & _).
  pose proof (dict_set_fresh (appointments w) _ (length (heap w))
                (below_fresh _ _ "a" B2)) as Haps.
  assert (Hrec0 : records w0 = records w ++ [(String "a" (str_of_int n), rec)]).
  { rewrite (records_extended w w0 [(String "a" (str_of_int n), length (heap w))]
               [rec] Haps eq_refl Mr).
    cbn [map fst snd]. do 3 f_equal. exact (deref_fresh wc (heap w) rec). }
  assert (Hrecok : appt_okb rec = true).
  { unfold appt_okb. cbn [rec dict_get String.eqb Ascii.eqb Bool.eqb].
    now rewrite (parse_date_format_date d Hd). }
  assert (Hok0 : forallb appt_okb (map snd (records w0)) = true).
  { rewrite Hrec0, map_app, forallb_app, Hok. cbn [map snd forallb andb].
    now rewrite Hrecok. }
  destruct (load_appointments_ok w0 cid (VDict cd) (VStr cn))
    as (tn & tds & tcs & rows & Hload); try assumption.
  { cbn [subscript]. unfold dict_item. now rewrite Hcn. }
  unfold mbind at 1. rewrite Hload.
  set (w1 := set_totals _ _ _ _).
  assert (Hm1 : records_ok w1).
  { apply (records_ok_insert wc (String "a" (str_of_int n)) rec); [exact Mr|].
    unfold record_okb. cbn [rec dict_get String.eqb Ascii.eqb Bool.eqb].
    rewrite (time_ok_okb s Hs), (time_ok_okb e He). reflexivity. }
  assert (S : store_okb w1 = true).
  { apply ids_memory_store.
    - unfold ids_ok. repeat split; assumption.
    - split; [exact Mc | exact Hm1]. }
  destruct (save_data_ok w1 S) as (copies & ->).
  eexists. split; [reflexivity|]. split; [reflexivity|].
  match goal with
  | |- records ?x = _ /\ _ =>
      assert (Hrec' : records x = records w0)
        by (apply (records_grown w1 x copies); [reflexivity .. | exact Hm1])
  end.
  rewrite Hrec'. split; [exact Hrec0|].
  do 4 (split; [reflexivity|]). exact Hok0.
Qed.

Lemma add_appointment_appends_witness :
  length (records
            (snd (add_appointment 738000 738000 (mk_date 2024 3 12)
                    (mk_time 14 0 0 0) (mk_time 14 30 0 0)
                    (Float64.of_Z 30) 6 two_appointments))) = 3%nat.
Proof.
  destruct (add_appointment_appends 738000 (mk_date 2024 3 12)
              (mk_time 14 0 0 0) (mk_time 14 30 0 0) (Float64.of_Z 30) 6
              two_appointments "c1" two_appointments_reachable)
    as (cost & w' & _ & H & Hrec & _).
  - vm_compute. reflexivity.
  - vm_compute. reflexivity.
  - unfold time_ok. cbn. lia.
  - unfold time_ok. cbn. lia.
  - unfold max_ordinal. lia.
  - vm_compute. reflexivity.
  - lia.
  - rewrite H. cbn [snd]. rewrite Hrec, length_app.
    vm_compute. reflexivity.
Defined.

(** ** The clock read twice *)

Lemma minutes_of_microseconds_wide (N : Z) :
  0 <= N < 172800000000 ->
  (let* secs := total_seconds N in
   let* mins := Float64.truediv secs (Float64.of_Z 60) in
   Float64.to_int mins) = Ok (N / 60000000).
Proof.
  intros [HN0 HN]. destruct N as [| p | p]; try lia; [reflexivity|].
  set (N := Z.pos p) in *.
  set (d := Zdigits2 N).
  pose proof (Zdigits2_pos N ltac:(lia)) as Hd0. fold d in Hd0.
  assert (Hd : d <= 38) by (apply Zdigits2_le; lia).
  (* first division: the microseconds by 10**6 *)
  destruct (div_normal false false p 1000000 0 0) as (mx & k1 & Hx & Hmx & Hk1 & Hb1).
  { change (Zdigits2 (Z.pos 1000000)) with 20. fold N d. lia. }
  { change (Zdigits2 (Z.pos 1000000)) with 20. fold N d. lia. }
  change (Zdigits2 (Z.pos 1000000)) with 20 in Hx, Hb1. fold N d in Hx, Hb1.
  unfold total_seconds, Float64.int_truediv, Float64.div, Float64.prec, Float64.emax.
  change (1000000 =? 0) with false. cbv iota.
  change (Float64.exact 1000000) with (S754_finite false 1000000 0).
  change (Float64.exact N) with (S754_finite false p 0).
  rewrite Hx. cbn [xorb bind].
  (* second division: the seconds by 60.0 *)
  rewrite of_Z_60. unfold Float64.truediv. cbn [Float64.is_zero bind].
  assert (Hdx : Zdigits2 (Z.pos mx) = 53) by (apply Zdigits2_unique; lia).
  destruct (div_normal false false mx 8444249301319680 (d + 0 - (20 + 0) - 53 + k1) (-47))
    as (my & k2 & Hy & Hmy & Hk2 & Hb2).
  { rewrite Hdx. change (Zdigits2 (Z.pos 8444249301319680)) with 53. lia. }
  { rewrite Hdx. change (Zdigits2 (Z.pos 8444249301319680)) with 53. lia. }
  rewrite Hdx in Hy, Hb2.
  change (Zdigits2 (Z.pos 8444249301319680)) with 53 in Hy, Hb2.
  unfold Float64.div, Float64.prec, Float64.emax. rewrite Hy.
  cbn [xorb Float64.to_int cond_Zopp].
  set (ey := 53 + (d + 0 - (20 + 0) - 53 + k1) - (53 + -47) - 53 + k2).
  replace (0 <=? ey) with false by (symmetry; apply Z.leb_gt; subst ey; lia).
  f_equal.
  (* arithmetic *)
  set (P4 := 2 ^ (71 - d)).
  assert (HP4 : 2 ^ 33 <= P4) by (apply Z.pow_le_mono_r; lia).
  assert (Hs1 : 2 ^ (53 + 20 - d) = 4 * P4).
  { unfold P4. replace (53 + 20 - d) with (2 + (71 - d)) by lia.
    rewrite Z.pow_add_r by lia. reflexivity. }
  assert (Hey : 2 ^ (- ey) = P4 * 2 ^ (8 - k1 - k2)).
  { unfold P4. rewrite <- Z.pow_add_r by lia. f_equal. subst ey. lia. }
  rewrite Hey. rewrite Hs1 in Hb1.
  set (k := N / 60000000).
  pose proof (Z.div_mod N 60000000 ltac:(lia)) as Hdm.
  pose proof (Z.mod_pos_bound N 60000000 ltac:(lia)) as Hmb.
  fold k in Hdm.
  assert (Hk0 : 0 <= k) by (apply Z.div_pos; lia).
  assert (HNP : N * P4 = 60000000 * (k * P4) + N mod 60000000 * P4)
    by (rewrite Hdm at 1; ring).
  assert (Hrem : 0 <= N mod 60000000 * P4 <= 59999999 * P4) by nia.
  assert (HKP : 0 <= k * P4) by nia.
  set (KP := k * P4) in *. set (R := N mod 60000000 * P4) in *.
  replace (2 * (N * (4 * P4))) with (8 * (N * P4)) in Hb1 by ring.
  rewrite HNP in Hb1.
  assert (Hgoal : KP * 2 ^ (8 - k1 - k2) <= Z.pos my
                  < (KP + P4) * 2 ^ (8 - k1 - k2)).
  { clearbody KP R P4. clear Hx Hy Hey Hs1 HNP Hdm Hmb.
    set (X := Z.pos mx) in *. set (Y := Z.pos my) in *. clearbody X Y.
    assert (Hc : (k1 = 0 \/ k1 = 1 \/ k1 = 2) /\ (k2 = 0 \/ k2 = 1 \/ k2 = 2)) by lia.
    destruct Hc as [[-> | [-> | ->]] [-> | [-> | ->]]];
      cbn [Z.sub Z.opp Z.add Z.pow Z.pow_pos Pos.iter Z.mul Pos.mul Pos.add Z.pos_sub
           Pos.succ Pos.pred_double Z.double Z.succ_double Z.pred_double] in *; lia. }
  symmetry. apply (Z.div_unique _ _ _ (Z.pos my - KP * 2 ^ (8 - k1 - k2))).
  - left. assert (0 < 2 ^ (8 - k1 - k2)) by (apply Z.pow_pos_nonneg; lia). nia.
  - unfold KP. ring.
Qed.

Lemma calculate_duration_minutes_days (ts te : Z) (s e : time) :
  time_ok s -> time_ok e -> 1 <= ts -> te + 1 <= max_ordinal ->
  ts <= te <= ts + 1 ->
  calculate_duration_minutes ts te s e
  = Ok (((te - ts) * 86400000000 + elapsed_spec s e) / 60000000).
Proof.
  intros Hs He Hlo Hhi Hte.
  pose proof (elapsed_spec_range s e Hs He) as Hr.
  rewrite <- (minutes_of_microseconds_wide
                ((te - ts) * 86400000000 + elapsed_spec s e)) by nia.
  unfold calculate_duration_minutes, elapsed_spec in *.
  rewrite (time_ltb_us e s He Hs).
  destruct (Z.ltb_spec (time_us e) (time_us s)) as [Hlt | Hge].
  - unfold add_days, combine. cbn [dt_day dt_time].
    replace ((1 <=? te + 1) && (te + 1 <=? max_ordinal)) with true
      by (symmetry; apply andb_true_iff; split; apply Z.leb_le; lia).
    cbn [bind]. unfold datetime_sub. cbn [dt_day dt_time].
    replace ((te + 1 - ts) * 86400000000 + (time_us e - time_us s))
      with ((te - ts) * 86400000000 + (time_us e + 86400000000 - time_us s))
      by lia.
    reflexivity.
  - cbn [bind]. unfold datetime_sub, combine. cbn [dt_day dt_time].
    reflexivity.
Qed.

(** [calculate_duration_minutes] reads the clock twice.  When midnight
    passes between the two readings the end is taken on the next day
    whatever the two times are, and the result is a day longer than the
    time from the start to the end: between 1440 and 2879 minutes. *)
Theorem calculate_duration_minutes_midnight (today : Z) (s e : time) :
  time_ok s -> time_ok e -> 1 <= today -> today + 2 <= max_ordinal ->
  calculate_duration_minutes today (today + 1) s e
  = Ok (duration_spec s e + 1440) /\
  1440 <= duration_spec s e + 1440 <= 2879.
Proof.
  intros Hs He Hlo Hhi. split.
  - rewrite (calculate_duration_minutes_days today (today + 1) s e)
      by (assumption || lia).
    f_equal. rewrite duration_spec_div.
    replace ((today + 1 - today) * 86400000000 + elapsed_spec s e)
      with (elapsed_spec s e + 1440 * 60000000) by lia.
    now rewrite Z.div_add by lia.
  - rewrite duration_spec_div.
    pose proof (elapsed_spec_range s e Hs He) as [H0 H1].
    assert (0 <= elapsed_spec s e / 60000000) by (apply Z.div_pos; lia).
    assert (elapsed_spec s e / 60000000 < 1440)
      by (apply Z.div_lt_upper_bound; lia).
    lia.
Qed.

Lemma calculate_duration_minutes_midnight_witness :
  calculate_duration_minutes 738000 738001
    (mk_time 23 59 59 0) (mk_time 0 30 0 0) = Ok 1470.
Proof.
  destruct (calculate_duration_minutes_midnight 738000
              (mk_time 23 59 59 0) (mk_time 0 30 0 0)) as [H _].
  - unfold time_ok. cbn. lia.
  - unfold time_ok. cbn. lia.
  - lia.
  - unfold max_ordinal. lia.
  - etransitivity; [exact H | vm_compute; reflexivity].
Defined.

Lemma time_us_inj (s e : time) :
  time_ok s -> time_ok e -> time_us s = time_us e -> s = e.
Proof.
  destruct s as [h1 m1 s1 u1], e as [h2 m2 s2 u2]. unfold time_ok, time_us.
  cbn. intros (A1 & A2 & A3 & A4) (B1 & B2 & B3 & B4) H.
  assert (h1 = h2 /\ m1 = m2 /\ s1 = s2 /\ u1 = u2) as (-> & -> & -> & ->)
    by lia.
  reflexivity.
Qed.

(** With both clock readings on one day, the time from a start to an
    end and the time from that end back to that start make up a day: the
    two results add up to 1440 minutes when the two times are a whole
    number of minutes apart, and to 1439 otherwise; for equal times both
    are 0. *)
Theorem calculate_duration_minutes_there_and_back (today : Z) (s e : time) :
  time_ok s -> time_ok e -> 1 <= today < max_ordinal ->
  exists a b,
    calculate_duration_minutes today today s e = Ok a /\
    calculate_duration_minutes today today e s = Ok b /\
    (s = e -> a = 0 /\ b = 0) /\
    (s <> e ->
     a + b = if (time_us e - time_us s) mod 60000000 =? 0 then 1440 else 1439).
Proof.
  intros Hs He Hday.
  exists (elapsed_spec s e / 60000000), (elapsed_spec e s / 60000000).
  split; [now apply calculate_duration_minutes_elapsed|].
  split; [now apply calculate_duration_minutes_elapsed|].
  pose proof (time_us_range s Hs) as Rs. pose proof (time_us_range e He) as Re.
  split.
  - intros <-. unfold elapsed_spec. rewrite Z.ltb_irrefl, Z.sub_diag.
    split; reflexivity.
  - intros Hne.
    assert (Hus : time_us s <> time_us e)
      by (intros E; apply Hne; now apply time_us_inj).
    set (x := elapsed_spec s e).
    assert (Hx : 0 < x < 86400000000 /\ elapsed_spec e s = 86400000000 - x /\
                 x mod 60000000 = (time_us e - time_us s) mod 60000000).
    { unfold x, elapsed_spec.
      destruct (Z.ltb_spec (time_us e) (time_us s));
        destruct (Z.ltb_spec (time_us s) (time_us e)); try lia.
      repeat split; try lia.
      replace (time_us e + 86400000000 - time_us s)
        with (time_us e - time_us s + 1440 * 60000000) by lia.
      now rewrite Z.mod_add by lia. }
    destruct Hx as (Hx & -> & <-). clearbody x.
    pose proof (Z.div_mod x 60000000 ltac:(lia)) as Hdm.
    pose proof (Z.mod_pos_bound x 60000000 ltac:(lia)) as Hmb.
    set (q := x / 60000000) in *. set (m := x mod 60000000) in *.
    destruct (Z.eqb_spec m 0) as [Hm | Hm].
    + replace (86400000000 - x) with ((1440 - q) * 60000000) by lia.
      rewrite Z.div_mul by lia. lia.
    + assert (E : (86400000000 - x) / 60000000 = 1439 - q).
      { symmetry. apply (Z.div_unique _ _ _ (60000000 - m)); lia. }
      lia.
Qed.

Lemma calculate_duration_minutes_there_and_back_witness :
  exists a b,
    calculate_duration_minutes 738000 738000
      (mk_time 9 0 0 0) (mk_time 17 30 0 0) = Ok a /\
    calculate_duration_minutes 738000 738000
      (mk_time 17 30 0 0) (mk_time 9 0 0 0) = Ok b /\
    a + b = 1440.
Proof.
  destruct (calculate_duration_minutes_there_and_back 738000
              (mk_time 9 0 0 0) (mk_time 17 30 0 0))
    as (a & b & Ha & Hb & _ & H).
  - unfold time_ok. cbn. lia.
  - unfold time_ok. cbn. lia.
  - unfold max_ordinal. lia.
  - exists a, b. split; [exact Ha|]. split; [exact Hb|].
    rewrite H; [reflexivity | discriminate].
Defined.

(** ** The minutes that are billed *)

Lemma rounded_minutes_value (d i : Z) :
  1 <= i -> rounded_minutes d i = Ok ((d + i - 1) / i * i).
Proof.
  intros Hi. unfold rounded_minutes, floordiv.
  now replace (i =? 0) with false by (symmetry; apply Z.eqb_neq; lia).
Qed.

Lemma rounded_multiple (k i : Z) : 1 <= i -> (k * i + i - 1) / i * i = k * i.
Proof.
  intros Hi. replace (k * i + i - 1) with (k * i + (i - 1)) by lia.
  rewrite Z.div_add_l by lia. rewrite (Z.div_small (i - 1) i) by lia.
  now rewrite Z.add_0_r.
Qed.

(** For an increment of 1 or more, the minutes that [calculate_cost]
    bills do not go down when the duration goes up, billing the billed
    minutes again gives the same minutes, and the billed minutes are the
    duration exactly when the duration is a multiple of the increment. *)
Theorem rounded_minutes_steps (d1 d2 i : Z) :
  1 <= i -> d1 <= d2 ->
  exists b1 b2,
    rounded_minutes d1 i = Ok b1 /\ rounded_minutes d2 i = Ok b2 /\
    b1 <= b2 /\ rounded_minutes b1 i = Ok b1 /\ (b1 = d1 <-> (i | d1)).
Proof.
  intros Hi Hd. exists ((d1 + i - 1) / i * i), ((d2 + i - 1) / i * i).
  rewrite !rounded_minutes_value by assumption.
  split; [reflexivity|]. split; [reflexivity|]. split.
  - apply Z.mul_le_mono_nonneg_r; [lia|]. apply Z.div_le_mono; lia.
  - split; [now rewrite rounded_multiple|]. split.
    + intros <-. apply Z.divide_factor_r.
    + intros [k ->]. now apply rounded_multiple.
Qed.

Lemma rounded_minutes_steps_witness :
  exists b1 b2,
    rounded_minutes 47 6 = Ok b1 /\ rounded_minutes 48 6 = Ok b2 /\ b1 <= b2.
Proof.
  destruct (rounded_minutes_steps 47 48 6) as (b1 & b2 & H1 & H2 & H & _);
    [lia | lia |].
  now exists b1, b2.
Defined.

(** ** The totals and the lines of the appointment list *)

Lemma list_appointment_row (cid : string) (l : nat) (n n' : Z)
    (d c d' c' : pyval) (w w' : world) :
  list_appointment cid l (n, d, c) w = (Ok (n', d', c'), w') ->
  (w' = w /\ n' = n /\ d' = d /\ c' = c) \/
  exists r, w' = set_appt_list (appt_list w ++ [r]) w /\ n' = n + 1 /\
            py_add d (row_duration r) = Ok d' /\
            py_add c (row_cost r) = Ok c'.
Proof.
  unfold list_appointment. rewrite bind_get, bind_attempt.
  destruct (dict_item (deref w l) "client_id") as [v | x]; [|discriminate].
  destruct (is_str v cid).
  2: { intros [= <- <- <- <-]. now left. }
  rewrite bind_lift.
  destruct (filtered_out w (deref w l)) as [[|] | x]; [| |discriminate].
  { intros [= <- <- <- <-]. now left. }
  rewrite bind_attempt.
  destruct (render_row (deref w l)) as [r | x]; [|discriminate].
  rewrite bind_update, bind_attempt.
  destruct (py_add d (row_duration r)) as [d1 | x] eqn:E1; [|discriminate].
  rewrite bind_attempt.
  destruct (py_add c (row_cost r)) as [c1 | x] eqn:E2; [|discriminate].
  intros [= <- <- <- <-]. right. now exists r.
Qed.

Lemma list_appointments_rows (cid : string) (ls : list nat) :
  forall (n n' : Z) (d c d' c' : pyval) (w w' : world),
    fold_each ls (n, d, c) (list_appointment cid) w = (Ok (n', d', c'), w') ->
    exists rows,
      w' = set_appt_list (appt_list w ++ rows) w /\
      n' = n + Z.of_nat (length rows) /\
      sum_values d (map row_duration rows) = Ok d' /\
      sum_values c (map row_cost rows) = Ok c'.
Proof.
  induction ls as [| l ls IH]; intros n n' d c d' c' w w' H.
  - cbn in H. injection H as <- <- <- <-. exists []. cbn.
    rewrite app_nil_r, Z.add_0_r. repeat split. destruct w; reflexivity.
  - cbn [fold_each] in H. apply bind_ok in H.
    destruct H as ([[n1 d1] c1] & w1 & H1 & H).
    destruct (IH _ _ _ _ _ _ _ _ H) as (rows & -> & -> & Hd & Hc).
    destruct (list_appointment_row _ _ _ _ _ _ _ _ _ _ H1)
      as [(-> & -> & -> & ->) | (r & -> & -> & Ed & Ec)].
    + now exists rows.
    + exists (r :: rows). cbn [map sum_values length]. rewrite Ed, Ec.
      cbn [bind appt_list set_appt_list]. repeat split; try assumption.
      * rewrite <- app_assoc. destruct w; reflexivity.
      * lia.
Qed.

Lemma load_appointments_totals (w w' : world) :
  load_appointments w = (Ok tt, w') -> totals_match w'.
Proof.
  unfold load_appointments. rewrite bind_update, bind_get.
  destruct (selected (current_client_id (set_appt_list [] w))) as [cid |].
  - rewrite bind_lift.
    destruct (dict_item (clients (set_appt_list [] w)) cid) as [c | x];
      [|discriminate].
    rewrite bind_attempt.
    destruct (subscript c "name") as [name | x]; [|discriminate].
    rewrite bind_update, bind_get. intros H.
    apply bind_ok in H. destruct H as ([[n d] c0] & w1 & H1 & H).
    destruct (list_appointments_rows _ _ _ _ _ _ _ _ _ _ H1)
      as (rows & -> & -> & Hd & Hc).
    injection H as <-. unfold totals_match. cbn. auto.
  - intros [= <-]. unfold totals_match. cbn. auto.
Qed.

Lemma totals_match_same (w w' : world) :
  totals_state w' = totals_state w -> totals_match w -> totals_match w'.
Proof.
  unfold totals_state, totals_match. intros [= -> -> -> ->]. exact id.
Qed.

Lemma save_data_totals : stable (same_on totals_state) save_data.
Proof.
  apply (stable_weaken kept); [|exact save_data_kept].
  intros w w' (x & cf & af & ->). destruct w; reflexivity.
Qed.

Lemma refresh_client_list_totals :
  stable (same_on totals_state) refresh_client_list.
Proof.
  unfold refresh_client_list, show_client. repeat stable_step; reflexivity.
Qed.

Lemma perform_totals_match (a : action) (w w' : world) :
  perform a w = (Ok tt, w') -> totals_match w -> totals_match w'.
Proof.
  intros H Hm.
  destruct a as [name phone email | name | | from to | | ts te d s e r i];
    cbn [perform] in H.
  - rewrite (snd_eq _ _ _ _ H). apply (totals_match_same w); [|exact Hm].
    generalize w.
    change (stable (same_on totals_state) (add_client name phone email)).
    unfold add_client. repeat stable_step;
      auto using refresh_client_list_totals, save_data_totals; reflexivity.
  - unfold open_client_appointments in H. rewrite bind_lift in H.
    destruct (find_client (clients w) name) as [found | x]; [|discriminate].
    apply bind_ok in H. destruct H as ([] & w1 & H1 & H).
    assert (Hm1 : totals_match w1).
    { destruct found; injection H1 as <-; exact Hm. }
    rewrite bind_get in H.
    destruct (selected (current_client_id w1)).
    + apply bind_ok in H. destruct H as ([] & w2 & H2 & H).
      injection H as <-. exact (load_appointments_totals _ _ H2).
    + now injection H as <-.
  - rewrite (snd_eq _ _ _ _ H). apply (totals_match_same w); [|exact Hm].
    generalize w. change (stable (same_on totals_state) go_back_to_clients).
    unfold go_back_to_clients. repeat stable_step;
      auto using refresh_client_list_totals; reflexivity.
  - unfold apply_date_filter in H. rewrite bind_update in H.
    destruct (date_ltb to from).
    + injection H as <-. exact Hm.
    + rewrite bind_update in H. exact (load_appointments_totals _ _ H).
  - unfold clear_date_filter in H. rewrite bind_update in H.
    exact (load_appointments_totals _ _ H).
  - unfold add_appointment in H. rewrite bind_get in H.
    destruct (selected (current_client_id w)) as [cid |].
    2: { injection H as <-. exact Hm. }
    rewrite bind_attempt in H.
    destruct (calculate_duration_minutes ts te s e) as [dur | x];
      [|discriminate].
    rewrite bind_attempt in H.
    destruct (calculate_cost dur r i) as [cost | x]; [|discriminate].
    rewrite bind_get, bind_update in H.
    unfold mbind at 1, new_object, alloc in H. rewrite bind_update in H.
    apply bind_ok in H. destruct H as ([] & w1 & H1 & H).
    rewrite (snd_eq _ _ _ _ H).
    apply (totals_match_same w1); [apply save_data_totals|].
    exact (load_appointments_totals _ _ H1).
Qed.

Lemma init_totals_match (cf af : option file) (w : world) :
  init (boot cf af) = (Ok tt, w) -> totals_match w.
Proof.
  intros H. rewrite (snd_eq _ _ _ _ H).
  apply (totals_match_same (boot cf af)).
  - generalize (boot cf af). change (stable (same_on totals_state) init).
    unfold init, load_data, load_clients, update_item,
      load_appointments_file, load_appointment, update_counters, set_item,
      get_item.
    stable_steps; auto using refresh_client_list_totals; reflexivity.
  - unfold totals_match. cbn. auto.
Qed.

(** In every state of the window the three totals are those of the
    lines that the appointment list shows: the number of the lines, and
    their durations and their costs added one after the other from 0 and
    from 0.0. *)
Theorem totals_match_list (w : world) :
  reachable w ->
  total_appointments_label w = VInt (Z.of_nat (length (appt_list w))) /\
  sum_values (VInt 0) (map row_duration (appt_list w))
  = Ok (total_duration_label w) /\
  sum_values (VFloat Float64.zero) (map row_cost (appt_list w))
  = Ok (total_cost_label w).
Proof.
  induction 1 as [cf af w _ _ H | w a w' _ IH _ H].
  - now apply init_totals_match with cf af.
  - now apply perform_totals_match with a w.
Qed.

Lemma totals_match_list_witness :
  total_appointments_label two_appointments = VInt 2.
Proof.
  rewrite (proj1 (totals_match_list two_appointments two_appointments_reachable)).
  vm_compute. reflexivity.
Defined.

(** ** Saving twice *)

(** In every state of the window [save_data] can be called again and
    again: each call returns, the second call writes the two files that
    the first one wrote, and the clients and the records in memory stay
    as they are. *)
Theorem save_data_twice (w : world) :
  reachable w ->
  exists w1 w2,
    save_data w = (Ok tt, w1) /\ save_data w1 = (Ok tt, w2) /\
    clients_file w2 = clients_file w1 /\ appts_file w2 = appts_file w1 /\
    clients w2 = clients w /\ records w2 = records w.
Proof.
  intros Hr. pose proof (reachable_store w Hr) as S.
  destruct (reachable_memory w Hr) as [_ Mr].
  destruct (save_data_ok w S) as (copies & H1).
  set (w1 := set_appts_file _ _) in H1.
  assert (R1 : records w1 = records w)
    by (now apply (records_grown w w1 copies)).
  assert (S1 : store_okb w1 = true).
  { unfold store_okb. rewrite R1. exact S. }
  destruct (save_data_ok w1 S1) as (copies' & H2).
  set (w2 := set_appts_file _ _) in H2.
  exists w1, w2. split; [exact H1|]. split; [exact H2|].
  assert (R2 : records w2 = records w1).
  { apply (records_grown w1 w2 copies'); [reflexivity .. |].
    now apply store_records_ok. }
  split; [reflexivity|]. split.
  - unfold w2, saved_items. cbn [appts_file set_appts_file]. now rewrite R1.
  - split; [reflexivity | congruence].
Qed.

Lemma save_data_twice_witness :
  appts_file (snd (save_data (snd (save_data two_appointments))))
  = appts_file (snd (save_data two_appointments)).
Proof.
  destruct (save_data_twice two_appointments two_appointments_reachable)
    as (w1 & w2 & H1 & H2 & _ & H & _).
  rewrite H1. cbn [snd]. rewrite H2. exact H.
Defined.

(** ** Looking changes nothing *)

(** In every state of the window, opening a client, going back to the
    clients, setting the date filter and clearing it leave the store and
    the files alone, whether they return or raise: the clients, the
    appointments, every record and the two files are as before. *)
Theorem browsing_keeps_store (a : action) (w : world) :
  reachable w -> browses a = true ->
  clients (snd (perform a w)) = clients w /\
  appointments (snd (perform a w)) = appointments w /\
  records (snd (perform a w)) = records w /\
  clients_file (snd (perform a w)) = clients_file w /\
  appts_file (snd (perform a w)) = appts_file w.
Proof.
  intros _ Hb. pose proof (other_actions_store a) as H.
  assert (E : store (snd (perform a w)) = store w)
    by (destruct a; try discriminate Hb; apply H).
  unfold store in E. injection E as E1 E2 E3 E4 E5.
  unfold records, deref. rewrite E1, E2, E3, E4, E5. auto.
Qed.

Lemma browsing_keeps_store_witness :
  appts_file (snd (perform ClearFilter two_appointments))
  = appts_file two_appointments.
Proof.
  apply (browsing_keeps_store ClearFilter two_appointments).
  - exact two_appointments_reachable.
  - reflexivity.
Defined.

(** ** Opening a client *)

Lemma found_client_named (cs : pydict) (name cid : string) :
  NoDup (keys cs) -> find_client cs name = Ok (Some cid) ->
  exists d, dict_get cs cid = Some (VDict d) /\
            dict_get d "name" = Some (VStr name).
Proof.
  intros N1 Hn.
  destruct (find_client_first _ _ _ Hn) as (b & d & a & H1 & H2 & _).
  exists d. split; [|exact H2].
  rewrite H1 in N1 |- *. clear H1. induction b as [| [k v] b IH]; cbn.
  - now rewrite String.eqb_refl.
  - destruct (String.eqb_spec k cid) as [-> | Hk].
    + exfalso. cbn in N1. apply NoDup_cons in N1. destruct N1 as [N1 _].
      apply N1. apply list_elem_of_In. unfold keys. rewrite map_app.
      apply in_or_app. right. now left.
    + apply IH. cbn in N1. apply NoDup_cons in N1. tauto.
Qed.

Lemma key_selected (ks : list string) (n : Z) (cid : string) :
  below ks n -> In cid ks -> selected (Some cid) = Some cid.
Proof.
  intros Hb Hin. unfold selected.
  destruct (String.eqb_spec cid "") as [-> | _]; [|reflexivity].
  destruct (Hb _ Hin) as (m & Hm & _). discriminate Hm.
Qed.

Lemma filter_ext_in {A : Type} (f g : A -> bool) (l : list A) :
  (forall a, f a = g a) -> List.filter f l = List.filter g l.
Proof.
  intros H. induction l as [| a l IH]; cbn; [reflexivity|].
  now rewrite H, IH.
Qed.

Lemma in_range_passes (w : world) (cid : string) (from to : date)
    (a : pydict) :
  date_filter_active w = true -> filter_from w = Some from ->
  filter_to w = Some to ->
  in_range cid from to a = of_client cid a && passes w a.
Proof.
  intros Ha Hf Ht. unfold in_range, of_client, passes. rewrite Ha, Hf, Ht.
  destruct (dict_get a "client_id") as [c |]; [|reflexivity].
  destruct (dict_get a "date") as [[| | | | s | | |] |];
    try (now rewrite andb_false_r).
  reflexivity.
Qed.

Lemma load_appointments_listed (w : world) (cid : string) (c name : pyval) :
  selected (current_client_id w) = Some cid ->
  dict_get (clients w) cid = Some c -> subscript c "name" = Ok name ->
  filter_ok w -> forallb appt_okb (map snd (records w)) = true ->
  let sel := listed w cid in
  exists rows,
    load_appointments w
    = (Ok tt,
       set_totals (VInt (Z.of_nat (length sel))) (VInt (sum_durations sel))
         (VFloat (sum_costs sel))
         (set_appt_list rows (set_client_label (Some name) w))) /\
    Forall2 (fun a r => render_row a = Ok r) sel rows.
Proof.
  intros Hsel Hc Hname Hf Hok. cbv zeta. unfold listed.
  assert (Hok' : Forall appt_ok (map snd (records w))).
  { apply Forall_forall. intros a Hin. apply list_elem_of_In in Hin.
    exact (proj1 (forallb_forall _ _) Hok a Hin). }
  rewrite records_values in *.
  set (w1 := set_client_label (Some name) (set_appt_list [] w)).
  destruct (date_filter_active w) eqn:Ha.
  - destruct (Hf Ha) as (from & to & Hfrom & Hto).
    destruct (list_appointments_loop cid from to (values (appointments w))
                0 0 Float64.zero w1 Ha Hfrom Hto Hok')
      as (rows & Hrows & Hloop).
    cbv zeta in Hloop, Hrows.
    change (map (deref w1) (values (appointments w)))
      with (map (deref w) (values (appointments w))) in Hloop, Hrows.
    rewrite (filter_ext_in _ (fun a => of_client cid a && passes w a) _
               (fun a => in_range_passes w cid from to a Ha Hfrom Hto))
      in Hloop, Hrows.
    exists rows. split; [|exact Hrows].
    apply (load_appointments_run w cid c name); assumption.
  - destruct (list_appointments_unfiltered_loop cid (values (appointments w))
                0 0 Float64.zero w1 Ha) as (rows & Hrows & Hloop).
    { eapply Forall_impl; [exact Hok'|]. intros a.
      apply appt_okb_listable. }
    cbv zeta in Hloop, Hrows.
    change (map (deref w1) (values (appointments w)))
      with (map (deref w) (values (appointments w))) in Hloop, Hrows.
    rewrite (filter_ext_in _ (fun a => of_client cid a && passes w a) _)
      in Hloop, Hrows
      by (intros a; unfold passes; rewrite Ha; now rewrite andb_true_r).
    exists rows. split; [|exact Hrows].
    apply (load_appointments_run w cid c name); assumption.
Qed.

(** In every state of the window with records of the right types,
    [open_client_appointments] with the name of a client returns: the
    first client of that name is selected, the appointments page is
    shown with the name of the client in its heading, the list shows
    exactly the records of that client that the date filter lets
    through, in the order of the dict, the totals are the number of these
    records and the sums of their durations and of their costs, and
    nothing else changes. *)
Theorem open_client_appointments_shows (name cid : string) (w : world) :
  reachable w -> find_client (clients w) name = Ok (Some cid) ->
  forallb appt_okb (map snd (records w)) = true ->
  let sel := listed w cid in
  exists rows,
    open_client_appointments name w
    = (Ok tt,
       set_current_page AppointmentsPage
         (set_totals (VInt (Z.of_nat (length sel))) (VInt (sum_durations sel))
            (VFloat (sum_costs sel))
            (set_appt_list rows
               (set_client_label (Some (VStr name))
                  (set_current_client_id (Some cid) w))))) /\
    Forall2 (fun a r => render_row a = Ok r) sel rows /\
    (forall a, In a sel <->
               In a (map snd (records w)) /\
               of_client cid a = true /\ passes w a = true).
Proof.
  intros Hr Hfind Hok. cbv zeta.
  destruct (reachable_invariant w Hr) as [(N1 & _ & B1 & _) _].
  destruct (found_client_named _ _ _ N1 Hfind) as (d & Hd & Hname).
  pose proof (key_selected _ _ _ B1 (find_client_in _ _ _ Hfind)) as Hsel.
  set (w1 := set_current_client_id (Some cid) w).
  destruct (load_appointments_listed w1 cid (VDict d) (VStr name))
    as (rows & Hload & Hrows); try assumption.
  { cbn [subscript]. unfold dict_item. now rewrite Hname. }
  { apply (filter_ok_same w); [reflexivity|].
    now apply reachable_filter_ok. }
  cbv zeta in Hload, Hrows.
  change (listed w1 cid) with (listed w cid) in Hload, Hrows.
  exists rows. split; [|split; [exact Hrows|]].
  - unfold open_client_appointments.
    rewrite bind_lift, Hfind, bind_update, bind_get. fold w1.
    change (current_client_id w1) with (Some cid). rewrite Hsel.
    unfold mbind at 1. rewrite Hload. reflexivity.
  - intros a. unfold listed. rewrite filter_In, andb_true_iff. tauto.
Qed.

Lemma open_client_appointments_shows_witness :
  total_appointments_label
    (snd (open_client_appointments "Ann" two_appointments)) = VInt 2.
Proof.
  destruct (open_client_appointments_shows "Ann" "c1" two_appointments
              two_appointments_reachable) as (rows & H & _).
  - vm_compute. reflexivity.
  - vm_compute. reflexivity.
  - rewrite H. vm_compute. reflexivity.
Defined.

(** ** A date range that is taken *)

(** [apply_date_filter] with a From date that is not after the To date,
    a client selected and records of the right types returns: the filter
    is on with these two dates, and the list shows exactly the records of
    the client dated from From to To, both included, in the order of the
    dict, with the totals of these records. *)
Theorem apply_date_filter_lists_range (w : world) (from to : date)
    (cid : string) (c name : pyval) :
  date_ltb to from = false ->
  selected (current_client_id w) = Some cid ->
  dict_get (clients w) cid = Some c -> subscript c "name" = Ok name ->
  forallb appt_okb (map snd (records w)) = true ->
  let sel := List.filter (in_range cid from to) (map snd (records w)) in
  exists rows,
    apply_date_filter from to w
    = (Ok tt,
       set_totals (VInt (Z.of_nat (length sel))) (VInt (sum_durations sel))
         (VFloat (sum_costs sel))
         (set_appt_list rows
            (set_client_label (Some name)
               (set_filter true (Some from) (Some to) w)))) /\
    Forall2 (fun a r => render_row a = Ok r) sel rows.
Proof.
  intros Hle Hsel Hc Hname Hok. cbv zeta.
  assert (Hok' : Forall appt_ok (map snd (records w))).
  { apply Forall_forall. intros a Hin. apply list_elem_of_In in Hin.
    exact (proj1 (forallb_forall _ _) Hok a Hin). }
  rewrite records_values in *.
  set (wf := set_filter true (Some from) (Some to) w).
  set (w1 := set_client_label (Some name) (set_appt_list [] wf)).
  destruct (list_appointments_loop cid from to (values (appointments w))
              0 0 Float64.zero w1) as (rows & Hrows & Hloop);
    [reflexivity | reflexivity | reflexivity | exact Hok' |].
  cbv zeta in Hloop, Hrows.
  change (map (deref w1) (values (appointments w)))
    with (map (deref w) (values (appointments w))) in Hloop, Hrows.
  exists rows. split; [|exact Hrows].
  unfold apply_date_filter. rewrite bind_update, Hle, bind_update.
  apply (load_appointments_run wf cid c name); assumption.
Qed.

Lemma apply_date_filter_lists_range_witness :
  total_appointments_label
    (snd (apply_date_filter (mk_date 2024 3 9) (mk_date 2024 3 9)
            two_appointments)) = VInt 1.
Proof.
  destruct (apply_date_filter_lists_range two_appointments
              (mk_date 2024 3 9) (mk_date 2024 3 9) "c1"
              (VDict [("name", VStr "Ann"); ("phone", VStr "555");
                      ("email", VStr "")]%string)
              (VStr "Ann")) as (rows & Heq & _).
  - vm_compute. reflexivity.
  - vm_compute. reflexivity.
  - vm_compute. reflexivity.
  - vm_compute. reflexivity.
  - vm_compute. reflexivity.
  - rewrite Heq. vm_compute. reflexivity.
Defined.
